(** * nixcraft-auth: the credential core of nixcraft, embedded in Rocq

    This development embeds [packages/nixcraft-auth/nixcraft_auth.py]: the
    token store ([save_tokens], [load_tokens]), the provider client (one
    request per hop), the orchestration ([full_auth_flow]) and the commands
    [login], [refresh], [status], [logout] and [token_path]; and, from
    [packages/nixcraft-skin/nixcraft_skin.py], [load_access_token], which
    reads the bearer file these commands leave.

    Python's effects are explicit.  A command is a function from a [state]
    (the files of the data directory, the wall clock in whole seconds as
    [int(time.time())] reads it, and the log of everything the run did) to
    an outcome and a new state; an outcome is a value or a raised exception.
    What lies outside the program is a [World]: the HTTPS endpoints, the
    process umask, and the three standard-library parsers the code calls.

    Limits of the model.  JSON values carry integers for numbers: a
    response whose [expires_in] has a fraction or an exponent is outside
    it.  The clock moves only while a request is in flight.  The files of
    the data directory are regular files of the user, so that opening,
    writing, restricting and unlinking them succeed; a run is not
    interrupted from outside. *)

From Stdlib Require Import ZArith Ascii String List.
From stdpp Require Import base option gmap strings list fin_maps.

Open Scope Z_scope.
Set Warnings "-register-all".

(** ** JSON values and the Python operations the code applies to them *)

(** What [json.load] and [response.json()] return, and what [json.dump]
    takes.  A Python dict is an association list in insertion order, read
    by its first binding of a key; [None] is [JNull]. *)
Inductive json : Type :=
  | JNull
  | JBool (b : bool)
  | JInt (n : Z)
  | JStr (s : string)
  | JList (items : list json)
  | JObj (fields : list (string * json)).

(** A reply of an endpoint: no response at all, or a status code with a
    body that [response.json()] decodes ([Some]) or rejects ([None]). *)
Inductive reply : Type :=
  | ConnectionFailed
  | Response (status_code : Z) (body : option json).

(** The exceptions a run can raise. *)
Inductive exn : Type :=
  | KeyError
  | IndexError
  | TypeError
  | AttributeError
  | FileNotFoundError
  | JSONDecodeError
  | RequestException            (* a transport failure of [requests] *)
  | HTTPError (status_code : Z) (body : option json)
  | SystemExit (code : Z).

Inductive result (A : Type) : Type :=
  | Ok (a : A)
  | Raise (e : exn).
Arguments Ok {A} a.
Arguments Raise {A} e.

Fixpoint assoc {A : Type} (k : string) (kvs : list (string * A)) : option A :=
  match kvs with
  | [] => None
  | (k', v) :: rest => if String.eqb k k' then Some v else assoc k rest
  end.

(** [bool(v)] *)
Definition truthy (v : json) : bool :=
  match v with
  | JNull => false
  | JBool b => b
  | JInt n => negb (n =? 0)
  | JStr s => negb (String.eqb s "")
  | JList items => match items with [] => false | _ => true end
  | JObj fields => match fields with [] => false | _ => true end
  end.

(** [v[k]] for a string key [k] *)
Definition getitem (v : json) (k : string) : result json :=
  match v with
  | JObj fields =>
      match assoc k fields with
      | Some x => Ok x
      | None => Raise KeyError
      end
  | _ => Raise TypeError
  end.

(** [v.get(k, default)] *)
Definition dict_get (v : json) (k : string) (default : json) : result json :=
  match v with
  | JObj fields =>
      match assoc k fields with
      | Some x => Ok x
      | None => Ok default
      end
  | _ => Raise AttributeError
  end.

(** [v[0]] *)
Definition getitem0 (v : json) : result json :=
  match v with
  | JList items =>
      match items with
      | x :: _ => Ok x
      | [] => Raise IndexError
      end
  | JStr s =>
      match s with
      | String c _ => Ok (JStr (String c ""))
      | EmptyString => Raise IndexError
      end
  | JObj _ => Raise KeyError
  | _ => Raise TypeError
  end.

(** The integer a value counts as in [+], [-] and [>] against an [int]:
    an [int] itself, or a [bool] ([True] is 1). *)
Definition int_value (v : json) : option Z :=
  match v with
  | JInt n => Some n
  | JBool b => Some (Z.b2z b)
  | _ => None
  end.

(** [n + v] for an [int] n *)
Definition int_add (n : Z) (v : json) : result json :=
  match int_value v with
  | Some m => Ok (JInt (n + m))
  | None => Raise TypeError
  end.

(** ** Files, events and the state of a run *)

(** The text of a file: what [json.dump(j, f, indent=2)] wrote, which
    [json.load] reads back as [j], or text written as it is. *)
Inductive content : Type :=
  | JsonDoc (j : json)
  | Raw (s : string).

Record file : Type := mkFile { body_of : content; mode : Z }.

(** The variable part of each request; the rest (URL, headers, constant
    fields) is fixed by the function that sends it. *)
Inductive request : Type :=
  | ReqExchange (code : string)              (* POST MS_TOKEN_URL, authorization_code *)
  | ReqRefresh (refresh_token : json)        (* POST MS_TOKEN_URL, refresh_token *)
  | ReqXboxLive (ms_access_token : json)     (* POST XBL_AUTH_URL *)
  | ReqXsts (xbl_token : json)               (* POST XSTS_AUTH_URL *)
  | ReqMinecraft (xsts_token user_hash : json) (* POST MC_AUTH_URL *)
  | ReqProfile (mc_access_token : json).     (* GET MC_PROFILE_URL *)

(** How the access token reads in [status]. *)
Inductive validity : Type :=
  | Valid (hours minutes : Z)     (* "Valid ({hours}h {minutes}m remaining)" *)
  | Expired.                      (* "Expired (run 'nixcraft-auth refresh')" *)

(** The lines [click.echo] prints, with the values interpolated in them. *)
Inductive message : Type :=
  | MsgXboxLive | MsgXsts | MsgMinecraft | MsgProfile
  | MsgOpeningBrowser | MsgVisit (url : string) | MsgAfterLogin | MsgCopyUrl
  | MsgNoCode | MsgMakeSure | MsgExchanging
  | MsgLoggedIn (username uuid : json) | MsgTokensSaved | MsgUseThis
  | MsgAccessTokenPath
  | MsgAuthFailed (e : exn) | MsgResponse (body : option json)
  | MsgNoRefreshToken | MsgRefreshing | MsgRefreshed (username : json)
  | MsgRefreshFailed (e : exn) | MsgLoginAgain
  | MsgNotLoggedIn | MsgUsername (v : json) | MsgUuid (v : json)
  | MsgToken (v : validity) | MsgDataDir
  | MsgRemoved (n : Z) | MsgNothingToRemove
  | MsgTokenPath.

(** What a run does, one event per effect.  [EvFile name f] says the file
    [name] of the data directory was touched and is now [f] ([None]:
    deleted). *)
Inductive event : Type :=
  | EvEcho (err : bool) (m : message)
  | EvBrowser (url : string)
  | EvRequest (q : request) (r : reply)
  | EvMkdir
  | EvFile (name : string) (f : option file).

(** [store]: [None] when the data directory does not exist, else its
    files.  [log] has the latest event first. *)
Record state : Type := mkState {
  store : option (gmap string file);
  clock : Z;
  log : list event
}.

Record World : Type := mkWorld {
  umask : Z;
  (** [urlparse(url).query] *)
  urlparse_query : string -> string;
  (** [parse_qs(query)] *)
  parse_qs : string -> list (string * list string);
  (** [json.load] on text that [json.dump] did not write *)
  json_loads : string -> option json;
  (** the reply to a request, and the seconds the clock moves meanwhile *)
  network : request -> Z * reply
}.

(** ** The monad of commands *)

Definition M (A : Type) : Type := state -> result A * state.

#[global] Instance M_ret : MRet M := fun A a s => (Ok a, s).
#[global] Instance M_bind : MBind M := fun A B f m s =>
  match m s with
  | (Ok a, s') => f a s'
  | (Raise e, s') => (Raise e, s')
  end.

Definition raise {A : Type} (e : exn) : M A := fun s => (Raise e, s).

Definition lift {A : Type} (r : result A) : M A := fun s => (r, s).

Definition emit (ev : event) : M unit := fun s =>
  (Ok tt, mkState (store s) (clock s) (ev :: log s)).

(** [try: body except requests.HTTPError as e: handler] *)
Definition try_except_HTTPError {A : Type} (body : M A)
    (handler : Z -> option json -> M A) : M A := fun s =>
  match body s with
  | (Raise (HTTPError st b), s') => handler st b s'
  | other => other
  end.

Definition click_echo (m : message) : M unit := emit (EvEcho false m).
Definition click_echo_err (m : message) : M unit := emit (EvEcho true m).
Definition sys_exit {A : Type} (code : Z) : M A := raise (SystemExit code).

(** [int(time.time())] *)
Definition time_now : M Z := fun s => (Ok (clock s), s).

(** ** The data directory *)

(** [DATA_DIR.mkdir(parents=True, exist_ok=True)] *)
Definition get_data_dir : M unit := fun s =>
  match store s with
  | Some _ => (Ok tt, s)
  | None => (Ok tt, mkState (Some ∅) (clock s) (EvMkdir :: log s))
  end.

(** Replace the file [name] by [f] and log what it has become. *)
Definition put_file (name : string) (f : file) : M unit := fun s =>
  match store s with
  | Some files =>
      (Ok tt, mkState (Some (<[name := f]> files)) (clock s)
                      (EvFile name (Some f) :: log s))
  | None => (Raise FileNotFoundError, s)
  end.

Definition stat (name : string) : M (option file) := fun s =>
  match store s with
  | Some files => (Ok (files !! name), s)
  | None => (Ok None, s)
  end.

(** [open(path, 'w')]: an existing file is emptied and keeps its mode, a
    new one is created with mode [0o666 & ~umask]. *)
Definition open_w (w : World) (name : string) : M unit :=
  old ← stat name;
  match old with
  | Some f => put_file name (mkFile (Raw "") (mode f))
  | None => put_file name (mkFile (Raw "") (Z.ldiff 438 (umask w)))
  end.

(** Writing the whole text of the open file [name]. *)
Definition write_content (name : string) (c : content) : M unit :=
  old ← stat name;
  match old with
  | Some f => put_file name (mkFile c (mode f))
  | None => raise FileNotFoundError
  end.

(** [json.dump(data, f, indent=2)] *)
Definition json_dump (data : json) (name : string) : M unit :=
  write_content name (JsonDoc data).

(** [f.write(v)]: only a [str] can be written. *)
Definition f_write (name : string) (v : json) : M unit :=
  match v with
  | JStr s => write_content name (Raw s)
  | _ => raise TypeError
  end.

(** [os.chmod(path, m)] *)
Definition os_chmod (name : string) (m : Z) : M unit :=
  old ← stat name;
  match old with
  | Some f => put_file name (mkFile (body_of f) m)
  | None => raise FileNotFoundError
  end.

(** [path.exists()] *)
Definition path_exists (name : string) : M bool :=
  old ← stat name;
  mret (match old with Some _ => true | None => false end).

(** [path.unlink()] *)
Definition path_unlink (name : string) : M unit := fun s =>
  match store s with
  | Some files =>
      match files !! name with
      | Some _ =>
          (Ok tt, mkState (Some (delete name files)) (clock s)
                          (EvFile name None :: log s))
      | None => (Raise FileNotFoundError, s)
      end
  | None => (Raise FileNotFoundError, s)
  end.

(** Mode [0o600]: read and write for the owner, nothing for anyone else. *)
Definition mode_0600 : Z := 384.

Definition save_tokens (w : World) (data : json) (filename : string) : M unit :=
  get_data_dir;;
  open_w w filename;;
  json_dump data filename;;
  os_chmod filename mode_0600.

Definition load_tokens (w : World) (filename : string) : M json :=
  get_data_dir;;
  old ← stat filename;
  match old with
  | Some f =>
      match body_of f with
      | JsonDoc j => mret j
      | Raw s =>
          match json_loads w s with
          | Some j => mret j
          | None => raise JSONDecodeError
          end
      end
  | None => mret JNull
  end.

(** ** Provider client *)

(** [requests.post(...)] or [requests.get(...)]: the reply arrives, the
    clock has moved. *)
Definition requests_send (w : World) (q : request) : M reply := fun s =>
  let '(elapsed, r) := network w q in
  match r with
  | ConnectionFailed =>
      (Raise RequestException,
       mkState (store s) (clock s + elapsed) (EvRequest q r :: log s))
  | Response _ _ =>
      (Ok r, mkState (store s) (clock s + elapsed) (EvRequest q r :: log s))
  end.

(** [response.raise_for_status()] *)
Definition raise_for_status (r : reply) : M unit :=
  match r with
  | Response st b =>
      if (400 <=? st) && (st <? 600) then raise (HTTPError st b) else mret tt
  | ConnectionFailed => raise RequestException
  end.

(** [response.json()] *)
Definition response_json (r : reply) : M json :=
  match r with
  | Response _ (Some j) => mret j
  | Response _ None => raise JSONDecodeError
  | ConnectionFailed => raise RequestException
  end.

Definition call (w : World) (q : request) : M json :=
  response ← requests_send w q;
  raise_for_status response;;
  response_json response.

Definition exchange_code_for_token (w : World) (code : string) : M json :=
  call w (ReqExchange code).

Definition refresh_microsoft_token (w : World) (refresh_token : json) : M json :=
  call w (ReqRefresh refresh_token).

Definition xbox_live_auth (w : World) (ms_access_token : json) : M json :=
  call w (ReqXboxLive ms_access_token).

Definition xsts_auth (w : World) (xbl_token : json) : M json :=
  call w (ReqXsts xbl_token).

Definition minecraft_auth (w : World) (xsts_token user_hash : json) : M json :=
  call w (ReqMinecraft xsts_token user_hash).

Definition get_minecraft_profile (w : World) (mc_access_token : json) : M json :=
  call w (ReqProfile mc_access_token).

(** ** Credential orchestrator *)

Definition MICROSOFT_TOKEN : string := "microsoft_token.json".
Definition MINECRAFT_TOKEN : string := "minecraft_token.json".
Definition ACCESS_TOKEN : string := "access_token".

Definition CLIENT_ID : string := "00000000402b5328".
Definition MS_AUTH_URL : string := "https://login.live.com/oauth20_authorize.srf".

(** [f"{MS_AUTH_URL}?{urlencode(params)}"], with [REDIRECT_URI] and the
    scope as [urlencode] quotes them. *)
Definition microsoft_oauth_url : string :=
  MS_AUTH_URL +:+ "?" +:+
  "client_id=" +:+ CLIENT_ID +:+ "&response_type=code&" +:+
  "redirect_uri=https%3A%2F%2Flogin.live.com%2Foauth20_desktop.srf&" +:+
  "scope=XboxLive.signin+offline_access".

Definition full_auth_flow (w : World) (ms_access_token : json) : M json :=
  click_echo MsgXboxLive;;
  xbl_response ← xbox_live_auth w ms_access_token;
  xbl_token ← lift (getitem xbl_response "Token");
  claims ← lift (getitem xbl_response "DisplayClaims");
  xui ← lift (getitem claims "xui");
  xui0 ← lift (getitem0 xui);
  user_hash ← lift (getitem xui0 "uhs");
  click_echo MsgXsts;;
  xsts_response ← xsts_auth w xbl_token;
  xsts_token ← lift (getitem xsts_response "Token");
  click_echo MsgMinecraft;;
  mc_response ← minecraft_auth w xsts_token user_hash;
  mc_access_token ← lift (getitem mc_response "access_token");
  mc_expires_in ← lift (dict_get mc_response "expires_in" (JInt 86400));
  click_echo MsgProfile;;
  profile ← get_minecraft_profile w mc_access_token;
  now ← time_now;
  expires_at ← lift (int_add now mc_expires_in);
  username ← lift (getitem profile "name");
  uuid ← lift (getitem profile "id");
  skins ← lift (dict_get profile "skins" (JList []));
  mret (JObj [ ("access_token", mc_access_token);
               ("expires_at", expires_at);
               ("username", username);
               ("uuid", uuid);
               ("skins", skins) ]).

(** The bearer file: [with open(token_path, 'w') as f: f.write(...)] and
    [os.chmod(token_path, 0o600)], as [login] and [refresh] both do. *)
Definition write_access_token (w : World) (mc_data : json) : M unit :=
  get_data_dir;;
  open_w w ACCESS_TOKEN;;
  token ← lift (getitem mc_data "access_token");
  f_write ACCESS_TOKEN token;;
  os_chmod ACCESS_TOKEN mode_0600.

(** [login], from the URL the user pastes at the prompt. *)
Definition login (w : World) (redirect_url : string) : M unit :=
  let auth_url := microsoft_oauth_url in
  click_echo MsgOpeningBrowser;;
  click_echo (MsgVisit auth_url);;
  emit (EvBrowser auth_url);;
  click_echo MsgAfterLogin;;
  click_echo MsgCopyUrl;;
  let params := parse_qs w (urlparse_query w redirect_url) in
  match assoc "code" params with
  | None =>
      click_echo_err MsgNoCode;;
      click_echo_err MsgMakeSure;;
      sys_exit 1
  | Some values =>
      code ← match values with
             | c :: _ => mret c
             | [] => raise IndexError
             end;
      try_except_HTTPError
        (click_echo MsgExchanging;;
         ms_tokens ← exchange_code_for_token w code;
         access_token ← lift (getitem ms_tokens "access_token");
         refresh_token ← lift (dict_get ms_tokens "refresh_token" JNull);
         now ← time_now;
         expires_in ← lift (dict_get ms_tokens "expires_in" (JInt 3600));
         expires_at ← lift (int_add now expires_in);
         save_tokens w (JObj [ ("access_token", access_token);
                               ("refresh_token", refresh_token);
                               ("expires_at", expires_at) ])
                     MICROSOFT_TOKEN;;
         ms_access_token ← lift (getitem ms_tokens "access_token");
         mc_data ← full_auth_flow w ms_access_token;
         save_tokens w mc_data MINECRAFT_TOKEN;;
         write_access_token w mc_data;;
         username ← lift (getitem mc_data "username");
         uuid ← lift (getitem mc_data "uuid");
         click_echo (MsgLoggedIn username uuid);;
         get_data_dir;;
         click_echo MsgTokensSaved;;
         click_echo MsgUseThis;;
         click_echo MsgAccessTokenPath)
        (fun st b =>
           click_echo_err (MsgAuthFailed (HTTPError st b));;
           click_echo_err (MsgResponse b);;
           sys_exit 1)
  end.

Definition no_refresh_token : M unit :=
  click_echo_err MsgNoRefreshToken;;
  sys_exit 1.

Definition refresh (w : World) : M unit :=
  ms_tokens ← load_tokens w MICROSOFT_TOKEN;
  if negb (truthy ms_tokens) then no_refresh_token
  else
    stored ← lift (dict_get ms_tokens "refresh_token" JNull);
    if negb (truthy stored) then no_refresh_token
    else
      try_except_HTTPError
        (click_echo MsgRefreshing;;
         old_refresh_token ← lift (getitem ms_tokens "refresh_token");
         new_ms_tokens ← refresh_microsoft_token w old_refresh_token;
         access_token ← lift (getitem new_ms_tokens "access_token");
         carried ← lift (getitem ms_tokens "refresh_token");
         refresh_token ← lift (dict_get new_ms_tokens "refresh_token" carried);
         now ← time_now;
         expires_in ← lift (dict_get new_ms_tokens "expires_in" (JInt 3600));
         expires_at ← lift (int_add now expires_in);
         save_tokens w (JObj [ ("access_token", access_token);
                               ("refresh_token", refresh_token);
                               ("expires_at", expires_at) ])
                     MICROSOFT_TOKEN;;
         ms_access_token ← lift (getitem new_ms_tokens "access_token");
         mc_data ← full_auth_flow w ms_access_token;
         save_tokens w mc_data MINECRAFT_TOKEN;;
         write_access_token w mc_data;;
         username ← lift (getitem mc_data "username");
         click_echo (MsgRefreshed username))
        (fun st b =>
           click_echo_err (MsgRefreshFailed (HTTPError st b));;
           click_echo_err MsgLoginAgain;;
           sys_exit 1).

(** ** Session commands *)

(** The branch of [status] on [expires_at > now]. *)
Definition token_validity (expires_at now : Z) : validity :=
  if now <? expires_at then
    let remaining := expires_at - now in
    Valid (remaining / 3600) ((remaining mod 3600) / 60)
  else Expired.

Definition status (w : World) : M unit :=
  mc_tokens ← load_tokens w MINECRAFT_TOKEN;
  if negb (truthy mc_tokens) then click_echo MsgNotLoggedIn
  else
    username ← lift (dict_get mc_tokens "username" (JStr "Unknown"));
    uuid ← lift (dict_get mc_tokens "uuid" (JStr "Unknown"));
    expires_at ← lift (dict_get mc_tokens "expires_at" (JInt 0));
    now ← time_now;
    v ← match int_value expires_at with
        | Some e => mret (token_validity e now)
        | None => raise TypeError
        end;
    click_echo (MsgUsername username);;
    click_echo (MsgUuid uuid);;
    click_echo (MsgToken v);;
    get_data_dir;;
    click_echo MsgDataDir.

Definition auth_files : list string :=
  [MICROSOFT_TOKEN; MINECRAFT_TOKEN; ACCESS_TOKEN].

(** The loop of [logout], with the counter [removed] so far. *)
Fixpoint remove_files (files : list string) (removed : Z) : M Z :=
  match files with
  | [] => mret removed
  | filename :: rest =>
      present ← path_exists filename;
      if (present : bool) then
        path_unlink filename;;
        remove_files rest (removed + 1)
      else remove_files rest removed
  end.

Definition logout : M unit :=
  get_data_dir;;
  removed ← remove_files auth_files 0;
  if 0 <? removed then click_echo (MsgRemoved removed)
  else click_echo MsgNothingToRemove.

Definition token_path : M unit :=
  get_data_dir;;
  click_echo MsgTokenPath.

(** The commands registered on the [cli] group, with what the user gives
    them. *)
Inductive command : Type :=
  | Login (redirect_url : string)
  | Refresh
  | Status
  | Logout
  | TokenPath.

Definition cli (w : World) (c : command) : M unit :=
  match c with
  | Login redirect_url => login w redirect_url
  | Refresh => refresh w
  | Status => status w
  | Logout => logout
  | TokenPath => token_path
  end.

(** The exit status of the process: 0 when the command returns, the code
    of [sys.exit], 1 for a traceback. *)
Definition exit_status {A : Type} (r : result A) : Z :=
  match r with
  | Ok _ => 0
  | Raise (SystemExit code) => code
  | Raise _ => 1
  end.

(** ** A sample world: the end-to-end scenario

    The parsers here cover plain queries (no escapes, no fragment), which
    is all the sample URLs need. *)
Module Scenario.

Fixpoint split_on (sep : ascii) (s : string) : list string :=
  match s with
  | EmptyString => [EmptyString]
  | String c rest =>
      match split_on sep rest with
      | piece :: more =>
          if Ascii.eqb c sep then EmptyString :: piece :: more
          else String c piece :: more
      | [] => [String c EmptyString]
      end
  end.

(** The text before the first [sep] and, if there is one, the text after. *)
Fixpoint cut (sep : ascii) (s : string) : string * option string :=
  match s with
  | EmptyString => (EmptyString, None)
  | String c rest =>
      if Ascii.eqb c sep then (EmptyString, Some rest)
      else let '(before, after) := cut sep rest in (String c before, after)
  end.

Definition query_of (url : string) : string :=
  match cut "?" url with
  | (_, Some q) => q
  | (_, None) => EmptyString
  end.

Fixpoint add_value (name value : string) (params : list (string * list string))
    : list (string * list string) :=
  match params with
  | [] => [(name, [value])]
  | (n, vs) :: rest =>
      if String.eqb n name then (n, (vs ++ [value])%list) :: rest
      else (n, vs) :: add_value name value rest
  end.

(** Fields without [=] or with a blank value are dropped. *)
Definition parse_fields (query : string) : list (string * list string) :=
  fold_left
    (fun params field =>
       match cut "=" field with
       | (name, Some (String c v)) => add_value name (String c v) params
       | _ => params
       end)
    (split_on "&" query) [].

Definition token_reply : json :=
  JObj [("access_token", JStr "MA"); ("expires_in", JInt 3600)].
Definition xbl_reply : json :=
  JObj [("Token", JStr "XBL");
        ("DisplayClaims", JObj [("xui", JList [JObj [("uhs", JStr "H1")]])])].
Definition xsts_reply : json := JObj [("Token", JStr "XSTS1")].
Definition service_reply : json :=
  JObj [("access_token", JStr "MC1"); ("expires_in", JInt 86400)].
Definition profile_reply : json :=
  JObj [("id", JStr "uuid1"); ("name", JStr "Steve"); ("skins", JList [])].
(** A refresh answered with a new access token and nothing else. *)
Definition refresh_reply : json := JObj [("access_token", JStr "MA")].

Definition is_str (v : json) (s : string) : bool :=
  match v with
  | JStr t => String.eqb t s
  | _ => false
  end.

(** The mocked endpoints; each answers after one second, anything
    unexpected is refused with a 400. *)
Definition endpoints (q : request) : Z * reply :=
  match q with
  | ReqExchange code =>
      if String.eqb code "ABC123" then (1, Response 200 (Some token_reply))
      else (1, Response 400 None)
  | ReqRefresh t =>
      if is_str t "R1" then (1, Response 200 (Some refresh_reply))
      else (1, Response 400 None)
  | ReqXboxLive t =>
      if is_str t "MA" then (1, Response 200 (Some xbl_reply))
      else (1, Response 400 None)
  | ReqXsts t =>
      if is_str t "XBL" then (1, Response 200 (Some xsts_reply))
      else (1, Response 400 None)
  | ReqMinecraft t h =>
      if is_str t "XSTS1" && is_str h "H1"
      then (1, Response 200 (Some service_reply))
      else (1, Response 400 None)
  | ReqProfile t =>
      if is_str t "MC1" then (1, Response 200 (Some profile_reply))
      else (1, Response 400 None)
  end.

Definition world : World :=
  mkWorld 18 (* umask 0o022 *) query_of parse_fields (fun _ => None) endpoints.

Definition redirect : string :=
  "https://login.live.com/oauth20_desktop.srf?code=ABC123&lc=1033".

(** The same world, with the refresh token revoked. *)
Definition invalid_grant : json := JObj [("error", JStr "invalid_grant")].

Definition world_revoked : World :=
  mkWorld 18 query_of parse_fields (fun _ => None)
    (fun q =>
       match q with
       | ReqRefresh _ => (1, Response 400 (Some invalid_grant))
       | _ => endpoints q
       end).

(** The same world, with an account the XSTS endpoint turns down. *)
Definition xsts_refusal : json := JObj [("XErr", JInt 2148916233)].

Definition world_ineligible : World :=
  mkWorld 18 query_of parse_fields (fun _ => None)
    (fun q =>
       match q with
       | ReqXsts _ => (1, Response 401 (Some xsts_refusal))
       | _ => endpoints q
       end).

(** The same world, with a service endpoint that breaks its contract and
    sends the access token as a number. *)
Definition numeric_reply : json :=
  JObj [("access_token", JInt 7); ("expires_in", JInt 86400)].

Definition world_numeric : World :=
  mkWorld 18 query_of parse_fields (fun _ => None)
    (fun q =>
       match q with
       | ReqMinecraft _ _ => (1, Response 200 (Some numeric_reply))
       | ReqProfile _ => (1, Response 200 (Some profile_reply))
       | _ => endpoints q
       end).

Definition redirect_denied : string :=
  "https://login.live.com/oauth20_desktop.srf?error=access_denied".

(** No data directory yet, the clock at 1000. *)
Definition fresh : state := mkState None 1000 [].

(** A store left by an earlier login that came with a refresh token. *)
Definition stored_tokens : json :=
  JObj [ ("access_token", JStr "MA0"); ("refresh_token", JStr "R1");
         ("expires_at", JInt 4601) ].

Definition credential : json :=
  JObj [ ("access_token", JStr "MC0"); ("expires_at", JInt 87405);
         ("username", JStr "Steve"); ("uuid", JStr "uuid1");
         ("skins", JList []) ].

Definition stored_files : gmap string file :=
  <[ACCESS_TOKEN := mkFile (Raw "MC0") 384]>
    (<[MINECRAFT_TOKEN := mkFile (JsonDoc credential) 384]>
       (<[MICROSOFT_TOKEN := mkFile (JsonDoc stored_tokens) 384]> ∅)).

Definition stored : state := mkState (Some stored_files) 5000 [].

End Scenario.

(** ** Vocabulary of the statements *)

Definition files_of (s : state) : gmap string file := default ∅ (store s).

(** A reply that lets a hop go on: a status [raise_for_status] accepts and
    a body [response.json()] decodes. *)
Definition good_reply (r : reply) : bool :=
  match r with
  | Response st (Some _) => negb ((400 <=? st) && (st <? 600))
  | _ => false
  end.

(** The hops of [full_auth_flow]. *)
Definition downstream (q : request) : bool :=
  match q with
  | ReqExchange _ | ReqRefresh _ => false
  | _ => true
  end.

Definition is_request (ev : event) : bool :=
  match ev with
  | EvRequest _ _ => true
  | _ => false
  end.

(** Events that change what is persisted. *)
Definition is_write (ev : event) : bool :=
  match ev with
  | EvFile _ _ | EvMkdir => true
  | _ => false
  end.

(** [n] is the lifetime a token response declares, [default] if it has no
    [expires_in]. *)
Definition lifetime (default : Z) (response : json) (n : Z) : Prop :=
  match response with
  | JObj fields =>
      match assoc "expires_in" fields with
      | Some v => int_value v = Some n
      | None => n = default
      end
  | _ => False
  end.

(** Group or others may read a file of mode [m] (bits [0o044]). *)
Definition others_can_read (m : Z) : bool := negb (Z.land m 36 =? 0).

(** The mode a file has while it is open for writing: the one it had, or
    [0o666 & ~umask] when [open] creates it. *)
Definition mode_before (w : World) (name : string) (s : state) : Z :=
  match files_of s !! name with
  | Some f => mode f
  | None => Z.ldiff 438 (umask w)
  end.

Definition mkdir_events (s : state) : list event :=
  match store s with
  | None => [EvMkdir]
  | Some _ => []
  end.

(** The three steps of a write: opened, written, restricted. *)
Definition write_events (w : World) (name : string) (c : content) (s : state)
    : list event :=
  [ EvFile name (Some (mkFile c mode_0600));
    EvFile name (Some (mkFile c (mode_before w name s)));
    EvFile name (Some (mkFile (Raw "") (mode_before w name s))) ].

Definition written (w : World) (name : string) (c : content) (s : state) : state :=
  mkState (Some (<[name := mkFile c mode_0600]> (files_of s))) (clock s)
          (write_events w name c s ++ mkdir_events s ++ log s).

(** The claim of an atomic restriction, on the events of a run: whenever
    the file [name] holds text, nobody but the owner can read it. *)
Definition never_exposed (name : string) (evs : list event) : Prop :=
  forall f, In (EvFile name (Some f)) evs ->
    body_of f <> Raw "" -> others_can_read (mode f) = false.

Definition present (s : state) (name : string) : bool :=
  match files_of s !! name with
  | Some _ => true
  | None => false
  end.

(** The files [logout] looks for that exist in [s], in the order it looks. *)
Definition present_files (s : state) : list string :=
  List.filter (present s) auth_files.

(** What [logout] prints for a count. *)
Definition removal_report (n : Z) : message :=
  if 0 <? n then MsgRemoved n else MsgNothingToRemove.

Definition without_auth_files (files : gmap string file) : gmap string file :=
  delete ACCESS_TOKEN (delete MINECRAFT_TOKEN (delete MICROSOFT_TOKEN files)).

(** What [call] makes of a reply. *)
Definition call_result (r : reply) : result json :=
  match r with
  | ConnectionFailed => Raise RequestException
  | Response st b =>
      if (400 <=? st) && (st <? 600) then Raise (HTTPError st b)
      else match b with
           | Some j => Ok j
           | None => Raise JSONDecodeError
           end
  end.

(** The events of a chain that went through. *)
Definition flow_events (ms_access_token xbl_token user_hash xsts_token
    mc_access_token : json) (r1 r2 r3 r4 : reply) : list event :=
  [ EvRequest (ReqProfile mc_access_token) r4;
    EvEcho false MsgProfile;
    EvRequest (ReqMinecraft xsts_token user_hash) r3;
    EvEcho false MsgMinecraft;
    EvRequest (ReqXsts xbl_token) r2;
    EvEcho false MsgXsts;
    EvRequest (ReqXboxLive ms_access_token) r1;
    EvEcho false MsgXboxLive ].

(** [base] with the events [pre] of a run on top. *)
Definition extends (base : list event) (l : list event) : Prop :=
  exists pre, l = pre ++ base.

(** What [json.load] reads from a file. *)
Definition read_back (w : World) (f : file) : option json :=
  match body_of f with
  | JsonDoc j => Some j
  | Raw text => json_loads w text
  end.

(** The bearer file holds exactly the access token of the stored
    credential record, a string, and both are restricted to the owner. *)
Definition mirrored (s : state) : Prop :=
  exists cred t,
    files_of s !! MINECRAFT_TOKEN = Some (mkFile (JsonDoc cred) mode_0600) /\
    getitem cred "access_token" = Ok (JStr t) /\
    files_of s !! ACCESS_TOKEN = Some (mkFile (Raw t) mode_0600).

(** The same, for a record and a bearer file that the events [evs] wrote. *)
Definition committed (s : state) (evs : list event) : Prop :=
  exists cred t,
    files_of s !! MINECRAFT_TOKEN = Some (mkFile (JsonDoc cred) mode_0600) /\
    getitem cred "access_token" = Ok (JStr t) /\
    files_of s !! ACCESS_TOKEN = Some (mkFile (Raw t) mode_0600) /\
    In (EvFile MINECRAFT_TOKEN (Some (mkFile (JsonDoc cred) mode_0600))) evs /\
    In (EvFile ACCESS_TOKEN (Some (mkFile (Raw t) mode_0600))) evs.

(** The events of [full_auth_flow]: lines printed and requests of its own
    hops. *)
Definition flow_event (ev : event) : bool :=
  match ev with
  | EvEcho _ _ => true
  | EvRequest q _ => downstream q
  | _ => false
  end.

(** [m] leaves the store alone and logs only events that satisfy [P]. *)
Definition quiet (P : event -> bool) {A : Type} (m : M A) : Prop :=
  forall s, store (snd (m s)) = store s /\
            exists evs, log (snd (m s)) = evs ++ log s /\
                        Forall (fun ev => P ev = true) evs.

(** The bearer file as [open] leaves it when the write that should follow
    does not happen. *)
Definition opened (w : World) (name : string) (s : state) : state :=
  mkState (Some (<[name := mkFile (Raw "") (mode_before w name s)]> (files_of s)))
          (clock s)
          (EvFile name (Some (mkFile (Raw "") (mode_before w name s)))
           :: mkdir_events s ++ log s).

Definition is_string (v : json) : bool :=
  match v with
  | JStr _ => true
  | _ => false
  end.

(** The wire contract of the service endpoint, as far as the bearer file
    needs it: an [access_token] it returns is a string. *)
Definition string_tokens (w : World) : Prop :=
  forall xsts_token user_hash d st response v,
    network w (ReqMinecraft xsts_token user_hash)
      = (d, Response st (Some response)) ->
    getitem response "access_token" = Ok v ->
    is_string v = true.

(** The rest of a run once the provider record is saved: the chain, the
    two writes, and the closing lines [finish] of the command. *)
Definition chain (w : World) (tok : json) (finish : json -> M unit) : M unit :=
  mc_data ← full_auth_flow w tok;
  save_tokens w mc_data MINECRAFT_TOKEN;;
  write_access_token w mc_data;;
  finish mc_data.

(** [finish] only prints, on any credential record the chain can build. *)
Definition finishes (finish : json -> M unit) : Prop :=
  forall mc exp name uuid skins files c l,
  exists evs,
    finish (JObj [ ("access_token", mc); ("expires_at", exp);
                   ("username", name); ("uuid", uuid); ("skins", skins) ])
           (mkState (Some files) c l)
    = (Ok tt, mkState (Some files) c (evs ++ l)) /\
    Forall (fun ev => is_request ev = false) evs.

(** The closing lines of [login] and of [refresh]. *)
Definition login_finish (mc_data : json) : M unit :=
  username ← lift (getitem mc_data "username");
  uuid ← lift (getitem mc_data "uuid");
  click_echo (MsgLoggedIn username uuid);;
  get_data_dir;;
  click_echo MsgTokensSaved;;
  click_echo MsgUseThis;;
  click_echo MsgAccessTokenPath.

Definition refresh_finish (mc_data : json) : M unit :=
  username ← lift (getitem mc_data "username");
  click_echo (MsgRefreshed username).

(** The provider record [login] and [refresh] build. *)
Definition provider_record (access_token refresh_token : json) (expires_at : Z)
    : json :=
  JObj [ ("access_token", access_token);
         ("refresh_token", refresh_token);
         ("expires_at", JInt expires_at) ].

(** The [except requests.HTTPError] clause of [refresh], on the outcome of
    its [try] block. *)
Definition refresh_handled (out : result unit * state) : result unit * state :=
  match out with
  | (Raise (HTTPError st b), s2) =>
      (Raise (SystemExit 1),
       mkState (store s2) (clock s2)
         (EvEcho true MsgLoginAgain
          :: EvEcho true (MsgRefreshFailed (HTTPError st b)) :: log s2))
  | other => other
  end.

(** The same for [login]. *)
Definition login_handled (out : result unit * state) : result unit * state :=
  match out with
  | (Raise (HTTPError st b), s2) =>
      (Raise (SystemExit 1),
       mkState (store s2) (clock s2)
         (EvEcho true (MsgResponse b)
          :: EvEcho true (MsgAuthFailed (HTTPError st b)) :: log s2))
  | other => other
  end.

(** Events that neither write a file nor belong to the chain. *)
Definition harmless (ev : event) : bool :=
  match ev with
  | EvEcho _ _ | EvBrowser _ | EvMkdir => true
  | EvRequest q _ => negb (downstream q)
  | EvFile _ _ => false
  end.

Definition is_echo (ev : event) : bool :=
  match ev with
  | EvEcho _ _ => true
  | _ => false
  end.

(** The four hops of the chain were all answered with good replies, and
    [evs] has them. *)
Definition chain_succeeded (evs : list event) : Prop :=
  exists tok xbl uhs xsts mc r1 r2 r3 r4,
    incl (flow_events tok xbl uhs xsts mc r1 r2 r3 r4) evs /\
    good_reply r1 = true /\ good_reply r2 = true /\
    good_reply r3 = true /\ good_reply r4 = true.

(** What an [except requests.HTTPError] clause that prints and exits makes
    of an outcome. *)
Definition handles (handled : result unit * state -> result unit * state)
    : Prop :=
  forall out, exists hevs,
    store (snd (handled out)) = store (snd out) /\
    log (snd (handled out)) = hevs ++ log (snd out) /\
    Forall (fun ev => is_echo ev = true) hevs /\
    fst (handled out) =
      match fst out with
      | Raise (HTTPError _ _) => Raise (SystemExit 1)
      | other => other
      end.

(** The events up to the moment the provider record is restricted. *)
Definition persisted_base (w : World) (record : json) (s0 : state)
    (base0 : list event) : list event :=
  write_events w MICROSOFT_TOKEN (JsonDoc record) s0 ++ mkdir_events s0 ++ base0.

(** The events of [login] up to the reply of the token endpoint. *)
Definition exchange_events (code : string) (ms_tokens : json) (st : Z)
    : list event :=
  [ EvRequest (ReqExchange code) (Response st (Some ms_tokens));
    EvEcho false MsgExchanging;
    EvEcho false MsgCopyUrl;
    EvEcho false MsgAfterLogin;
    EvBrowser microsoft_oauth_url;
    EvEcho false (MsgVisit microsoft_oauth_url);
    EvEcho false MsgOpeningBrowser ].

(** Credential record and bearer file agree: both absent, or the bearer
    file mirrors the record. *)
Definition in_sync (s : state) : Prop :=
  (files_of s !! MINECRAFT_TOKEN = None /\ files_of s !! ACCESS_TOKEN = None)
  \/ mirrored s.

(** [m] may create the data directory but touches no file. *)
Definition keeps_files {A : Type} (m : M A) : Prop :=
  forall s, files_of (snd (m s)) = files_of s.

(** ** The reader of the bearer file

    [load_access_token] of [packages/nixcraft-skin/nixcraft_skin.py], the
    function through which the skin tool reads what [login] and [refresh]
    leave.  The two text functions it depends on are parameters. *)

Record TextLib : Type := mkTextLib {
  (** [str.strip()] *)
  str_strip : string -> string;
  (** the text [json.dump(j, f, indent=2)] writes *)
  json_text : json -> string
}.

(** [f.read()] on a file of the directory *)
Definition file_text (t : TextLib) (f : file) : string :=
  match body_of f with
  | Raw text => text
  | JsonDoc j => json_text t j
  end.

Definition load_access_token (t : TextLib) : M (option string) :=
  old ← stat ACCESS_TOKEN;
  match old with
  | Some f => mret (Some (str_strip t (file_text t f)))
  | None => mret None
  end.

(** ** More vocabulary *)

(** The user hash [full_auth_flow] reads from the Xbox Live reply:
    [xbl_response["DisplayClaims"]["xui"][0]["uhs"]]. *)
Definition user_hash_of (xbl_response : json) : result json :=
  match getitem xbl_response "DisplayClaims" with
  | Ok claims =>
      match getitem claims "xui" with
      | Ok xui =>
          match getitem0 xui with
          | Ok xui0 => getitem xui0 "uhs"
          | Raise e => Raise e
          end
      | Raise e => Raise e
      end
  | Raise e => Raise e
  end.

(** The place of a request in the chain, 0 for the token endpoint. *)
Definition hop_number (q : request) : nat :=
  match q with
  | ReqExchange _ | ReqRefresh _ => 0
  | ReqXboxLive _ => 1
  | ReqXsts _ => 2
  | ReqMinecraft _ _ => 3
  | ReqProfile _ => 4
  end%nat.

(** The requests among the events [evs], latest first like [evs]. *)
Fixpoint requests_of (evs : list event) : list (request * reply) :=
  match evs with
  | [] => []
  | EvRequest q r :: rest => (q, r) :: requests_of rest
  | _ :: rest => requests_of rest
  end.

(** Events of a command that only looks: lines printed, and the data
    directory created when it was missing. *)
Definition looks_only (ev : event) : bool :=
  match ev with
  | EvEcho _ _ | EvMkdir => true
  | _ => false
  end.

(** [m] changes no file and logs only events that satisfy [P]. *)
Definition passive (P : event -> bool) {A : Type} (m : M A) : Prop :=
  forall s, files_of (snd (m s)) = files_of s /\
            exists evs, log (snd (m s)) = evs ++ log s /\
                        Forall (fun ev => P ev = true) evs.

(** [m] leaves alone every file that is not one of the three artifacts. *)
Definition confined {A : Type} (m : M A) : Prop :=
  forall s name, ~ In name auth_files ->
    files_of (snd (m s)) !! name = files_of s !! name.

(** Every exception [m] can end with satisfies [P]. *)
Definition raises_only (P : exn -> bool) {A : Type} (m : M A) : Prop :=
  forall s e s', m s = (Raise e, s') -> P e = true.

(** The exceptions a [try] block of this tool can raise: anything but
    [SystemExit]. *)
Definition not_exit (e : exn) : bool :=
  match e with
  | SystemExit _ => false
  | _ => true
  end.

(** The ways a command of this tool can fail: [sys.exit(1)], or an
    exception no [except] clause catches. *)
Definition command_failure (e : exn) : bool :=
  match e with
  | SystemExit code => code =? 1
  | HTTPError _ _ => false
  | _ => true
  end.

(** A stored provider record from which [refresh] gets no refresh token:
    no file, a record that counts as false, or a dict whose
    [refresh_token] is missing or counts as false. *)
Definition no_refresh_token_in (w : World) (s : state) : Prop :=
  match files_of s !! MICROSOFT_TOKEN with
  | None => True
  | Some f =>
      match read_back w f with
      | Some (JObj fields) =>
          truthy (default JNull (assoc "refresh_token" fields)) = false
      | Some j => truthy j = false
      | None => False
      end
  end.

(** On the events [evs] of a run: the requests are the hops [k], [k+1],
    ... in this order, at most [n] of them, all satisfy [allowed], and
    each but the last sent was answered with a good reply. *)
Definition in_order (allowed : request -> bool) (k n : nat) (evs : list event)
    : Prop :=
  map (fun p => hop_number (fst p)) (rev (requests_of evs))
    = seq k (length (requests_of evs)) /\
  (length (requests_of evs) <= n)%nat /\
  Forall (fun p => allowed (fst p) = true) (requests_of evs) /\
  Forall (fun p => good_reply (snd p) = true) (tail (requests_of evs)).

(** All [n] requests were sent and answered with good replies. *)
Definition all_answered (n : nat) (evs : list event) : Prop :=
  length (requests_of evs) = n /\
  Forall (fun p => good_reply (snd p) = true) (requests_of evs).

(** [m] sends its requests in order from hop [k], and returns only when
    all [n] were answered. *)
Definition sends (allowed : request -> bool) (k n : nat) {A : Type} (m : M A)
    : Prop :=
  forall s, exists evs,
    log (snd (m s)) = evs ++ log s /\
    in_order allowed k n evs /\
    forall a, fst (m s) = Ok a -> all_answered n evs.

Definition not_refresh (q : request) : bool :=
  match q with
  | ReqRefresh _ => false
  | _ => true
  end.

Definition not_exchange (q : request) : bool :=
  match q with
  | ReqExchange _ => false
  | _ => true
  end.

(** The events of [login] up to the prompt. *)
Definition prompt_events : list event :=
  [ EvEcho false MsgCopyUrl;
    EvEcho false MsgAfterLogin;
    EvBrowser microsoft_oauth_url;
    EvEcho false (MsgVisit microsoft_oauth_url);
    EvEcho false MsgOpeningBrowser ].

(** The commands that sign in. *)
Definition signs_in (c : command) : bool :=
  match c with
  | Login _ | Refresh => true
  | _ => false
  end.

(** A stored credential record that [status] takes for no login: no
    file, or a record that counts as false. *)
Definition no_credential_in (w : World) (s : state) : Prop :=
  match files_of s !! MINECRAFT_TOKEN with
  | None => True
  | Some f =>
      match read_back w f with
      | Some j => truthy j = false
      | None => False
      end
  end.

(** The exceptions of the operations on JSON values. *)
Definition lookup_error (e : exn) : bool :=
  match e with
  | KeyError | IndexError | TypeError | AttributeError => true
  | _ => false
  end.

(** The record a command starts by loading. *)
Definition record_of (c : command) : option string :=
  match c with
  | Refresh => Some MICROSOFT_TOKEN
  | Status => Some MINECRAFT_TOKEN
  | _ => None
  end.

(** ** More sample data *)
Module Cases.

(** A world without network: no request gets a response. *)
Definition world_offline : World :=
  mkWorld 18 Scenario.query_of Scenario.parse_fields (fun _ => None)
    (fun _ => (1, ConnectionFailed)).

(** A redirect with a grant code the mocked token endpoint turns down. *)
Definition redirect_stale : string :=
  "https://login.live.com/oauth20_desktop.srf?code=STALE".

(** [str.strip()] on ASCII text: blanks, tabs and line breaks go. *)
Definition is_space (c : ascii) : bool :=
  existsb (Ascii.eqb c) [" "; "009"; "010"; "011"; "012"; "013"]%char.

Fixpoint lstrip (s : string) : string :=
  match s with
  | String c rest => if is_space c then lstrip rest else s
  | EmptyString => EmptyString
  end.

Fixpoint rstrip (s : string) : string :=
  match s with
  | EmptyString => EmptyString
  | String c rest =>
      match rstrip rest with
      | EmptyString => if is_space c then EmptyString else String c EmptyString
      | kept => String c kept
      end
  end.

(** The bearer file of the sample runs is raw text, so the text of a
    record is never asked for; it is left empty here. *)
Definition text : TextLib :=
  mkTextLib (fun s => lstrip (rstrip s)) (fun _ => EmptyString).

(** A name in the data directory that is not one of the three artifacts. *)
Definition notes : string := "notes.txt".

(** The credential record of the end-to-end scenario. *)
Definition credential : json :=
  JObj [ ("access_token", JStr "MC1"); ("expires_at", JInt 87404);
         ("username", JStr "Steve"); ("uuid", JStr "uuid1");
         ("skins", JList []) ].

(** A store whose records were damaged from outside, and one whose
    credential record has lost its expiry. *)
Definition damaged : state :=
  mkState (Some (<[MINECRAFT_TOKEN := mkFile (Raw "{") 384]>
                   (<[MICROSOFT_TOKEN := mkFile (Raw "{") 384]> ∅)))
          5000 [].

Definition partial_record : list (string * json) := [("username", JStr "Steve")].

Definition partial : state :=
  mkState (Some (<[MINECRAFT_TOKEN :=
                     mkFile (JsonDoc (JObj partial_record)) 384]> ∅))
          5000 [].

End Cases.

(** ** Running the monad *)

Ltac unfold_M :=
  unfold click_echo, click_echo_err, sys_exit in *;
  unfold mbind, mret, M_bind, M_ret, lift, raise, emit, time_now in *.

Lemma bind_run {A B : Type} (m : M A) (f : A -> M B) (s : state) :
  (m ≫= f) s =
  match m s with
  | (Ok a, s1) => f a s1
  | (Raise e, s1) => (Raise e, s1)
  end.
Proof. reflexivity. Qed.

(** ** [login] without a grant code *)

(** C9: when [parse_qs] finds no [code] in the query of the pasted URL,
    [login] ends by [sys.exit(1)] having only printed and opened the
    browser: no request was sent, no file or directory touched, the store
    is the one it started from. *)
Theorem login_without_code (w : World) (url : string) (s : state) :
  assoc "code" (parse_qs w (urlparse_query w url)) = None ->
  exists s',
    login w url s = (Raise (SystemExit 1), s') /\
    exit_status (fst (login w url s)) = 1 /\
    store s' = store s /\
    exists new,
      log s' = new ++ log s /\
      Forall (fun ev => is_request ev = false /\ is_write ev = false) new.
Proof.
  intros Hcode. unfold login. rewrite Hcode. unfold_M. simpl.
  eexists. split; [reflexivity|]. split; [reflexivity|]. split; [reflexivity|].
  simpl. eexists (_ :: _ :: _ :: _ :: _ :: _ :: _ :: []).
  split; [reflexivity|]. repeat constructor.
Qed.

Lemma login_without_code_witness :
  exists s',
    login Scenario.world Scenario.redirect_denied Scenario.fresh
      = (Raise (SystemExit 1), s') /\
    exit_status (fst (login Scenario.world Scenario.redirect_denied
                        Scenario.fresh)) = 1 /\
    store s' = store Scenario.fresh /\
    exists new,
      log s' = new ++ log Scenario.fresh /\
      Forall (fun ev => is_request ev = false /\ is_write ev = false) new.
Proof.
  apply (login_without_code Scenario.world Scenario.redirect_denied
           Scenario.fresh).
  reflexivity.
Defined.

(** ** The token store *)

Lemma save_tokens_run (w : World) (data : json) (name : string) (s : state) :
  save_tokens w data name s = (Ok tt, written w name (JsonDoc data) s).
Proof.
  destruct s as [[files|] c l];
    unfold save_tokens, written, write_events, mode_before, mkdir_events,
      files_of, get_data_dir, open_w, json_dump, write_content, os_chmod,
      stat, put_file;
    unfold_M; simpl.
  - destruct (files !! name) as [f|] eqn:Hf; simpl;
      rewrite !lookup_insert_eq; simpl; rewrite !lookup_insert_eq; simpl;
      rewrite !insert_insert_eq; reflexivity.
  - rewrite lookup_empty. simpl.
    rewrite !lookup_insert_eq; simpl; rewrite !lookup_insert_eq; simpl.
    rewrite !insert_insert_eq. reflexivity.
Qed.

Lemma write_access_token_run (w : World) (mc_data : json) (token : string)
    (s : state) :
  getitem mc_data "access_token" = Ok (JStr token) ->
  write_access_token w mc_data s = (Ok tt, written w ACCESS_TOKEN (Raw token) s).
Proof.
  intros Htok.
  destruct s as [[files|] c l];
    unfold write_access_token, written, write_events, mode_before,
      mkdir_events, files_of, get_data_dir, open_w, f_write, write_content,
      os_chmod, stat, put_file;
    unfold_M; simpl.
  - destruct (files !! ACCESS_TOKEN) as [f|] eqn:Hf; simpl; rewrite Htok; simpl;
      rewrite !lookup_insert_eq; simpl; rewrite !lookup_insert_eq; simpl;
      rewrite !insert_insert_eq; reflexivity.
  - rewrite lookup_empty. simpl. rewrite Htok. simpl.
    rewrite !lookup_insert_eq; simpl; rewrite !lookup_insert_eq; simpl.
    rewrite !insert_insert_eq. reflexivity.
Qed.

(** C4, as far as the code goes: [save_tokens] always succeeds and leaves
    the file with the record and mode 0600, which nobody but the owner can
    read; so does the write of the bearer file.  The steps are separate:
    the file is opened (keeping its mode, or created with 0o666 masked by
    the umask), then written, then restricted, and between the last two
    it holds the content under the mode [mode_before]. *)
Theorem save_tokens_restricts (w : World) (data : json) (filename : string)
    (token : string) (rest : list (string * json)) (s : state) :
  let s1 := snd (save_tokens w data filename s) in
  let s2 := snd (write_access_token w (JObj (("access_token", JStr token) :: rest)) s) in
  fst (save_tokens w data filename s) = Ok tt /\
  files_of s1 !! filename = Some (mkFile (JsonDoc data) mode_0600) /\
  log s1 =
    [ EvFile filename (Some (mkFile (JsonDoc data) mode_0600));
      EvFile filename (Some (mkFile (JsonDoc data) (mode_before w filename s)));
      EvFile filename (Some (mkFile (Raw "") (mode_before w filename s))) ]
    ++ mkdir_events s ++ log s /\
  files_of s2 !! ACCESS_TOKEN = Some (mkFile (Raw token) mode_0600) /\
  log s2 =
    [ EvFile ACCESS_TOKEN (Some (mkFile (Raw token) mode_0600));
      EvFile ACCESS_TOKEN (Some (mkFile (Raw token) (mode_before w ACCESS_TOKEN s)));
      EvFile ACCESS_TOKEN (Some (mkFile (Raw "") (mode_before w ACCESS_TOKEN s))) ]
    ++ mkdir_events s ++ log s /\
  others_can_read mode_0600 = false.
Proof.
  intros s1 s2. subst s1 s2.
  rewrite save_tokens_run.
  rewrite (write_access_token_run w _ token s) by reflexivity.
  unfold written, write_events, files_of. simpl.
  rewrite !lookup_insert_eq. repeat split; reflexivity.
Qed.

(** C4 as stated fails: with umask 0o022 a new record is on disk with mode
    0o644, readable by everyone, until [os.chmod] runs. *)
Lemma save_tokens_exposed :
  ~ never_exposed MINECRAFT_TOKEN
      (log (snd (save_tokens Scenario.world Scenario.credential
                   MINECRAFT_TOKEN Scenario.fresh))).
Proof.
  intros Hclaim.
  specialize (Hclaim (mkFile (JsonDoc Scenario.credential) 420)).
  assert (Hread : others_can_read 420 = false).
  { apply Hclaim; [vm_compute; tauto | discriminate]. }
  vm_compute in Hread. discriminate.
Qed.

(** ** [status] *)

Lemma token_validity_expired (e now : Z) :
  token_validity e now = Expired <-> now >= e.
Proof.
  unfold token_validity. destruct (now <? e) eqn:Hlt.
  - apply Z.ltb_lt in Hlt. split; [discriminate | lia].
  - apply Z.ltb_ge in Hlt. split; [lia | reflexivity].
Qed.

Lemma token_validity_valid (e now : Z) :
  token_validity e now = Valid ((e - now) / 3600) (((e - now) mod 3600) / 60)
  <-> now < e.
Proof.
  unfold token_validity. destruct (now <? e) eqn:Hlt.
  - apply Z.ltb_lt in Hlt. split; [lia | reflexivity].
  - apply Z.ltb_ge in Hlt. split; [discriminate | lia].
Qed.

(** C7: on a stored credential whose [expires_at] is the integer [e],
    [status] returns, changes nothing, and prints the token line [v] with:
    [v] is "Expired" exactly when [now >= e], and [v] is "Valid" with the
    hours and minutes left exactly when [now < e]; [now] is the clock. *)
Theorem status_expired_iff (w : World) (s : state) (files : gmap string file)
    (cred : json) (m e : Z) :
  store s = Some files ->
  files !! MINECRAFT_TOKEN = Some (mkFile (JsonDoc cred) m) ->
  getitem cred "expires_at" = Ok (JInt e) ->
  exists username uuid v,
    status w s =
      (Ok tt,
       mkState (store s) (clock s)
         (EvEcho false MsgDataDir :: EvEcho false (MsgToken v) ::
          EvEcho false (MsgUuid uuid) :: EvEcho false (MsgUsername username) ::
          log s)) /\
    (v = Expired <-> clock s >= e) /\
    (v = Valid ((e - clock s) / 3600) (((e - clock s) mod 3600) / 60)
       <-> clock s < e) /\
    ((exists hours minutes, v = Valid hours minutes) <-> clock s < e).
Proof.
  intros Hstore Hfile Hexp.
  destruct cred as [| | | | |fields]; try discriminate.
  simpl in Hexp. destruct (assoc "expires_at" fields) as [x|] eqn:Hx; [|discriminate].
  injection Hexp as ->.
  assert (Htruthy : truthy (JObj fields) = true).
  { destruct fields; [discriminate | reflexivity]. }
  destruct s as [st c l]. simpl in Hstore. subst st.
  exists (default (JStr "Unknown") (assoc "username" fields)),
         (default (JStr "Unknown") (assoc "uuid" fields)),
         (token_validity e c).
  split.
  - unfold status, load_tokens, get_data_dir, stat, dict_get. unfold_M.
    cbn -[assoc truthy]. rewrite Hfile. cbn -[assoc truthy].
    rewrite Htruthy, Hx. cbn -[assoc truthy].
    destruct (assoc "username" fields), (assoc "uuid" fields); reflexivity.
  - simpl. split; [apply token_validity_expired|].
    split; [apply token_validity_valid|].
    split.
    + intros (h & mi & Hv). unfold token_validity in Hv.
      destruct (c <? e) eqn:Hlt; [apply Z.ltb_lt in Hlt; lia | discriminate].
    + intros Hlt. eexists _, _. apply token_validity_valid. exact Hlt.
Qed.

(** ** [logout] *)

Lemma auth_files_distinct :
  MICROSOFT_TOKEN <> MINECRAFT_TOKEN /\ MICROSOFT_TOKEN <> ACCESS_TOKEN /\
  MINECRAFT_TOKEN <> ACCESS_TOKEN.
Proof. repeat split; discriminate. Qed.

Lemma logout_run (s : state) :
  logout s =
    (Ok tt,
     mkState (Some (delete ACCESS_TOKEN (delete MINECRAFT_TOKEN
                      (delete MICROSOFT_TOKEN (files_of s)))))
             (clock s)
             (EvEcho false (removal_report (Z.of_nat (length (present_files s))))
              :: map (fun name => EvFile name None) (rev (present_files s))
              ++ mkdir_events s ++ log s)).
Proof.
  destruct auth_files_distinct as (H12 & H13 & H23).
  destruct s as [[files|] c l].
  - destruct (files !! MICROSOFT_TOKEN) as [f1|] eqn:H1;
      destruct (files !! MINECRAFT_TOKEN) as [f2|] eqn:H2;
      destruct (files !! ACCESS_TOKEN) as [f3|] eqn:H3;
      unfold logout, present_files, present, auth_files, files_of,
        mkdir_events, get_data_dir, remove_files, path_exists, path_unlink,
        stat;
      unfold_M; simpl;
      repeat (progress (rewrite ?lookup_delete_ne by done;
                        rewrite ?H1, ?H2, ?H3; simpl));
      try rewrite (delete_id files MICROSOFT_TOKEN) by assumption;
      try rewrite (delete_id _ MINECRAFT_TOKEN)
        by (rewrite ?lookup_delete_ne by done; assumption);
      try rewrite (delete_id _ ACCESS_TOKEN)
        by (rewrite ?lookup_delete_ne by done; assumption);
      reflexivity.
  - unfold logout, present_files, present, auth_files, files_of, mkdir_events,
      get_data_dir, remove_files, path_exists, path_unlink, stat.
    unfold_M. simpl. rewrite !lookup_empty. simpl.
    rewrite !delete_empty. reflexivity.
Qed.

Lemma without_auth_files_in (files : gmap string file) (name : string) :
  In name auth_files -> without_auth_files files !! name = None.
Proof.
  destruct auth_files_distinct as (H12 & H13 & H23).
  unfold without_auth_files.
  intros [<- | [<- | [<- | []]]].
  - rewrite !lookup_delete_ne by done. apply lookup_delete_eq.
  - rewrite lookup_delete_ne by done. apply lookup_delete_eq.
  - apply lookup_delete_eq.
Qed.

Lemma without_auth_files_out (files : gmap string file) (name : string) :
  ~ In name auth_files -> without_auth_files files !! name = files !! name.
Proof.
  intros Hout. unfold without_auth_files.
  rewrite !lookup_delete_ne; [reflexivity | | |];
    intros <-; apply Hout; simpl; tauto.
Qed.

Lemma without_auth_files_idem (files : gmap string file) :
  without_auth_files (without_auth_files files) = without_auth_files files.
Proof.
  apply map_eq. intros name.
  destruct (in_dec string_dec name auth_files) as [Hin | Hout].
  - rewrite !without_auth_files_in by exact Hin. reflexivity.
  - rewrite (without_auth_files_out (without_auth_files files)) by exact Hout.
    reflexivity.
Qed.

Lemma logout_nothing (t : state) (files : gmap string file) :
  store t = Some files ->
  (forall name, In name auth_files -> files !! name = None) ->
  logout t =
    (Ok tt, mkState (store t) (clock t) (EvEcho false MsgNothingToRemove :: log t)).
Proof.
  intros Hstore Hnone. rewrite logout_run.
  destruct t as [st c l]. simpl in Hstore. subst st.
  pose proof (Hnone MICROSOFT_TOKEN ltac:(simpl; tauto)) as H1.
  pose proof (Hnone MINECRAFT_TOKEN ltac:(simpl; tauto)) as H2.
  pose proof (Hnone ACCESS_TOKEN ltac:(simpl; tauto)) as H3.
  unfold present_files, present, files_of, mkdir_events, auth_files.
  simpl. rewrite H1, H2, H3. simpl.
  rewrite (delete_id files MICROSOFT_TOKEN) by assumption.
  rewrite (delete_id files MINECRAFT_TOKEN) by assumption.
  rewrite (delete_id files ACCESS_TOKEN) by assumption.
  reflexivity.
Qed.

(** C8: from any state [logout] returns; afterwards none of the three
    credential files exists and every other file is as before; it unlinks
    exactly the credential files that existed, each once, and prints their
    number (or "No auth files to remove" when there were none); a second
    [logout] right after unlinks nothing and prints that there was
    nothing to remove. *)
Theorem logout_removes_present (s : state) :
  exists s' new,
    logout s = (Ok tt, s') /\
    log s' = EvEcho false (removal_report (Z.of_nat (length (present_files s))))
             :: new ++ log s /\
    (forall name, In name auth_files -> files_of s' !! name = None) /\
    (forall name, ~ In name auth_files -> files_of s' !! name = files_of s !! name) /\
    (forall ev, In ev new ->
       ev = EvMkdir \/ exists name, ev = EvFile name None) /\
    (forall name, In (EvFile name None) new <->
                  In name auth_files /\ present s name = true) /\
    length (List.filter is_write new) =
      (length (present_files s) + length (mkdir_events s))%nat /\
    (present_files s = [] ->
       removal_report (Z.of_nat (length (present_files s))) = MsgNothingToRemove) /\
    logout s' =
      (Ok tt, mkState (store s') (clock s')
                (EvEcho false MsgNothingToRemove :: log s')).
Proof.
  eexists _, (map (fun name => EvFile name None) (rev (present_files s))
              ++ mkdir_events s).
  split; [apply logout_run|].
  fold (without_auth_files (files_of s)).
  split; [cbn [log]; rewrite <- app_assoc; reflexivity|].
  split; [intros name Hin; apply without_auth_files_in; exact Hin|].
  split; [intros name Hout; apply without_auth_files_out; exact Hout|].
  split.
  { intros ev [Hev | Hev]%in_app_or.
    - apply in_map_iff in Hev as (name & <- & _). right. eexists. reflexivity.
    - left. unfold mkdir_events in Hev.
      destruct (store s); simpl in Hev; [tauto|].
      destruct Hev as [<- | []]. reflexivity. }
  split.
  { intros name. rewrite in_app_iff, in_map_iff. split.
    - intros [(name' & Heq & Hin) | Hin].
      + injection Heq as <-. apply in_rev in Hin.
        unfold present_files in Hin. apply filter_In in Hin. exact Hin.
      + unfold mkdir_events in Hin. destruct (store s); simpl in Hin;
          [tauto | destruct Hin as [Hin | []]; discriminate].
    - intros Hin. left. exists name. split; [reflexivity|].
      apply -> in_rev. unfold present_files. apply filter_In. exact Hin. }
  split.
  { rewrite List.filter_app, length_app. f_equal.
    - rewrite <- (length_rev (present_files s)).
      induction (rev (present_files s)) as [|x xs IH]; simpl; [reflexivity|].
      rewrite IH. reflexivity.
    - unfold mkdir_events. destruct (store s); reflexivity. }
  split; [intros ->; reflexivity|].
  apply (logout_nothing _ (without_auth_files (files_of s))); [reflexivity|].
  intros name Hin. apply without_auth_files_in. exact Hin.
Qed.

(** ** Requests *)

Lemma call_run (w : World) (q : request) (s : state) :
  call w q s =
    (call_result (snd (network w q)),
     mkState (store s) (clock s + fst (network w q))
             (EvRequest q (snd (network w q)) :: log s)).
Proof.
  unfold call, requests_send, raise_for_status, response_json, call_result.
  unfold_M. destruct (network w q) as [d [|st [j|]]]; simpl;
    try destruct ((400 <=? st) && (st <? 600)); reflexivity.
Qed.

Lemma call_result_Ok (r : reply) (j : json) :
  call_result r = Ok j ->
  good_reply r = true /\ exists st, r = Response st (Some j).
Proof.
  destruct r as [|st [j'|]]; simpl; [discriminate| |];
    destruct ((400 <=? st) && (st <? 600)); try discriminate.
  intros [= ->]. split; [reflexivity | eexists; reflexivity].
Qed.

Lemma call_result_rejected (st : Z) (b : option json) :
  400 <= st < 600 -> call_result (Response st b) = Raise (HTTPError st b).
Proof.
  intros [Hlo Hhi]. simpl.
  apply Z.leb_le in Hlo. apply Z.ltb_lt in Hhi. rewrite Hlo, Hhi. reflexivity.
Qed.

(** ** [refresh] refused at the first hop *)

(** C2: when the stored record has a refresh token and the token endpoint
    answers the refresh with an error status (4xx or 5xx), [refresh] ends
    by [sys.exit(1)] after telling the user to log in again, and the store
    is exactly the one it started from: the provider record, the
    credential record and the bearer file are untouched. *)
Theorem refresh_rejected (w : World) (s : state) (files : gmap string file)
    (ms_tokens rt : json) (m d st : Z) (b : option json) :
  store s = Some files ->
  files !! MICROSOFT_TOKEN = Some (mkFile (JsonDoc ms_tokens) m) ->
  getitem ms_tokens "refresh_token" = Ok rt ->
  truthy rt = true ->
  network w (ReqRefresh rt) = (d, Response st b) ->
  400 <= st < 600 ->
  refresh w s =
    (Raise (SystemExit 1),
     mkState (store s) (clock s + d)
       (EvEcho true MsgLoginAgain ::
        EvEcho true (MsgRefreshFailed (HTTPError st b)) ::
        EvRequest (ReqRefresh rt) (Response st b) ::
        EvEcho false MsgRefreshing :: log s)) /\
  exit_status (fst (refresh w s)) = 1 /\
  store (snd (refresh w s)) = store s.
Proof.
  intros Hstore Hfile Hrt Htruthy Hnet Hst.
  assert (Hrun : refresh w s =
    (Raise (SystemExit 1),
     mkState (store s) (clock s + d)
       (EvEcho true MsgLoginAgain ::
        EvEcho true (MsgRefreshFailed (HTTPError st b)) ::
        EvRequest (ReqRefresh rt) (Response st b) ::
        EvEcho false MsgRefreshing :: log s))).
  { destruct ms_tokens as [| | | | |fields]; try discriminate.
    assert (Hnonempty : truthy (JObj fields) = true).
    { destruct fields; [discriminate | reflexivity]. }
    simpl in Hrt. destruct (assoc "refresh_token" fields) as [x|] eqn:Hx;
      [|discriminate]. injection Hrt as ->.
    destruct s as [store0 c l]. simpl in Hstore. subst store0.
    unfold refresh, load_tokens, get_data_dir, stat, no_refresh_token,
      try_except_HTTPError, refresh_microsoft_token, dict_get, getitem.
    unfold_M. cbn -[assoc truthy call]. rewrite Hfile. cbn -[assoc truthy call].
    rewrite Hnonempty, Hx. cbn -[assoc truthy call]. rewrite Htruthy.
    cbn -[assoc truthy call]. rewrite call_run, Hnet.
    cbn -[assoc truthy call call_result].
    rewrite call_result_rejected by exact Hst. reflexivity. }
  rewrite Hrun. repeat split; reflexivity.
Qed.

(** ** Inverting a run that returned *)

Lemma try_except_Ok {A : Type} (body : M A) (handler : Z -> option json -> M A)
    (s s' : state) (a : A) :
  try_except_HTTPError body handler s = (Ok a, s') ->
  body s = (Ok a, s') \/
  exists st b s1, body s = (Raise (HTTPError st b), s1) /\
                  handler st b s1 = (Ok a, s').
Proof.
  unfold try_except_HTTPError.
  destruct (body s) as [[a'|e] s1]; [intros H; left; exact H|].
  destruct e; try discriminate.
  intros H. right. eexists _, _, _. split; [reflexivity | exact H].
Qed.

(** Rewrite the equation of one primitive step into what it says. *)
Ltac tidy H :=
  lazymatch type of H with
  | lift _ _ = _ => unfold lift in H; injection H as H ?; subst
  | click_echo _ _ = _ => unfold click_echo, emit in H; injection H as ? ?; subst
  | click_echo_err _ _ = _ =>
      unfold click_echo_err, emit in H; injection H as ? ?; subst
  | emit _ _ = _ => unfold emit in H; injection H as ? ?; subst
  | time_now _ = _ => unfold time_now in H; injection H as ? ?; subst
  | mret _ _ = _ => unfold mret, M_ret in H; injection H as ? ?; subst
  | call _ _ _ = _ => rewrite call_run in H; injection H as H ?; subst
  | save_tokens _ _ _ _ = _ =>
      rewrite save_tokens_run in H; injection H as ? ?; subst
  | get_data_dir (mkState (Some _) _ _) = _ =>
      unfold get_data_dir in H; cbn [store] in H; injection H as ? ?; subst
  | _ => idtac
  end.

(** Split [H : (m ≫= f) s = (Ok _, _)] into the step of [m] and the rest. *)
Ltac step H :=
  rewrite bind_run in H;
  lazymatch type of H with
  | match ?ms with _ => _ end = _ =>
      let a := fresh "a" in
      let e := fresh "e" in
      let s1 := fresh "s" in
      let Hstep := fresh "Hstep" in
      destruct ms as [[a|e] s1] eqn:Hstep; [|discriminate H];
      tidy Hstep
  end.

Lemma int_add_Ok (now : Z) (v x : json) :
  int_add now v = Ok x -> exists n, int_value v = Some n /\ x = JInt (now + n).
Proof.
  unfold int_add. destruct (int_value v) as [n|]; [|discriminate].
  intros [= <-]. exists n. split; reflexivity.
Qed.

Lemma dict_get_lifetime (response v : json) (default n : Z) :
  dict_get response "expires_in" (JInt default) = Ok v ->
  int_value v = Some n ->
  lifetime default response n.
Proof.
  destruct response as [| | | | |fields]; try discriminate.
  unfold dict_get, lifetime.
  destruct (assoc "expires_in" fields) as [x|].
  - intros [= ->]. tauto.
  - intros [= <-]. simpl. intros [= <-]. reflexivity.
Qed.

Lemma full_auth_flow_Ok (w : World) (tok cred : json) (s s' : state) :
  full_auth_flow w tok s = (Ok cred, s') ->
  exists xbl_token user_hash xsts_token mc_token username uuid skins n
         r1 r2 r4 st mc_response,
    snd (network w (ReqMinecraft xsts_token user_hash)) =
      Response st (Some mc_response) /\
    getitem mc_response "access_token" = Ok mc_token /\
    lifetime 86400 mc_response n /\
    cred = JObj [ ("access_token", mc_token);
                  ("expires_at", JInt (clock s' + n));
                  ("username", username);
                  ("uuid", uuid);
                  ("skins", skins) ] /\
    store s' = store s /\
    log s' = flow_events tok xbl_token user_hash xsts_token mc_token
               r1 r2 (Response st (Some mc_response)) r4 ++ log s /\
    good_reply r1 = true /\ good_reply r2 = true /\
    good_reply (Response st (Some mc_response)) = true /\
    good_reply r4 = true.
Proof.
  intros H. unfold full_auth_flow, xbox_live_auth, xsts_auth, minecraft_auth,
    get_minecraft_profile in H.
  do 21 step H. tidy H.
  apply call_result_Ok in Hstep as (Hg1 & st1 & Hr1).
  apply call_result_Ok in Hstep5 as (Hg2 & st2 & Hr2).
  apply call_result_Ok in Hstep7 as (Hg3 & st3 & Hr3).
  apply call_result_Ok in Hstep10 as (Hg4 & st4 & Hr4).
  apply int_add_Ok in Hstep11 as (n & Hn & ->).
  exists a0, a4, a6, a8, a12, a13, a14, n, (snd (network w (ReqXboxLive tok))),
    (snd (network w (ReqXsts a0))), (snd (network w (ReqProfile a8))), st3, a7.
  rewrite <- Hr3.
  split; [reflexivity|].
  split; [exact Hstep8|].
  split; [eapply dict_get_lifetime; eassumption|].
  repeat split; assumption.
Qed.

Lemma write_access_token_Ok (w : World) (cred : json) (s s' : state) (u : unit) :
  write_access_token w cred s = (Ok u, s') ->
  exists t, getitem cred "access_token" = Ok (JStr t) /\
            s' = written w ACCESS_TOKEN (Raw t) s.
Proof.
  destruct u. intros H. pose proof H as Hrun. unfold write_access_token in H.
  do 3 step H. step H.
  destruct a1 as [| | |t| |];
    try (unfold f_write, raise in Hstep2; discriminate Hstep2).
  exists t. split; [assumption|].
  rewrite (write_access_token_run w cred t s) in Hrun by assumption.
  injection Hrun as <-. reflexivity.
Qed.

Lemma extends_refl (base : list event) : extends base base.
Proof. exists []. reflexivity. Qed.

Lemma extends_cons (base l : list event) (ev : event) :
  extends base l -> extends base (ev :: l).
Proof. intros [pre ->]. exists (ev :: pre). reflexivity. Qed.

Lemma extends_app (base l evs : list event) :
  extends base l -> extends base (evs ++ l).
Proof. intros [pre ->]. exists (evs ++ pre). rewrite app_assoc. reflexivity. Qed.

Ltac extends_tac :=
  repeat first [ apply extends_refl | apply extends_cons | apply extends_app ].

Lemma login_Ok (w : World) (url : string) (s s' : state) :
  login w url s = (Ok tt, s') ->
  exists tok s1 cred s2 t,
    extends (log s) (log s1) /\
    full_auth_flow w tok s1 = (Ok cred, s2) /\
    getitem cred "access_token" = Ok (JStr t) /\
    store s' = store (written w ACCESS_TOKEN (Raw t)
                        (written w MINECRAFT_TOKEN (JsonDoc cred) s2)) /\
    clock s' = clock s2 /\
    extends (log s2) (log s').
Proof.
  intros H. unfold login in H. cbv zeta in H.
  do 5 step H.
  destruct (assoc "code" (parse_qs w (urlparse_query w url))) as [values|].
  2:{ do 2 step H. discriminate H. }
  step H. destruct values as [|code rest]; [discriminate Hstep|]. tidy Hstep.
  apply try_except_Ok in H as [H | (st & b & s1 & _ & H)].
  2:{ do 2 step H. discriminate H. }
  unfold exchange_code_for_token in H.
  do 12 step H.
  match goal with
  | Hw : write_access_token _ _ _ = _ |- _ =>
      apply write_access_token_Ok in Hw as (t & Htok & ->)
  end.
  unfold written at 1 in H.
  do 6 step H.
  unfold click_echo, emit in H. injection H as <-.
  match goal with
  | Hflow : full_auth_flow _ _ _ = _ |- _ =>
      eexists _, _, _, _, t; split; [|split; [exact Hflow|]]
  end.
  { unfold written. cbn [log]. extends_tac. }
  split; [exact Htok|].
  split; [reflexivity|].
  split; [reflexivity|].
  unfold written. cbn [log]. extends_tac.
Qed.

Lemma load_tokens_run (w : World) (name : string) (s : state) :
  load_tokens w name s =
    (match files_of s !! name with
     | Some f =>
         match read_back w f with
         | Some j => Ok j
         | None => Raise JSONDecodeError
         end
     | None => Ok JNull
     end,
     mkState (Some (files_of s)) (clock s) (mkdir_events s ++ log s)).
Proof.
  destruct s as [[files|] c l];
    unfold load_tokens, get_data_dir, stat, files_of, mkdir_events, read_back;
    unfold_M; simpl.
  - destruct (files !! name) as [[[j|text] m]|]; simpl; try reflexivity.
    destruct (json_loads w text); reflexivity.
  - rewrite lookup_empty. reflexivity.
Qed.

Lemma getitem_truthy (v x : json) (k : string) :
  getitem v k = Ok x -> truthy v = true.
Proof.
  destruct v as [| | | | |fields]; try discriminate.
  destruct fields; [discriminate | reflexivity].
Qed.

Lemma refresh_Ok (w : World) (s s' : state) :
  refresh w s = (Ok tt, s') ->
  exists f ms_tokens old_rt st response a v n cred s2 t,
    files_of s !! MICROSOFT_TOKEN = Some f /\
    read_back w f = Some ms_tokens /\
    getitem ms_tokens "refresh_token" = Ok old_rt /\
    snd (network w (ReqRefresh old_rt)) = Response st (Some response) /\
    getitem response "access_token" = Ok a /\
    dict_get response "refresh_token" old_rt = Ok v /\
    lifetime 3600 response n /\
    full_auth_flow w a
      (written w MICROSOFT_TOKEN
         (JsonDoc (JObj [ ("access_token", a); ("refresh_token", v);
                          ("expires_at",
                           JInt (clock s + fst (network w (ReqRefresh old_rt)) + n)) ]))
         (mkState (Some (files_of s))
                  (clock s + fst (network w (ReqRefresh old_rt)))
                  (EvRequest (ReqRefresh old_rt) (Response st (Some response))
                   :: EvEcho false MsgRefreshing :: mkdir_events s ++ log s)))
      = (Ok cred, s2) /\
    getitem cred "access_token" = Ok (JStr t) /\
    store s' = store (written w ACCESS_TOKEN (Raw t)
                        (written w MINECRAFT_TOKEN (JsonDoc cred) s2)) /\
    clock s' = clock s2 /\
    extends (log s2) (log s').
Proof.
  intros H. unfold refresh in H.
  rewrite bind_run, load_tokens_run in H.
  destruct (files_of s !! MICROSOFT_TOKEN) as [f|] eqn:Hf.
  2:{ cbn [truthy negb] in H. unfold no_refresh_token in H.
      step H. discriminate H. }
  destruct (read_back w f) as [ms_tokens|] eqn:Hread; [|discriminate H].
  destruct (truthy ms_tokens) eqn:Htruthy; cbn [negb] in H.
  2:{ unfold no_refresh_token in H. step H. discriminate H. }
  step H.
  destruct (truthy a) eqn:Hrt; cbn [negb] in H.
  2:{ unfold no_refresh_token in H. step H. discriminate H. }
  apply try_except_Ok in H as [H | (st & b & s1 & _ & H)].
  2:{ do 2 step H. discriminate H. }
  unfold refresh_microsoft_token in H.
  do 14 step H.
  match goal with
  | Hw : write_access_token _ _ _ = _ |- _ =>
      apply write_access_token_Ok in Hw as (t & Htok & ->)
  end.
  unfold written at 1 in H.
  step H.
  unfold click_echo, emit in H. injection H as <-.
  rewrite Hstep0 in Hstep3. injection Hstep3 as <-.
  rewrite Hstep2 in Hstep7. injection Hstep7 as <-.
  apply call_result_Ok in Hstep1 as (Hgood & st & Hreply).
  apply int_add_Ok in Hstep6 as (n & Hn & ->).
  rewrite Hreply in Hstep8.
  exists f, ms_tokens, a0, st, a1, a2, a4, n, a8, s0, t.
  split; [reflexivity|]. split; [exact Hread|]. split; [exact Hstep0|].
  split; [exact Hreply|]. split; [exact Hstep2|]. split; [exact Hstep4|].
  split; [eapply dict_get_lifetime; eassumption|].
  split; [exact Hstep8|]. split; [exact Htok|].
  split; [reflexivity|]. split; [reflexivity|].
  unfold written. cbn [log]. extends_tac.
Qed.

Lemma committed_files (w : World) (cred : json) (t : string) (s2 s' : state) :
  store s' = store (written w ACCESS_TOKEN (Raw t)
                      (written w MINECRAFT_TOKEN (JsonDoc cred) s2)) ->
  files_of s' !! MINECRAFT_TOKEN = Some (mkFile (JsonDoc cred) mode_0600) /\
  files_of s' !! ACCESS_TOKEN = Some (mkFile (Raw t) mode_0600) /\
  files_of s' !! MICROSOFT_TOKEN = files_of s2 !! MICROSOFT_TOKEN.
Proof.
  destruct auth_files_distinct as (H12 & H13 & H23).
  intros Hstore. unfold files_of. rewrite Hstore.
  unfold written, files_of. cbn [store from_option id].
  rewrite lookup_insert_ne by done. rewrite !lookup_insert_eq.
  rewrite !lookup_insert_ne by done. repeat split; reflexivity.
Qed.

Lemma extends_trans (l1 l2 l3 : list event) :
  extends l1 l2 -> extends l2 l3 -> extends l1 l3.
Proof.
  intros [p1 ->] [p2 ->]. exists (p2 ++ p1). rewrite app_assoc. reflexivity.
Qed.

(** ** Expiry of the credential *)

(** C1: when [login] returns, the service endpoint was asked once in this
    run and answered with some [mc_response]; the credential record now
    stored has [expires_at = issue time + n], where [n] is the
    [expires_in] of [mc_response], or 86400 when [mc_response] has none.
    The issue time is the clock as [full_auth_flow] reads it once the
    profile has arrived; nothing after that moves the clock, so it is
    [clock s']. *)
Theorem login_expires_at (w : World) (url : string) (s s' : state) :
  login w url s = (Ok tt, s') ->
  exists new xsts_token user_hash st mc_response n cred,
    log s' = new ++ log s /\
    In (EvRequest (ReqMinecraft xsts_token user_hash)
                  (Response st (Some mc_response))) new /\
    lifetime 86400 mc_response n /\
    files_of s' !! MINECRAFT_TOKEN = Some (mkFile (JsonDoc cred) mode_0600) /\
    getitem cred "expires_at" = Ok (JInt (clock s' + n)).
Proof.
  intros H.
  apply login_Ok in H
    as (tok & s1 & cred & s2 & t & [pre Hpre] & Hflow & Htok & Hstore & Hclock
        & [post Hpost]).
  apply full_auth_flow_Ok in Hflow
    as (xbl & uhs & xsts & mc & name & uuid & skins & n & r1 & r2 & r4 & st
        & resp & _ & _ & Hlife & -> & _ & Hlog & _).
  apply committed_files in Hstore as (Hcred & _ & _).
  exists (post ++ flow_events tok xbl uhs xsts mc r1 r2 (Response st (Some resp)) r4
            ++ pre), xsts, uhs, st, resp, n.
  eexists. split.
  { rewrite Hpost, Hlog, Hpre. rewrite <- !app_assoc. reflexivity. }
  split.
  { apply in_or_app. right. apply in_or_app. left. simpl. tauto. }
  split; [exact Hlife|].
  split; [exact Hcred|].
  rewrite Hclock. reflexivity.
Qed.

(** ** Bearer file and credential record *)


(** ** The provider record after [refresh] *)

(** C6: when [refresh] returns, the store held a provider record with a
    refresh token [old_rt], the token endpoint answered the refresh with
    [response] after [d] seconds, and the provider record now stored has
    the refresh token of [response], or [old_rt] when [response] has none,
    and [expires_at = clock s + d + n]: the clock at the reply plus the
    [expires_in] of [response], or plus 3600 when it has none. *)
Theorem refresh_provider_record (w : World) (s s' : state) :
  refresh w s = (Ok tt, s') ->
  exists f ms_tokens old_rt d st response v n record,
    files_of s !! MICROSOFT_TOKEN = Some f /\
    read_back w f = Some ms_tokens /\
    getitem ms_tokens "refresh_token" = Ok old_rt /\
    network w (ReqRefresh old_rt) = (d, Response st (Some response)) /\
    files_of s' !! MICROSOFT_TOKEN = Some (mkFile (JsonDoc record) mode_0600) /\
    dict_get response "refresh_token" old_rt = Ok v /\
    getitem record "refresh_token" = Ok v /\
    lifetime 3600 response n /\
    getitem record "expires_at" = Ok (JInt (clock s + d + n)).
Proof.
  intros H.
  apply refresh_Ok in H
    as (f & ms_tokens & old_rt & st & response & a & v & n & cred & s2 & t
        & Hf & Hread & Hrt & Hreply & Ha & Hv & Hlife & Hflow & Htok & Hstore
        & _).
  apply full_auth_flow_Ok in Hflow
    as (xbl & uhs & xsts & mc & name & uuid & skins & n' & r1 & r2 & r4 & st'
        & resp & _ & _ & _ & _ & Hframe & _).
  apply committed_files in Hstore as (_ & _ & Hms).
  exists f, ms_tokens, old_rt, (fst (network w (ReqRefresh old_rt))), st,
    response, v, n.
  eexists.
  split; [exact Hf|]. split; [exact Hread|]. split; [exact Hrt|].
  split; [rewrite <- Hreply; apply surjective_pairing|].
  split.
  { rewrite Hms. unfold files_of at 1. rewrite Hframe. unfold written.
    cbn [store from_option id]. apply lookup_insert_eq. }
  split; [exact Hv|]. split; [reflexivity|]. split; [exact Hlife|].
  reflexivity.
Qed.

(** ** What the chain may do, whatever its outcome *)

Lemma quiet_bind (P : event -> bool) {A B : Type} (m : M A) (f : A -> M B) :
  quiet P m -> (forall a, quiet P (f a)) -> quiet P (m ≫= f).
Proof.
  intros Hm Hf s. rewrite bind_run.
  destruct (Hm s) as (Hstore & evs & Hlog & Hall).
  destruct (m s) as [[a|e] s1]; cbn [snd] in *.
  - destruct (Hf a s1) as (Hstore' & evs' & Hlog' & Hall').
    split; [congruence|].
    exists (evs' ++ evs). split.
    + rewrite Hlog', Hlog. apply app_assoc.
    + apply Forall_app. split; assumption.
  - split; [assumption|]. exists evs. split; assumption.
Qed.

Lemma quiet_pure (P : event -> bool) {A : Type} (r : result A) :
  quiet P (lift r).
Proof. intros s. split; [reflexivity|]. exists []. split; [reflexivity | constructor]. Qed.

Lemma quiet_mret (P : event -> bool) {A : Type} (a : A) :
  quiet P (mret a : M A).
Proof. intros s. split; [reflexivity|]. exists []. split; [reflexivity | constructor]. Qed.

Lemma quiet_time_now (P : event -> bool) : quiet P time_now.
Proof. intros s. split; [reflexivity|]. exists []. split; [reflexivity | constructor]. Qed.

Lemma quiet_echo (P : event -> bool) (m : message) :
  P (EvEcho false m) = true -> quiet P (click_echo m).
Proof.
  intros HP s. split; [reflexivity|]. exists [EvEcho false m].
  split; [reflexivity | repeat constructor; assumption].
Qed.

Lemma quiet_call (P : event -> bool) (w : World) (q : request) :
  (forall r, P (EvRequest q r) = true) -> quiet P (call w q).
Proof.
  intros HP s. rewrite call_run. cbn [snd store log]. split; [reflexivity|].
  eexists [_]. split; [reflexivity | repeat constructor; apply HP].
Qed.

Lemma full_auth_flow_quiet (w : World) (tok : json) :
  quiet flow_event (full_auth_flow w tok).
Proof.
  unfold full_auth_flow, xbox_live_auth, xsts_auth, minecraft_auth,
    get_minecraft_profile.
  repeat first
    [ apply quiet_call; intros ?; reflexivity
    | apply quiet_echo; reflexivity
    | apply quiet_pure
    | apply quiet_mret
    | apply quiet_time_now
    | apply quiet_bind; [|intros ?] ].
Qed.

Lemma write_access_token_not_str (w : World) (mc_data v : json) (s : state) :
  getitem mc_data "access_token" = Ok v ->
  is_string v = false ->
  write_access_token w mc_data s = (Raise TypeError, opened w ACCESS_TOKEN s).
Proof.
  intros Htok Hv.
  destruct s as [[files|] c l];
    unfold write_access_token, opened, mode_before, mkdir_events, files_of,
      get_data_dir, open_w, f_write, write_content, os_chmod, stat, put_file;
    unfold_M; simpl.
  - destruct (files !! ACCESS_TOKEN) as [f|] eqn:Hf; simpl; rewrite Htok; simpl;
      destruct v; try discriminate Hv; reflexivity.
  - rewrite lookup_empty. simpl. rewrite Htok. simpl.
    destruct v; try discriminate Hv; reflexivity.
Qed.

Lemma write_events_no_request (w : World) (name : string) (c : content)
    (s : state) :
  Forall (fun ev => is_request ev = false) (write_events w name c s).
Proof. repeat constructor. Qed.

Lemma mkdir_events_no_request (s : state) :
  Forall (fun ev => is_request ev = false) (mkdir_events s).
Proof. unfold mkdir_events. destruct (store s); repeat constructor. Qed.

Lemma files_of_store (s1 s2 : state) :
  store s1 = store s2 -> files_of s1 = files_of s2.
Proof. unfold files_of. intros ->. reflexivity. Qed.

Lemma files_of_written (w : World) (name : string) (c : content) (s : state) :
  files_of (written w name c s) = <[name := mkFile c mode_0600]> (files_of s).
Proof. reflexivity. Qed.

Lemma files_of_opened (w : World) (name : string) (s : state) :
  files_of (opened w name s) =
  <[name := mkFile (Raw "") (mode_before w name s)]> (files_of s).
Proof. reflexivity. Qed.

Lemma chain_shape (w : World) (tok : json) (finish : json -> M unit)
    (s1 s' : state) (r : result unit) :
  finishes finish ->
  chain w tok finish s1 = (r, s') ->
  (exists e fevs,
      r = Raise e /\ store s' = store s1 /\ log s' = fevs ++ log s1 /\
      Forall (fun ev => flow_event ev = true) fevs)
  \/
  (exists xbl uhs xsts mc r1 r2 r3 r4 tail,
      good_reply r1 = true /\ good_reply r2 = true /\
      good_reply r3 = true /\ good_reply r4 = true /\
      log s' = tail ++ flow_events tok xbl uhs xsts mc r1 r2 r3 r4 ++ log s1 /\
      Forall (fun ev => is_request ev = false) tail /\
      (forall name, name <> MINECRAFT_TOKEN -> name <> ACCESS_TOKEN ->
                    files_of s' !! name = files_of s1 !! name) /\
      (r = Ok tt /\ committed s' tail \/
       r = Raise TypeError /\ ~ string_tokens w)).
Proof.
  intros Hfinish H. unfold chain in H. rewrite bind_run in H.
  destruct (full_auth_flow w tok s1) as [[cred|e] s2] eqn:Hflow.
  2:{ injection H as <- <-. left.
      destruct (full_auth_flow_quiet w tok s1) as (Hstore & fevs & Hlog & Hall).
      rewrite Hflow in Hstore, Hlog. cbn [snd] in Hstore, Hlog.
      exists e, fevs. repeat split; assumption. }
  right.
  apply full_auth_flow_Ok in Hflow
    as (xbl & uhs & xsts & mc & name & uuid & skins & n & r1 & r2 & r4 & st
        & resp & Hnet3 & Hresp & _ & Hcred & Hframe & Hlog & Hg1 & Hg2 & Hg3
        & Hg4).
  assert (Htok : getitem cred "access_token" = Ok mc) by (rewrite Hcred; reflexivity).
  exists xbl, uhs, xsts, mc, r1, r2, (Response st (Some resp)), r4.
  rewrite bind_run, save_tokens_run in H. rewrite bind_run in H.
  destruct (is_string mc) eqn:Hmc.
  - destruct mc as [| | |t| |]; try discriminate Hmc.
    rewrite (write_access_token_run w _ t) in H by assumption.
    unfold written at 1 in H.
    edestruct (Hfinish (JStr t) (JInt (clock s2 + n)) name uuid skins)
      as (evs & Hfin & Hevs).
    rewrite <- Hcred in Hfin. rewrite Hfin in H. clear Hfin.
    injection H as <- <-.
    exists (evs ++ write_events w ACCESS_TOKEN (Raw t)
                     (written w MINECRAFT_TOKEN (JsonDoc cred) s2)
            ++ write_events w MINECRAFT_TOKEN (JsonDoc cred) s2
            ++ mkdir_events s2).
    split; [assumption|]. split; [assumption|]. split; [assumption|].
    split; [assumption|].
    split.
    { cbn [log]. unfold written. cbn [log mkdir_events store].
      rewrite Hlog. rewrite <- !app_assoc. reflexivity. }
    split.
    { repeat (apply Forall_app; split);
        auto using write_events_no_request, mkdir_events_no_request. }
    split.
    { intros name' Hn1 Hn2.
      change (files_of (written w ACCESS_TOKEN (Raw t)
                (written w MINECRAFT_TOKEN (JsonDoc cred) s2)) !! name'
              = files_of s1 !! name').
      rewrite !files_of_written. rewrite !lookup_insert_ne by congruence.
      rewrite (files_of_store s2 s1) by assumption. reflexivity. }
    left. split; [reflexivity|].
    exists cred, t. destruct auth_files_distinct as (H12 & H13 & H23).
    change (files_of (mkState
              (Some (<[ACCESS_TOKEN := mkFile (Raw t) mode_0600]>
                 (files_of (written w MINECRAFT_TOKEN (JsonDoc cred) s2)))) _ _))
      with (<[ACCESS_TOKEN := mkFile (Raw t) mode_0600]>
              (files_of (written w MINECRAFT_TOKEN (JsonDoc cred) s2))).
    rewrite files_of_written.
    rewrite lookup_insert_ne by done. rewrite !lookup_insert_eq.
    split; [reflexivity|]. split; [assumption|]. split; [reflexivity|].
    split.
    + apply in_or_app. right. apply in_or_app. right. apply in_or_app. left.
      left. reflexivity.
    + apply in_or_app. right. apply in_or_app. left. left. reflexivity.
  - rewrite (write_access_token_not_str w _ mc) in H by assumption.
    injection H as <- <-.
    exists (EvFile ACCESS_TOKEN
              (Some (mkFile (Raw "")
                       (mode_before w ACCESS_TOKEN
                          (written w MINECRAFT_TOKEN (JsonDoc cred) s2))))
            :: write_events w MINECRAFT_TOKEN (JsonDoc cred) s2
               ++ mkdir_events s2).
    split; [assumption|]. split; [assumption|]. split; [assumption|].
    split; [assumption|].
    split.
    { unfold opened, written. cbn [log mkdir_events store].
      rewrite Hlog. cbn [app]. rewrite <- !app_assoc. reflexivity. }
    split.
    { constructor; [reflexivity|]. apply Forall_app. split;
        auto using write_events_no_request, mkdir_events_no_request. }
    split.
    { intros name' Hn1 Hn2.
      rewrite files_of_opened, files_of_written.
      rewrite !lookup_insert_ne by congruence.
      rewrite (files_of_store s2 s1) by assumption. reflexivity. }
    right. split; [reflexivity|]. intros Hcontract.
    rewrite (Hcontract xsts uhs (fst (network w (ReqMinecraft xsts uhs))) st
               resp mc) in Hmc; [discriminate Hmc | | exact Hresp].
    rewrite <- Hnet3. apply surjective_pairing.
Qed.

Lemma login_finish_finishes : finishes login_finish.
Proof.
  intros mc exp name uuid skins files c l.
  eexists [_; _; _; _]. split; [reflexivity | repeat constructor].
Qed.

Lemma refresh_finish_finishes : finishes refresh_finish.
Proof.
  intros mc exp name uuid skins files c l.
  eexists [_]. split; [reflexivity | repeat constructor].
Qed.

(** Where an event sits in a log that is a prefix [upper] on a [base]: an
    event that [base] does not have sits in [upper]. *)
Lemma split_above (x : event) (later earlier upper base : list event) :
  later ++ x :: earlier = upper ++ base ->
  ~ In x base ->
  exists mid, upper = later ++ x :: mid /\ earlier = mid ++ base.
Proof.
  revert upper. induction later as [|l ls IH]; intros [|y upper] Heq Hout;
    cbn [app] in Heq.
  - exfalso. apply Hout. rewrite <- Heq. left. reflexivity.
  - injection Heq as <- ->. exists upper. split; reflexivity.
  - exfalso. apply Hout. rewrite <- Heq. right. apply in_elt.
  - injection Heq as <- Heq. destruct (IH upper Heq Hout) as (mid & -> & ->).
    exists mid. split; reflexivity.
Qed.

Lemma flow_events_good (tok xbl uhs xsts mc : json) (r1 r2 r3 r4 : reply)
    (q : request) (rp : reply) :
  good_reply r1 = true -> good_reply r2 = true ->
  good_reply r3 = true -> good_reply r4 = true ->
  In (EvRequest q rp) (flow_events tok xbl uhs xsts mc r1 r2 r3 r4) ->
  good_reply rp = true.
Proof.
  intros H1 H2 H3 H4 Hin. unfold flow_events in Hin. simpl in Hin.
  repeat match goal with
         | H : _ \/ _ |- _ => destruct H as [H | H]
         | H : EvRequest _ _ = EvRequest _ _ |- _ => injection H as <- <-
         | H : EvEcho _ _ = EvRequest _ _ |- _ => discriminate H
         | H : False |- _ => destruct H
         end; assumption.
Qed.

Lemma Forall_no_request (evs : list event) (q : request) (rp : reply) :
  Forall (fun ev => is_request ev = false) evs -> ~ In (EvRequest q rp) evs.
Proof.
  intros Hall Hin. rewrite List.Forall_forall in Hall.
  specialize (Hall _ Hin). discriminate Hall.
Qed.

Lemma Forall_flow_no_write (evs : list event) (name : string) (f : option file) :
  Forall (fun ev => flow_event ev = true) evs -> ~ In (EvFile name f) evs.
Proof.
  intros Hall Hin. rewrite List.Forall_forall in Hall.
  specialize (Hall _ Hin). discriminate Hall.
Qed.

Lemma lifetime_int_add (default : Z) (response : json) (n now : Z) :
  lifetime default response n ->
  exists x, dict_get response "expires_in" (JInt default) = Ok x /\
            int_add now x = Ok (JInt (now + n)).
Proof.
  destruct response as [| | | | |fields]; try contradiction.
  unfold lifetime, dict_get, int_add.
  destruct (assoc "expires_in" fields) as [x|].
  - intros Hx. exists x. rewrite Hx. split; reflexivity.
  - intros ->. eexists. split; reflexivity.
Qed.

Lemma refresh_handled_handles : handles refresh_handled.
Proof.
  intros [[u|e] [st c l]].
  - exists []. repeat split; constructor.
  - destruct e; try (exists []; repeat split; constructor).
    eexists [_; _]. repeat split. repeat constructor.
Qed.

Lemma login_handled_handles : handles login_handled.
Proof.
  intros [[u|e] [st c l]].
  - exists []. repeat split; constructor.
  - destruct e; try (exists []; repeat split; constructor).
    eexists [_; _]. repeat split. repeat constructor.
Qed.

(** ** From the provider record to the end of the run

    Both [login] and [refresh] save the provider record and then run the
    chain, the two writes and their closing lines inside the [try]. *)
Section AfterProviderRecord.

Variables (w : World) (tok record : json) (finish : json -> M unit).
Variable handled : result unit * state -> result unit * state.
Variables (s s0 s' : state) (base0 new : list event) (r : result unit).

Hypothesis Hfinish : finishes finish.
Hypothesis Hhandles : handles handled.
Hypothesis Hs0log : log s0 = base0 ++ log s.
Hypothesis Hs0files : files_of s0 = files_of s.
Hypothesis Hbase0 : Forall (fun ev => harmless ev = true) base0.
Hypothesis Hrun :
  handled (chain w tok finish (written w MICROSOFT_TOKEN (JsonDoc record) s0))
  = (r, s').
Hypothesis Hnew : log s' = new ++ log s.

Lemma persisted_base_no_downstream (q : request) (rp : reply) :
  downstream q = true -> ~ In (EvRequest q rp) (persisted_base w record s0 base0).
Proof.
  intros Hq Hin. unfold persisted_base in Hin.
  apply in_app_or in Hin as [Hin | Hin].
  { simpl in Hin. intuition discriminate. }
  apply in_app_or in Hin as [Hin | Hin].
  { unfold mkdir_events in Hin. destruct (store s0); simpl in Hin;
      intuition discriminate. }
  rewrite List.Forall_forall in Hbase0. specialize (Hbase0 _ Hin).
  simpl in Hbase0. rewrite Hq in Hbase0. discriminate.
Qed.

Lemma persisted_base_only_provider (name : string) (f : option file) :
  name <> MICROSOFT_TOKEN -> ~ In (EvFile name f) (persisted_base w record s0 base0).
Proof.
  intros Hname Hin. unfold persisted_base in Hin.
  apply in_app_or in Hin as [Hin | Hin].
  { simpl in Hin.
    destruct Hin as [Hin | [Hin | [Hin | []]]]; injection Hin as Heq _;
      apply Hname; symmetry; exact Heq. }
  apply in_app_or in Hin as [Hin | Hin].
  { unfold mkdir_events in Hin. destruct (store s0); simpl in Hin;
      intuition discriminate. }
  rewrite List.Forall_forall in Hbase0. specialize (Hbase0 _ Hin).
  discriminate.
Qed.

Lemma persisted_base_has_record :
  In (EvFile MICROSOFT_TOKEN (Some (mkFile (JsonDoc record) mode_0600)))
     (persisted_base w record s0 base0).
Proof. unfold persisted_base. apply in_or_app. left. left. reflexivity. Qed.

(** The two ways the run can go on from there. *)
Lemma after_record_shape :
  (exists upper,
      new = upper ++ (persisted_base w record s0 base0) /\
      Forall (fun ev => flow_event ev = true) upper /\
      files_of s' = <[MICROSOFT_TOKEN := mkFile (JsonDoc record) mode_0600]>
                      (files_of s) /\
      r <> Ok tt)
  \/
  (exists xbl uhs xsts mc r1 r2 r3 r4 tail,
      good_reply r1 = true /\ good_reply r2 = true /\
      good_reply r3 = true /\ good_reply r4 = true /\
      new = tail ++ flow_events tok xbl uhs xsts mc r1 r2 r3 r4
                 ++ (persisted_base w record s0 base0) /\
      Forall (fun ev => is_request ev = false) tail /\
      files_of s' !! MICROSOFT_TOKEN =
        Some (mkFile (JsonDoc record) mode_0600) /\
      (r = Ok tt /\ committed s' tail \/
       r = Raise TypeError /\ ~ string_tokens w)).
Proof.
  destruct (chain w tok finish (written w MICROSOFT_TOKEN (JsonDoc record) s0))
    as [rc sc] eqn:Hchain.
  destruct (Hhandles (rc, sc)) as (hevs & Hhstore & Hhlog & Hhall & Hhres).
  rewrite Hrun in Hhstore, Hhlog, Hhres. cbn [fst snd] in Hhstore, Hhlog, Hhres.
  apply chain_shape in Hchain
    as [(e & fevs & -> & Hst & Hlg & Hall)
       | (xbl & uhs & xsts & mc & r1 & r2 & r3 & r4 & tail & Hg1 & Hg2 & Hg3
          & Hg4 & Hlg & Htail & Hother & Hres)]; [| |exact Hfinish].
  - left. exists (hevs ++ fevs). split.
    { apply (app_inv_tail (log s)). rewrite <- Hnew, Hhlog, Hlg.
      unfold written, persisted_base. cbn [log]. rewrite Hs0log.
      rewrite <- !app_assoc. reflexivity. }
    split.
    { apply Forall_app. split; [|exact Hall].
      eapply List.Forall_impl; [|exact Hhall].
      intros [] Hecho; try discriminate Hecho. reflexivity. }
    split.
    { rewrite (files_of_store s' sc) by exact Hhstore.
      rewrite (files_of_store sc _ Hst). rewrite files_of_written, Hs0files.
      reflexivity. }
    rewrite Hhres. destruct e; discriminate.
  - right. exists xbl, uhs, xsts, mc, r1, r2, r3, r4, (hevs ++ tail).
    split; [assumption|]. split; [assumption|]. split; [assumption|].
    split; [assumption|].
    split.
    { apply (app_inv_tail (log s)). rewrite <- Hnew, Hhlog, Hlg.
      unfold written, persisted_base. cbn [log]. rewrite Hs0log.
      rewrite <- !app_assoc. reflexivity. }
    split.
    { apply Forall_app. split; [|exact Htail].
      eapply List.Forall_impl; [|exact Hhall].
      intros [] Hecho; try discriminate Hecho. reflexivity. }
    destruct auth_files_distinct as (H12 & H13 & H23).
    split.
    { rewrite (files_of_store s' sc) by exact Hhstore.
      rewrite Hother by done. rewrite files_of_written.
      apply lookup_insert_eq. }
    destruct Hres as [[-> Hmirror] | [-> Hbroken]]; cbn in Hhres; subst r.
    + left. split; [reflexivity|].
      destruct Hmirror as (cred & t & Hc1 & Hc2 & Hc3 & Hc4 & Hc5).
      exists cred, t. rewrite (files_of_store s' sc) by exact Hhstore.
      repeat split; try assumption; apply in_or_app; right; assumption.
    + right. split; [reflexivity | exact Hbroken].
Qed.

Lemma after_record_discipline :
  files_of s' !! MICROSOFT_TOKEN = Some (mkFile (JsonDoc record) mode_0600) /\
  (forall later earlier q rp,
      new = later ++ EvRequest q rp :: earlier -> downstream q = true ->
      In (EvFile MICROSOFT_TOKEN (Some (mkFile (JsonDoc record) mode_0600)))
         earlier) /\
  (forall later earlier name f,
      new = later ++ EvFile name f :: earlier -> name <> MICROSOFT_TOKEN ->
      chain_succeeded earlier) /\
  ((exists q rp, In (EvRequest q rp) new /\ downstream q = true /\
                 good_reply rp = false) ->
   files_of s' !! MINECRAFT_TOKEN = files_of s !! MINECRAFT_TOKEN /\
   files_of s' !! ACCESS_TOKEN = files_of s !! ACCESS_TOKEN /\
   r <> Ok tt).
Proof.
  destruct auth_files_distinct as (H12 & H13 & H23).
  destruct after_record_shape
    as [(upper & Hshape & Hupper & Hfiles & Hr)
       | (xbl & uhs & xsts & mc & r1 & r2 & r3 & r4 & tail & Hg1 & Hg2 & Hg3
          & Hg4 & Hshape & Htail & Hms & Hres)].
  - split; [rewrite Hfiles; apply lookup_insert_eq|].
    split.
    { intros later earlier q rp Hsplit Hq. rewrite Hshape in Hsplit.
      symmetry in Hsplit.
      apply split_above in Hsplit as (mid & _ & ->);
        [|apply persisted_base_no_downstream; exact Hq].
      apply in_or_app. right. apply persisted_base_has_record. }
    split.
    { intros later earlier name f Hsplit Hname. exfalso.
      assert (Hin : In (EvFile name f) new) by (rewrite Hsplit; apply in_elt).
      rewrite Hshape in Hin. apply in_app_or in Hin as [Hin | Hin].
      - exact (Forall_flow_no_write _ _ _ Hupper Hin).
      - exact (persisted_base_only_provider _ _ Hname Hin). }
    intros _. rewrite Hfiles. rewrite !lookup_insert_ne by done.
    split; [reflexivity|]. split; [reflexivity | exact Hr].
  - split; [exact Hms|].
    split.
    { intros later earlier q rp Hsplit Hq. rewrite Hshape in Hsplit.
      rewrite app_assoc in Hsplit. symmetry in Hsplit.
      apply split_above in Hsplit as (mid & _ & ->);
        [|apply persisted_base_no_downstream; exact Hq].
      apply in_or_app. right. apply persisted_base_has_record. }
    split.
    { intros later earlier name f Hsplit Hname. rewrite Hshape in Hsplit.
      symmetry in Hsplit. apply split_above in Hsplit as (mid & _ & ->).
      - exists tok, xbl, uhs, xsts, mc, r1, r2, r3, r4.
        split; [|repeat split; assumption].
        intros ev Hev. apply in_or_app. right. apply in_or_app. left. exact Hev.
      - intros Hin. apply in_app_or in Hin as [Hin | Hin].
        + simpl in Hin. intuition discriminate.
        + exact (persisted_base_only_provider _ _ Hname Hin). }
    intros (q & rp & Hin & Hq & Hbad). exfalso.
    rewrite Hshape in Hin. apply in_app_or in Hin as [Hin | Hin].
    { exact (Forall_no_request _ _ _ Htail Hin). }
    apply in_app_or in Hin as [Hin | Hin].
    { rewrite (flow_events_good _ _ _ _ _ _ _ _ _ _ _ Hg1 Hg2 Hg3 Hg4 Hin) in Hbad.
      discriminate Hbad. }
    exact (persisted_base_no_downstream _ _ Hq Hin).
Qed.

End AfterProviderRecord.

Section RefreshAfterReply.

Variables (w : World) (s : state) (files : gmap string file) (f : file).
Variables (ms_tokens old_rt response a v : json) (d st n : Z).

Hypothesis Hstore : store s = Some files.
Hypothesis Hfile : files !! MICROSOFT_TOKEN = Some f.
Hypothesis Hread : read_back w f = Some ms_tokens.
Hypothesis Hold : getitem ms_tokens "refresh_token" = Ok old_rt.
Hypothesis Htruthy : truthy old_rt = true.
Hypothesis Hnet : network w (ReqRefresh old_rt) = (d, Response st (Some response)).
Hypothesis Hgood : good_reply (Response st (Some response)) = true.
Hypothesis Haccess : getitem response "access_token" = Ok a.
Hypothesis Hcarry : dict_get response "refresh_token" old_rt = Ok v.
Hypothesis Hlife : lifetime 3600 response n.

Lemma refresh_reaches_chain :
  refresh w s =
    refresh_handled
      (chain w a refresh_finish
         (written w MICROSOFT_TOKEN
            (JsonDoc (provider_record a v (clock s + d + n)))
            (mkState (Some files) (clock s + d)
               (EvRequest (ReqRefresh old_rt) (Response st (Some response))
                :: EvEcho false MsgRefreshing :: log s)))).
Proof.
  destruct (lifetime_int_add 3600 response n (clock s + d) Hlife)
    as (x & Hx & Hadd).
  assert (Hnonempty : truthy ms_tokens = true) by (eapply getitem_truthy; eassumption).
  assert (Hget : dict_get ms_tokens "refresh_token" JNull = Ok old_rt).
  { destruct ms_tokens as [| | | | |fields]; try discriminate Hold.
    unfold getitem in Hold. unfold dict_get.
    destruct (assoc "refresh_token" fields); [exact Hold | discriminate Hold]. }
  assert (Hcall : call_result (Response st (Some response)) = Ok response).
  { unfold good_reply in Hgood. unfold call_result.
    destruct ((400 <=? st) && (st <? 600)); [discriminate Hgood | reflexivity]. }
  assert (Hfiles : files_of s = files) by (unfold files_of; rewrite Hstore; reflexivity).
  assert (Hmk : mkdir_events s = []) by (unfold mkdir_events; rewrite Hstore; reflexivity).
  remember (chain w a refresh_finish _) as out eqn:Hout.
  unfold refresh. rewrite bind_run, load_tokens_run.
  rewrite Hfiles, Hmk, Hfile, Hread.
  cbn [app]. rewrite Hnonempty. cbn [negb].
  rewrite bind_run. unfold lift at 1. rewrite Hget, Htruthy. cbn [negb].
  unfold try_except_HTTPError, refresh_microsoft_token.
  rewrite bind_run. unfold click_echo at 1, emit at 1. cbv beta iota.
  rewrite bind_run. unfold lift at 1. rewrite Hold. cbv beta iota.
  rewrite bind_run. rewrite call_run, Hnet. cbn [fst snd]. rewrite Hcall.
  cbv beta iota.
  rewrite bind_run. unfold lift at 1. rewrite Haccess. cbv beta iota.
  rewrite bind_run. unfold lift at 1. cbv beta iota.
  rewrite bind_run. unfold lift at 1. rewrite Hcarry. cbv beta iota.
  rewrite bind_run. unfold time_now at 1. cbv beta iota.
  rewrite bind_run. unfold lift at 1. rewrite Hx. cbv beta iota.
  rewrite bind_run. unfold lift at 1. cbn [clock]. rewrite Hadd. cbv beta iota.
  rewrite bind_run. rewrite save_tokens_run. cbv beta iota.
  rewrite bind_run. unfold lift at 1. cbv beta iota.
  match goal with
  | |- context [let (_, _) := ?X in _] =>
      match type of Hout with _ = ?Y => change X with Y end
  end.
  rewrite <- Hout. destruct out as [[u|e] s2]; [reflexivity|].
  destruct e; reflexivity.
Qed.

(** C10: [refresh] on a stored refresh token that the token endpoint
    accepts.  The new provider record (the new access token, the new or
    carried refresh token, expiry from the clock at the reply) is on disk,
    restricted, before any request of the chain is sent, and it is what
    the store holds at the end.  If a hop of the chain is answered badly
    (no response, an error status, a body that is not JSON), the command
    does not return normally and the credential record and the bearer
    file are what they were before the run. *)
Theorem refresh_chain_failure (r : result unit) (s' : state) (new : list event) :
  refresh w s = (r, s') ->
  log s' = new ++ log s ->
  files_of s' !! MICROSOFT_TOKEN =
    Some (mkFile (JsonDoc (provider_record a v (clock s + d + n))) mode_0600) /\
  (forall later earlier q rp,
      new = later ++ EvRequest q rp :: earlier -> downstream q = true ->
      In (EvFile MICROSOFT_TOKEN
            (Some (mkFile (JsonDoc (provider_record a v (clock s + d + n)))
                          mode_0600)))
         earlier) /\
  ((exists q rp, In (EvRequest q rp) new /\ downstream q = true /\
                 good_reply rp = false) ->
   files_of s' !! MINECRAFT_TOKEN = files !! MINECRAFT_TOKEN /\
   files_of s' !! ACCESS_TOKEN = files !! ACCESS_TOKEN /\
   r <> Ok tt).
Proof.
  intros Hrun Hnew. rewrite refresh_reaches_chain in Hrun.
  assert (Hfiles : files_of s = files) by (unfold files_of; rewrite Hstore; reflexivity).
  destruct (after_record_discipline w a
              (provider_record a v (clock s + d + n)) refresh_finish
              refresh_handled s
              (mkState (Some files) (clock s + d)
                 (EvRequest (ReqRefresh old_rt) (Response st (Some response))
                  :: EvEcho false MsgRefreshing :: log s))
              s'
              [EvRequest (ReqRefresh old_rt) (Response st (Some response));
               EvEcho false MsgRefreshing]
              new r refresh_finish_finishes refresh_handled_handles)
    as (Hms & Horder & _ & Hfail);
    [reflexivity | symmetry; exact Hfiles | repeat constructor | exact Hrun
    | exact Hnew |].
  rewrite Hfiles in Hfail.
  split; [exact Hms|]. split; [exact Horder | exact Hfail].
Qed.

End RefreshAfterReply.

Section LoginAfterExchange.

Variables (w : World) (url : string) (s : state).
Variables (code : string) (rest : list string).
Variables (ms_tokens a v : json) (d st n : Z).

Hypothesis Hcode :
  assoc "code" (parse_qs w (urlparse_query w url)) = Some (code :: rest).
Hypothesis Hnet : network w (ReqExchange code) = (d, Response st (Some ms_tokens)).
Hypothesis Hgood : good_reply (Response st (Some ms_tokens)) = true.
Hypothesis Haccess : getitem ms_tokens "access_token" = Ok a.
Hypothesis Hrefresh : dict_get ms_tokens "refresh_token" JNull = Ok v.
Hypothesis Hlife : lifetime 3600 ms_tokens n.

Lemma login_reaches_chain :
  login w url s =
    login_handled
      (chain w a login_finish
         (written w MICROSOFT_TOKEN
            (JsonDoc (provider_record a v (clock s + d + n)))
            (mkState (store s) (clock s + d) ((exchange_events code ms_tokens st) ++ log s)))).
Proof.
  destruct (lifetime_int_add 3600 ms_tokens n (clock s + d) Hlife)
    as (x & Hx & Hadd).
  assert (Hcall : call_result (Response st (Some ms_tokens)) = Ok ms_tokens).
  { unfold good_reply in Hgood. unfold call_result.
    destruct ((400 <=? st) && (st <? 600)); [discriminate Hgood | reflexivity]. }
  remember (chain w a login_finish _) as out eqn:Hout.
  unfold login. cbv zeta. rewrite Hcode.
  rewrite bind_run. unfold click_echo at 1, emit at 1. cbv beta iota.
  rewrite bind_run. unfold click_echo at 1, emit at 1. cbv beta iota.
  rewrite bind_run. unfold emit at 1. cbv beta iota.
  rewrite bind_run. unfold click_echo at 1, emit at 1. cbv beta iota.
  rewrite bind_run. unfold click_echo at 1, emit at 1. cbv beta iota.
  rewrite bind_run. unfold mret at 1, M_ret at 1. cbv beta iota.
  unfold try_except_HTTPError, exchange_code_for_token.
  rewrite bind_run. unfold click_echo at 1, emit at 1. cbv beta iota.
  rewrite bind_run. rewrite call_run, Hnet. cbn [fst snd]. rewrite Hcall.
  cbv beta iota.
  rewrite bind_run. unfold lift at 1. rewrite Haccess. cbv beta iota.
  rewrite bind_run. unfold lift at 1. rewrite Hrefresh. cbv beta iota.
  rewrite bind_run. unfold time_now at 1. cbv beta iota.
  rewrite bind_run. unfold lift at 1. rewrite Hx. cbv beta iota.
  rewrite bind_run. unfold lift at 1. cbn [clock]. rewrite Hadd. cbv beta iota.
  rewrite bind_run. rewrite save_tokens_run. cbv beta iota.
  rewrite bind_run. unfold lift at 1. cbv beta iota.
  cbn [store clock log].
  match goal with
  | |- context [let (_, _) := ?X in _] =>
      match type of Hout with _ = ?Y => change X with Y end
  end.
  rewrite <- Hout. destruct out as [[u|e] s2]; [reflexivity|].
  destruct e; reflexivity.
Qed.

(** C3: [login] with a grant code that the token endpoint accepts.  The
    provider record is on disk, restricted, before any request of the
    chain is sent, and the store holds it at the end whatever happens
    later.  The credential record and the bearer file are written only
    once the four hops of the chain have all been answered with good
    replies.  If a hop of the chain is answered badly, the command does
    not return normally and the credential record and the bearer file are
    what they were before the run. *)
Theorem login_commit_order (r : result unit) (s' : state) (new : list event) :
  login w url s = (r, s') ->
  log s' = new ++ log s ->
  files_of s' !! MICROSOFT_TOKEN =
    Some (mkFile (JsonDoc (provider_record a v (clock s + d + n))) mode_0600) /\
  (forall later earlier q rp,
      new = later ++ EvRequest q rp :: earlier -> downstream q = true ->
      In (EvFile MICROSOFT_TOKEN
            (Some (mkFile (JsonDoc (provider_record a v (clock s + d + n)))
                          mode_0600)))
         earlier) /\
  (forall later earlier name f,
      new = later ++ EvFile name f :: earlier -> name <> MICROSOFT_TOKEN ->
      chain_succeeded earlier) /\
  ((exists q rp, In (EvRequest q rp) new /\ downstream q = true /\
                 good_reply rp = false) ->
   files_of s' !! MINECRAFT_TOKEN = files_of s !! MINECRAFT_TOKEN /\
   files_of s' !! ACCESS_TOKEN = files_of s !! ACCESS_TOKEN /\
   r <> Ok tt).
Proof.
  intros Hrun Hnew. rewrite login_reaches_chain in Hrun.
  apply (after_record_discipline w a
           (provider_record a v (clock s + d + n)) login_finish
           login_handled s
           (mkState (store s) (clock s + d) ((exchange_events code ms_tokens st) ++ log s))
           s' (exchange_events code ms_tokens st) new r login_finish_finishes
           login_handled_handles);
    [reflexivity | reflexivity | repeat constructor | exact Hrun | exact Hnew].
Qed.

End LoginAfterExchange.

(** ** Every way a run can end *)






(** ** Agreement across the commands *)

Lemma keeps_files_bind {A B : Type} (m : M A) (f : A -> M B) :
  keeps_files m -> (forall a, keeps_files (f a)) -> keeps_files (m ≫= f).
Proof.
  intros Hm Hf s. rewrite bind_run. specialize (Hm s).
  destruct (m s) as [[a|e] s1]; cbn [snd] in *; [|exact Hm].
  rewrite (Hf a s1). exact Hm.
Qed.

Lemma keeps_files_load_tokens (w : World) (name : string) :
  keeps_files (load_tokens w name).
Proof. intros s. rewrite load_tokens_run. reflexivity. Qed.

Lemma keeps_files_get_data_dir : keeps_files get_data_dir.
Proof. intros [[files|] c l]; reflexivity. Qed.

Lemma keeps_files_const {A : Type} (r : result A) : keeps_files (lift r).
Proof. intros s. reflexivity. Qed.

Lemma keeps_files_echo (m : message) : keeps_files (click_echo m).
Proof. intros s. reflexivity. Qed.

Lemma status_keeps_files (w : World) : keeps_files (status w).
Proof.
  unfold status.
  apply keeps_files_bind; [apply keeps_files_load_tokens|]. intros mc_tokens.
  destruct (negb (truthy mc_tokens)); [apply keeps_files_echo|].
  do 3 (apply keeps_files_bind; [apply keeps_files_const|]; intros ?).
  apply keeps_files_bind; [intros s; reflexivity|]. intros now.
  apply keeps_files_bind.
  { destruct (int_value _); intros s; reflexivity. }
  intros v.
  do 3 (apply keeps_files_bind; [apply keeps_files_echo|]; intros _).
  apply keeps_files_bind; [apply keeps_files_get_data_dir|]. intros _.
  apply keeps_files_echo.
Qed.

Lemma token_path_keeps_files : keeps_files token_path.
Proof.
  unfold token_path.
  apply keeps_files_bind; [apply keeps_files_get_data_dir|]. intros _.
  apply keeps_files_echo.
Qed.






(** ** The end-to-end scenario *)

(** Grant code "ABC123" against the mocked endpoints: [login] returns, the
    credential record is that of Steve with the token "MC1" and an expiry
    86400 seconds after the clock at the end of the chain, and the bearer
    file holds exactly "MC1". *)
Example scenario_end_to_end :
  let out := login Scenario.world Scenario.redirect Scenario.fresh in
  fst out = Ok tt /\
  files_of (snd out) !! MINECRAFT_TOKEN =
    Some (mkFile (JsonDoc
            (JObj [ ("access_token", JStr "MC1");
                    ("expires_at", JInt (clock (snd out) + 86400));
                    ("username", JStr "Steve");
                    ("uuid", JStr "uuid1");
                    ("skins", JList []) ])) mode_0600) /\
  files_of (snd out) !! ACCESS_TOKEN = Some (mkFile (Raw "MC1") mode_0600).
Proof. vm_compute. repeat split; reflexivity. Qed.

(** The assumption of the agreement above cannot be dropped: when the
    service endpoint sends its access token as a number, [login] saves the
    credential record, empties the bearer file and dies of the
    [TypeError] of the write. *)
Example agreement_needs_string_token :
  let out := login Scenario.world_numeric Scenario.redirect Scenario.fresh in
  fst out = Raise TypeError /\
  in_sync Scenario.fresh /\
  files_of (snd out) !! ACCESS_TOKEN = Some (mkFile (Raw "") 420) /\
  ~ in_sync (snd out).
Proof.
  split; [vm_compute; reflexivity|].
  split; [left; split; reflexivity|].
  split; [vm_compute; reflexivity|].
  intros [[Habsent _] | (cred & t & _ & _ & Hbearer)].
  - vm_compute in Habsent. discriminate Habsent.
  - vm_compute in Hbearer. discriminate Hbearer.
Qed.



(** ** The statements at work

    Each theorem above that starts from assumptions is applied here to a
    run of the sample world. *)

Lemma login_expires_at_witness :
  exists new xsts_token user_hash st mc_response n cred,
    log (snd (login Scenario.world Scenario.redirect Scenario.fresh))
      = new ++ log Scenario.fresh /\
    In (EvRequest (ReqMinecraft xsts_token user_hash)
                  (Response st (Some mc_response))) new /\
    lifetime 86400 mc_response n /\
    files_of (snd (login Scenario.world Scenario.redirect Scenario.fresh))
      !! MINECRAFT_TOKEN = Some (mkFile (JsonDoc cred) mode_0600) /\
    getitem cred "expires_at" =
      Ok (JInt (clock (snd (login Scenario.world Scenario.redirect
                              Scenario.fresh)) + n)).
Proof.
  apply (login_expires_at Scenario.world Scenario.redirect Scenario.fresh).
  vm_compute. reflexivity.
Defined.

Lemma refresh_rejected_witness :
  refresh Scenario.world_revoked Scenario.stored =
    (Raise (SystemExit 1),
     mkState (store Scenario.stored) (clock Scenario.stored + 1)
       (EvEcho true MsgLoginAgain ::
        EvEcho true (MsgRefreshFailed (HTTPError 400 (Some Scenario.invalid_grant))) ::
        EvRequest (ReqRefresh (JStr "R1")) (Response 400 (Some Scenario.invalid_grant)) ::
        EvEcho false MsgRefreshing :: log Scenario.stored)) /\
  exit_status (fst (refresh Scenario.world_revoked Scenario.stored)) = 1 /\
  store (snd (refresh Scenario.world_revoked Scenario.stored))
    = store Scenario.stored.
Proof.
  apply (refresh_rejected Scenario.world_revoked Scenario.stored
           Scenario.stored_files Scenario.stored_tokens (JStr "R1") 384 1 400
           (Some Scenario.invalid_grant));
    try reflexivity.
  lia.
Defined.

Lemma login_commit_order_witness :
  let out := login Scenario.world_ineligible Scenario.redirect Scenario.fresh in
  let record := provider_record (JStr "MA") JNull (clock Scenario.fresh + 1 + 3600) in
  files_of (snd out) !! MICROSOFT_TOKEN
    = Some (mkFile (JsonDoc record) mode_0600) /\
  (forall later earlier q rp,
      log (snd out) = later ++ EvRequest q rp :: earlier -> downstream q = true ->
      In (EvFile MICROSOFT_TOKEN (Some (mkFile (JsonDoc record) mode_0600)))
         earlier) /\
  (forall later earlier name f,
      log (snd out) = later ++ EvFile name f :: earlier ->
      name <> MICROSOFT_TOKEN -> chain_succeeded earlier) /\
  ((exists q rp, In (EvRequest q rp) (log (snd out)) /\ downstream q = true /\
                 good_reply rp = false) ->
   files_of (snd out) !! MINECRAFT_TOKEN
     = files_of Scenario.fresh !! MINECRAFT_TOKEN /\
   files_of (snd out) !! ACCESS_TOKEN
     = files_of Scenario.fresh !! ACCESS_TOKEN /\
   fst out <> Ok tt).
Proof.
  intros out record.
  apply (login_commit_order Scenario.world_ineligible Scenario.redirect
           Scenario.fresh "ABC123" []
           Scenario.token_reply (JStr "MA") JNull 1 200 3600).
  - vm_compute. reflexivity.
  - reflexivity.
  - reflexivity.
  - reflexivity.
  - reflexivity.
  - reflexivity.
  - apply surjective_pairing.
  - symmetry. apply app_nil_r.
Defined.


Lemma refresh_provider_record_witness :
  exists f ms_tokens old_rt d st response v n record,
    files_of Scenario.stored !! MICROSOFT_TOKEN = Some f /\
    read_back Scenario.world f = Some ms_tokens /\
    getitem ms_tokens "refresh_token" = Ok old_rt /\
    network Scenario.world (ReqRefresh old_rt)
      = (d, Response st (Some response)) /\
    files_of (snd (refresh Scenario.world Scenario.stored)) !! MICROSOFT_TOKEN
      = Some (mkFile (JsonDoc record) mode_0600) /\
    dict_get response "refresh_token" old_rt = Ok v /\
    getitem record "refresh_token" = Ok v /\
    lifetime 3600 response n /\
    getitem record "expires_at" = Ok (JInt (clock Scenario.stored + d + n)).
Proof.
  apply (refresh_provider_record Scenario.world Scenario.stored).
  vm_compute. reflexivity.
Defined.

Lemma status_expired_iff_witness :
  exists username uuid v,
    status Scenario.world Scenario.stored =
      (Ok tt,
       mkState (store Scenario.stored) (clock Scenario.stored)
         (EvEcho false MsgDataDir :: EvEcho false (MsgToken v) ::
          EvEcho false (MsgUuid uuid) :: EvEcho false (MsgUsername username) ::
          log Scenario.stored)) /\
    (v = Expired <-> clock Scenario.stored >= 87405) /\
    (v = Valid ((87405 - clock Scenario.stored) / 3600)
               (((87405 - clock Scenario.stored) mod 3600) / 60)
       <-> clock Scenario.stored < 87405) /\
    ((exists hours minutes, v = Valid hours minutes)
       <-> clock Scenario.stored < 87405).
Proof.
  apply (status_expired_iff Scenario.world Scenario.stored Scenario.stored_files
           Scenario.credential 384 87405);
    reflexivity.
Defined.

Lemma refresh_chain_failure_witness :
  let out := refresh Scenario.world_ineligible Scenario.stored in
  let record := provider_record (JStr "MA") (JStr "R1")
                  (clock Scenario.stored + 1 + 3600) in
  files_of (snd out) !! MICROSOFT_TOKEN
    = Some (mkFile (JsonDoc record) mode_0600) /\
  (forall later earlier q rp,
      log (snd out) = later ++ EvRequest q rp :: earlier -> downstream q = true ->
      In (EvFile MICROSOFT_TOKEN (Some (mkFile (JsonDoc record) mode_0600)))
         earlier) /\
  ((exists q rp, In (EvRequest q rp) (log (snd out)) /\ downstream q = true /\
                 good_reply rp = false) ->
   files_of (snd out) !! MINECRAFT_TOKEN
     = Scenario.stored_files !! MINECRAFT_TOKEN /\
   files_of (snd out) !! ACCESS_TOKEN = Scenario.stored_files !! ACCESS_TOKEN /\
   fst out <> Ok tt).
Proof.
  intros out record.
  apply (refresh_chain_failure Scenario.world_ineligible Scenario.stored
           Scenario.stored_files
           (mkFile (JsonDoc Scenario.stored_tokens) 384)
           Scenario.stored_tokens (JStr "R1") Scenario.refresh_reply
           (JStr "MA") (JStr "R1") 1 200 3600).
  - reflexivity.
  - reflexivity.
  - reflexivity.
  - reflexivity.
  - reflexivity.
  - reflexivity.
  - reflexivity.
  - reflexivity.
  - reflexivity.
  - reflexivity.
  - apply surjective_pairing.
  - symmetry. apply app_nil_r.
Defined.


(** * Further properties of the code *)

(** ** More on the token store *)

(** X2: [save_tokens] changes one file only: any other name holds what it
    held, and loads as it loaded. *)
Theorem save_tokens_frame (w : World) (data : json) (name other : string)
    (s : state) :
  other <> name ->
  let s1 := snd (save_tokens w data name s) in
  files_of s1 !! other = files_of s !! other /\
  fst (load_tokens w other s1) = fst (load_tokens w other s).
Proof.
  intros Hne. cbv zeta. rewrite save_tokens_run. cbn [snd].
  rewrite !load_tokens_run. cbn [fst].
  assert (Hsame : files_of (written w name (JsonDoc data) s) !! other
                  = files_of s !! other).
  { unfold written, files_of at 1. cbn [store from_option id].
    apply lookup_insert_ne. congruence. }
  rewrite Hsame. split; reflexivity.
Qed.

(** X3: a second [save_tokens] on the same name replaces the first: the
    directory is the one the second save alone would leave, and the
    rewrite never puts the record on disk under a mode others can read,
    since the file keeps mode 0600 while it is rewritten. *)
Theorem save_tokens_again (w : World) (a b : json) (name : string) (s : state) :
  let s1 := snd (save_tokens w a name s) in
  let s2 := snd (save_tokens w b name s1) in
  files_of s2 = files_of (snd (save_tokens w b name s)) /\
  exists new, log s2 = new ++ log s1 /\ never_exposed name new.
Proof.
  cbv zeta. rewrite !save_tokens_run. cbn [snd]. split.
  - unfold written, files_of. cbn [store from_option id].
    apply insert_insert_eq.
  - exists (write_events w name (JsonDoc b) (written w name (JsonDoc a) s)).
    split; [reflexivity|].
    unfold write_events, mode_before, written, files_of.
    cbn [store from_option id]. rewrite lookup_insert_eq. cbn [mode].
    intros f Hin Hbody.
    destruct Hin as [[= <-] | [[= <-] | [[= <-] | []]]]; reflexivity.
Qed.

(** X4: the window of [save_tokens] is exactly the mode the file has while
    it is open: the record is on disk readable by others at some point of
    the save if and only if the file existed with such a mode, or is
    created under a umask that leaves one. *)
Theorem save_tokens_exposure (w : World) (data : json) (name : string)
    (s : state) :
  exists new,
    log (snd (save_tokens w data name s)) = new ++ log s /\
    (never_exposed name new <-> others_can_read (mode_before w name s) = false).
Proof.
  rewrite save_tokens_run. cbn [snd]. unfold written. cbn [log].
  exists (write_events w name (JsonDoc data) s ++ mkdir_events s).
  split; [rewrite <- app_assoc; reflexivity|].
  split.
  - intros Hsafe.
    apply (Hsafe (mkFile (JsonDoc data) (mode_before w name s)));
      [|discriminate].
    apply in_or_app. left. unfold write_events. simpl. tauto.
  - intros Hmode f Hin Hbody.
    apply in_app_or in Hin as [Hin | Hin].
    + destruct Hin as [[= <-] | [[= <-] | [[= <-] | []]]];
        [reflexivity | exact Hmode | exfalso; apply Hbody; reflexivity].
    + unfold mkdir_events in Hin. destruct (store s); simpl in Hin;
        [contradiction | destruct Hin as [Hin | []]; discriminate Hin].
Qed.

(** ** The order of the requests *)

Lemma requests_of_app (evs1 evs2 : list event) :
  requests_of (evs1 ++ evs2) = requests_of evs1 ++ requests_of evs2.
Proof.
  induction evs1 as [|ev evs1 IH]; [reflexivity|].
  destruct ev; simpl; rewrite IH; reflexivity.
Qed.

Lemma sends_bind (allowed : request -> bool) (k n n' : nat) {A B : Type}
    (m : M A) (f : A -> M B) :
  sends allowed k n m -> (forall a, sends allowed (k + n) n' (f a)) ->
  sends allowed k (n + n') (m ≫= f).
Proof.
  intros Hm Hf s. rewrite bind_run.
  destruct (Hm s) as (evs1 & Hlog1 & (Hhop1 & Hlen1 & Hall1 & Hgood1) & Hok1).
  destruct (m s) as [[a|e] s1]; cbn [fst snd] in *.
  2:{ exists evs1. split; [exact Hlog1|]. split; [|discriminate].
      repeat split; try assumption. lia. }
  destruct (Hok1 a eq_refl) as (Hn & Hevs1). clear Hok1.
  destruct (Hf a s1) as (evs2 & Hlog2 & (Hhop2 & Hlen2 & Hall2 & Hgood2) & Hok2).
  exists (evs2 ++ evs1).
  split; [rewrite Hlog2, Hlog1; apply app_assoc|].
  unfold in_order, all_answered. rewrite requests_of_app.
  split; [repeat split|].
  - rewrite rev_app_distr, map_app, Hhop1, Hhop2, length_app, Hn.
    rewrite (Nat.add_comm (length _) n). symmetry. apply seq_app.
  - rewrite length_app. lia.
  - apply Forall_app. split; assumption.
  - destruct (requests_of evs2) as [|p ps]; [exact Hgood1|].
    cbn [tail] in *. cbn [app tail]. apply Forall_app. split; assumption.
  - intros b Hb. destruct (Hok2 b Hb) as (Hn' & Hevs2).
    split; [rewrite length_app; lia | apply Forall_app; split; assumption].
Qed.

(** A step that sends nothing. *)
Lemma sends_none (allowed : request -> bool) (k n : nat) {A : Type} (m : M A) :
  (forall s, exists evs, log (snd (m s)) = evs ++ log s /\
                         requests_of evs = [] /\
                         (n <> 0%nat -> forall a, fst (m s) <> Ok a)) ->
  sends allowed k n m.
Proof.
  intros Hm s. destruct (Hm s) as (evs & Hlog & Hnone & Hn).
  exists evs. split; [exact Hlog|]. unfold in_order, all_answered.
  rewrite Hnone. cbn.
  split; [repeat split; [lia | constructor | constructor]|].
  intros a Ha. destruct n as [|n]; [split; [reflexivity | constructor]|].
  exfalso. exact (Hn ltac:(discriminate) a Ha).
Qed.

Lemma sends_silent (allowed : request -> bool) (k : nat) {A : Type} (m : M A) :
  (forall s, log (snd (m s)) = log s) -> sends allowed k 0 m.
Proof.
  intros Hm. apply sends_none. intros s. exists []. rewrite Hm.
  split; [reflexivity|]. split; [reflexivity|]. intros Hn. contradiction Hn; reflexivity.
Qed.

Lemma sends_lift (allowed : request -> bool) (k : nat) {A : Type} (r : result A) :
  sends allowed k 0 (lift r).
Proof. apply sends_silent. reflexivity. Qed.

Lemma sends_mret (allowed : request -> bool) (k : nat) {A : Type} (a : A) :
  sends allowed k 0 (mret a : M A).
Proof. apply sends_silent. reflexivity. Qed.

Lemma sends_raise (allowed : request -> bool) (k n : nat) {A : Type} (e : exn) :
  sends allowed k n (raise e : M A).
Proof.
  apply sends_none. intros s. exists []. split; [reflexivity|].
  split; [reflexivity|]. intros _ a. discriminate.
Qed.

Lemma sends_time_now (allowed : request -> bool) (k : nat) :
  sends allowed k 0 time_now.
Proof. apply sends_silent. reflexivity. Qed.

Lemma sends_emit (allowed : request -> bool) (k : nat) (ev : event) :
  is_request ev = false -> sends allowed k 0 (emit ev).
Proof.
  intros Hev. apply sends_none. intros s. exists [ev].
  split; [reflexivity|]. split; [destruct ev; try reflexivity; discriminate|].
  intros Hn. contradiction Hn; reflexivity.
Qed.

Lemma sends_echo (allowed : request -> bool) (k : nat) (m : message) :
  sends allowed k 0 (click_echo m).
Proof. apply sends_emit. reflexivity. Qed.

Lemma sends_echo_err (allowed : request -> bool) (k : nat) (m : message) :
  sends allowed k 0 (click_echo_err m).
Proof. apply sends_emit. reflexivity. Qed.

Lemma sends_get_data_dir (allowed : request -> bool) (k : nat) :
  sends allowed k 0 get_data_dir.
Proof.
  apply sends_none. intros [[files|] c l].
  - exists []. split; [reflexivity|]. split; [reflexivity|].
    intros Hn. contradiction Hn; reflexivity.
  - exists [EvMkdir]. split; [reflexivity|]. split; [reflexivity|].
    intros Hn. contradiction Hn; reflexivity.
Qed.

Lemma requests_of_none (evs : list event) :
  Forall (fun ev => is_request ev = false) evs -> requests_of evs = [].
Proof.
  induction 1 as [|ev evs Hev _ IH]; [reflexivity|].
  destruct ev; try discriminate Hev; exact IH.
Qed.

Lemma sends_save_tokens (allowed : request -> bool) (k : nat) (w : World)
    (data : json) (name : string) :
  sends allowed k 0 (save_tokens w data name).
Proof.
  apply sends_none. intros s. rewrite save_tokens_run. cbn [snd].
  exists (write_events w name (JsonDoc data) s ++ mkdir_events s).
  split; [unfold written; cbn [log]; rewrite <- app_assoc; reflexivity|].
  split; [|intros Hn; contradiction Hn; reflexivity].
  rewrite requests_of_app. unfold mkdir_events. destruct (store s); reflexivity.
Qed.

Lemma sends_load_tokens (allowed : request -> bool) (k : nat) (w : World)
    (name : string) :
  sends allowed k 0 (load_tokens w name).
Proof.
  apply sends_none. intros s. rewrite load_tokens_run. cbn [snd log].
  exists (mkdir_events s). split; [reflexivity|].
  split; [|intros Hn; contradiction Hn; reflexivity].
  unfold mkdir_events. destruct (store s); reflexivity.
Qed.

Lemma sends_write_access_token (allowed : request -> bool) (k : nat)
    (w : World) (mc_data : json) :
  sends allowed k 0 (write_access_token w mc_data).
Proof.
  apply sends_none. intros s.
  assert (Hcases :
    snd (write_access_token w mc_data s) = opened w ACCESS_TOKEN s \/
    (exists t, snd (write_access_token w mc_data s)
               = written w ACCESS_TOKEN (Raw t) s) \/
    snd (write_access_token w mc_data s) =
      mkState (Some (files_of s)) (clock s) (mkdir_events s ++ log s)).
  { destruct (getitem mc_data "access_token") as [v|e] eqn:Hv.
    - destruct (is_string v) eqn:Hstr.
      + destruct v as [| | |t| |]; try discriminate Hstr.
        right. left. exists t.
        rewrite (write_access_token_run w mc_data t s Hv). reflexivity.
      + left. rewrite (write_access_token_not_str w mc_data v s Hv Hstr).
        reflexivity.
    - left. destruct s as [[files|] c l];
        unfold write_access_token, opened, mode_before, mkdir_events, files_of,
          get_data_dir, open_w, stat, put_file; unfold_M; simpl.
      + destruct (files !! ACCESS_TOKEN); simpl; rewrite Hv; reflexivity.
      + rewrite lookup_empty. simpl. rewrite Hv. reflexivity. }
  destruct Hcases as [-> | [[t ->] | ->]].
  - exists (EvFile ACCESS_TOKEN
              (Some (mkFile (Raw "") (mode_before w ACCESS_TOKEN s)))
            :: mkdir_events s).
    split; [reflexivity|]. split; [|intros Hn; contradiction Hn; reflexivity].
    unfold mkdir_events. destruct (store s); reflexivity.
  - exists (write_events w ACCESS_TOKEN (Raw t) s ++ mkdir_events s).
    split; [unfold written; cbn [log]; rewrite <- app_assoc; reflexivity|].
    split; [|intros Hn; contradiction Hn; reflexivity].
    rewrite requests_of_app. unfold mkdir_events. destruct (store s); reflexivity.
  - exists (mkdir_events s). split; [reflexivity|].
    split; [|intros Hn; contradiction Hn; reflexivity].
    unfold mkdir_events. destruct (store s); reflexivity.
Qed.

Lemma sends_call (allowed : request -> bool) (w : World) (q : request) :
  allowed q = true -> sends allowed (hop_number q) 1 (call w q).
Proof.
  intros Hq s. rewrite call_run. cbn [fst snd log].
  exists [EvRequest q (snd (network w q))]. split; [reflexivity|].
  split.
  - repeat split; cbn; [lia | repeat constructor; exact Hq | constructor].
  - intros a Ha. apply call_result_Ok in Ha as [Hgood _].
    split; [reflexivity | repeat constructor; exact Hgood].
Qed.

Lemma sends_try_except (allowed : request -> bool) (k n : nat) {A : Type}
    (body : M A) (handler : Z -> option json -> M A) :
  sends allowed k n body ->
  (forall st b s, exists evs,
      log (snd (handler st b s)) = evs ++ log s /\ requests_of evs = [] /\
      forall a, fst (handler st b s) <> Ok a) ->
  sends allowed k n (try_except_HTTPError body handler).
Proof.
  intros Hbody Hhandler s. unfold try_except_HTTPError.
  destruct (Hbody s) as (evs & Hlog & Hord & Hok).
  destruct (body s) as [[a|e] s1]; cbn [fst snd] in *.
  { exists evs. split; [exact Hlog|]. split; [exact Hord | exact Hok]. }
  destruct e as [| | | | | | |st b|];
    try (exists evs; split; [exact Hlog|]; split; [exact Hord|];
         intros; discriminate).
  destruct (Hhandler st b s1) as (hevs & Hhlog & Hnone & Hnever).
  exists (hevs ++ evs). split; [rewrite Hhlog, Hlog; apply app_assoc|].
  unfold in_order, all_answered. rewrite requests_of_app, Hnone. cbn [app].
  split; [exact Hord|]. intros a Ha. exfalso. exact (Hnever a Ha).
Qed.

Ltac sends_nothing :=
  first [ apply sends_echo | apply sends_echo_err | apply sends_lift
        | apply sends_time_now | apply sends_save_tokens
        | apply sends_load_tokens | apply sends_get_data_dir
        | apply sends_write_access_token | apply sends_mret
        | apply sends_emit; reflexivity ].

(** The next step of the goal sends nothing. *)
Ltac quiet_step :=
  lazymatch goal with
  | |- sends ?al ?k ?n (_ ≫= _) =>
      apply (sends_bind al k 0 n); [solve [sends_nothing] | intros ?]
  end.

Lemma full_auth_flow_sends (allowed : request -> bool) (w : World) (tok : json) :
  (forall q, downstream q = true -> allowed q = true) ->
  sends allowed 1 4 (full_auth_flow w tok).
Proof.
  intros Hallowed.
  unfold full_auth_flow, xbox_live_auth, xsts_auth, minecraft_auth,
    get_minecraft_profile.
  quiet_step.
  apply (sends_bind allowed 1 1 3);
    [apply (sends_call allowed w (ReqXboxLive tok)), Hallowed; reflexivity|].
  intros xbl_response. do 6 quiet_step.
  apply (sends_bind allowed 2 1 2);
    [apply (sends_call allowed w (ReqXsts _)), Hallowed; reflexivity|].
  intros xsts_response. do 2 quiet_step.
  apply (sends_bind allowed 3 1 1);
    [apply (sends_call allowed w (ReqMinecraft _ _)), Hallowed; reflexivity|].
  intros mc_response. do 3 quiet_step.
  apply (sends_bind allowed 4 1 0);
    [apply (sends_call allowed w (ReqProfile _)), Hallowed; reflexivity|].
  intros profile. do 5 quiet_step. apply sends_mret.
Qed.

Lemma exits_without_request (m1 m2 : message) (s : state) :
  exists evs,
    log (snd ((click_echo_err m1;; click_echo_err m2;; sys_exit 1 : M unit) s))
      = evs ++ log s /\
    requests_of evs = [] /\
    forall a, fst ((click_echo_err m1;; click_echo_err m2;; sys_exit 1 : M unit) s)
              <> Ok a.
Proof.
  exists [EvEcho true m2; EvEcho true m1].
  split; [reflexivity|]. split; [reflexivity|]. intros a. discriminate.
Qed.

Lemma login_sends (w : World) (url : string) :
  sends not_refresh 0 5 (login w url).
Proof.
  unfold login. cbv zeta. do 5 quiet_step.
  destruct (assoc "code" (parse_qs w (urlparse_query w url))) as [values|].
  2:{ do 2 quiet_step. apply sends_raise. }
  apply (sends_bind not_refresh 0 0 5).
  { destruct values; [apply sends_raise | apply sends_mret]. }
  intros code. apply sends_try_except.
  2:{ intros st b s. apply exits_without_request. }
  quiet_step. unfold exchange_code_for_token.
  apply (sends_bind not_refresh 0 1 4); [apply sends_call; reflexivity|].
  intros ms_tokens. do 7 quiet_step.
  apply (sends_bind not_refresh 1 4 0).
  { apply full_auth_flow_sends. intros [] Hq; try reflexivity; discriminate Hq. }
  intros mc_data. do 8 quiet_step. apply sends_echo.
Qed.

Lemma no_refresh_token_sends (allowed : request -> bool) (k n : nat) :
  sends allowed k n no_refresh_token.
Proof.
  unfold no_refresh_token. apply (sends_bind allowed k 0 n);
    [apply sends_echo_err | intros _; apply sends_raise].
Qed.

Lemma refresh_sends (w : World) : sends not_exchange 0 5 (refresh w).
Proof.
  unfold refresh. quiet_step.
  destruct (negb (truthy _)); [apply no_refresh_token_sends|].
  quiet_step.
  destruct (negb (truthy _)); [apply no_refresh_token_sends|].
  apply sends_try_except.
  2:{ intros st b s. apply exits_without_request. }
  do 2 quiet_step. unfold refresh_microsoft_token.
  apply (sends_bind not_exchange 0 1 4); [apply sends_call; reflexivity|].
  intros new_ms_tokens. do 8 quiet_step.
  apply (sends_bind not_exchange 1 4 0).
  { apply full_auth_flow_sends. intros [] Hq; try reflexivity; discriminate Hq. }
  intros mc_data. do 3 quiet_step. apply sends_echo.
Qed.

(** X5: [full_auth_flow] sends its requests in the order Xbox Live, XSTS,
    Minecraft services, profile, each once and only after the one before
    was answered with a good reply; it stops at the first hop that fails,
    and returns a credential record only when all four were answered. *)
Theorem full_auth_flow_in_order (w : World) (tok : json) (s : state) :
  let out := full_auth_flow w tok s in
  exists evs,
    log (snd out) = evs ++ log s /\
    map (fun p => hop_number (fst p)) (rev (requests_of evs))
      = seq 1 (length (requests_of evs)) /\
    (length (requests_of evs) <= 4)%nat /\
    Forall (fun p => good_reply (snd p) = true) (tail (requests_of evs)) /\
    forall cred, fst out = Ok cred ->
      length (requests_of evs) = 4%nat /\
      Forall (fun p => good_reply (snd p) = true) (requests_of evs).
Proof.
  destruct (full_auth_flow_sends downstream w tok (fun q H => H) s)
    as (evs & Hlog & (Hhops & Hlen & _ & Hgood) & Hok).
  exists evs. repeat split; try assumption; apply (Hok cred); assumption.
Qed.

(** X6: [login] sends at most five requests: the exchange of the grant
    code first, then the four hops of the chain in their order, each only
    after a good reply to the one before, and never a refresh request.
    It returns only when all five were answered with good replies. *)
Theorem login_in_order (w : World) (url : string) (s : state) :
  let out := login w url s in
  exists evs,
    log (snd out) = evs ++ log s /\
    map (fun p => hop_number (fst p)) (rev (requests_of evs))
      = seq 0 (length (requests_of evs)) /\
    (length (requests_of evs) <= 5)%nat /\
    Forall (fun p => not_refresh (fst p) = true) (requests_of evs) /\
    Forall (fun p => good_reply (snd p) = true) (tail (requests_of evs)) /\
    (fst out = Ok tt ->
      length (requests_of evs) = 5%nat /\
      Forall (fun p => good_reply (snd p) = true) (requests_of evs)).
Proof.
  destruct (login_sends w url s) as (evs & Hlog & (Hhops & Hlen & Hall & Hgood) & Hok).
  exists evs. repeat split; try assumption; apply (Hok tt); assumption.
Qed.

(** X7: [refresh] sends at most five requests: the refresh of the provider
    token first, then the four hops of the chain in their order, each only
    after a good reply to the one before, and never an exchange of a grant
    code.  It returns only when all five were answered with good
    replies. *)
Theorem refresh_in_order (w : World) (s : state) :
  let out := refresh w s in
  exists evs,
    log (snd out) = evs ++ log s /\
    map (fun p => hop_number (fst p)) (rev (requests_of evs))
      = seq 0 (length (requests_of evs)) /\
    (length (requests_of evs) <= 5)%nat /\
    Forall (fun p => not_exchange (fst p) = true) (requests_of evs) /\
    Forall (fun p => good_reply (snd p) = true) (tail (requests_of evs)) /\
    (fst out = Ok tt ->
      length (requests_of evs) = 5%nat /\
      Forall (fun p => good_reply (snd p) = true) (requests_of evs)).
Proof.
  destruct (refresh_sends w s) as (evs & Hlog & (Hhops & Hlen & Hall & Hgood) & Hok).
  exists evs. repeat split; try assumption; apply (Hok tt); assumption.
Qed.

(** X8: when [full_auth_flow] returns, each hop was fed from the reply
    before it: the Xbox Live token and user hash go to XSTS and to the
    Minecraft service, the XSTS token to the Minecraft service, the
    service's access token to the profile endpoint; and the credential
    record has that access token with the name, id and skins of the
    profile reply (no skins: the empty list). *)
Theorem full_auth_flow_threads (w : World) (tok cred : json) (s s' : state) :
  full_auth_flow w tok s = (Ok cred, s') ->
  exists xbl_response xbl_token user_hash xsts_response xsts_token
         mc_response mc_access_token profile,
    call_result (snd (network w (ReqXboxLive tok))) = Ok xbl_response /\
    getitem xbl_response "Token" = Ok xbl_token /\
    user_hash_of xbl_response = Ok user_hash /\
    call_result (snd (network w (ReqXsts xbl_token))) = Ok xsts_response /\
    getitem xsts_response "Token" = Ok xsts_token /\
    call_result (snd (network w (ReqMinecraft xsts_token user_hash)))
      = Ok mc_response /\
    getitem mc_response "access_token" = Ok mc_access_token /\
    call_result (snd (network w (ReqProfile mc_access_token))) = Ok profile /\
    getitem cred "access_token" = Ok mc_access_token /\
    getitem cred "username" = getitem profile "name" /\
    getitem cred "uuid" = getitem profile "id" /\
    getitem cred "skins" = dict_get profile "skins" (JList []).
Proof.
  intros H. unfold full_auth_flow, xbox_live_auth, xsts_auth, minecraft_auth,
    get_minecraft_profile in H.
  do 21 step H. tidy H.
  exists a, a0, a4, a5, a6, a7, a8, a10.
  split; [assumption|]. split; [assumption|].
  split; [unfold user_hash_of; rewrite Hstep1, Hstep2, Hstep3; assumption|].
  repeat (split; [assumption|]).
  split; [reflexivity|].
  cbn. repeat split; symmetry; assumption.
Qed.

(** ** Commands that stop before the chain *)

Lemma refresh_no_token_run (w : World) (s : state) :
  no_refresh_token_in w s ->
  refresh w s =
    (Raise (SystemExit 1),
     mkState (Some (files_of s)) (clock s)
       (EvEcho true MsgNoRefreshToken :: mkdir_events s ++ log s)).
Proof.
  intros H. unfold refresh. rewrite bind_run, load_tokens_run.
  unfold no_refresh_token_in in H.
  destruct (files_of s !! MICROSOFT_TOKEN) as [f|]; [|reflexivity].
  destruct (read_back w f) as [j|]; [|contradiction].
  destruct (truthy j) eqn:Hj; cbn [negb]; [|reflexivity].
  destruct j as [| | | | |fields]; try congruence.
  rewrite bind_run. unfold lift, dict_get.
  destruct (assoc "refresh_token" fields) as [x|]; cbn [from_option id] in H;
    rewrite H; reflexivity.
Qed.

(** X9: with no provider record on disk, or one without a usable refresh
    token (missing, null, empty), [refresh] tells the user to log in and
    ends by [sys.exit(1)]: it sends no request and changes no file, at
    most creating the data directory. *)
Theorem refresh_without_refresh_token (w : World) (s : state) :
  no_refresh_token_in w s ->
  refresh w s =
    (Raise (SystemExit 1),
     mkState (Some (files_of s)) (clock s)
       (EvEcho true MsgNoRefreshToken :: mkdir_events s ++ log s)) /\
  exit_status (fst (refresh w s)) = 1 /\
  files_of (snd (refresh w s)) = files_of s.
Proof.
  intros H. rewrite (refresh_no_token_run w s H). repeat split.
Qed.

Lemma login_exchange_run (w : World) (url : string) (s : state)
    (code : string) (rest : list string) (d : Z) (r : reply) (e : exn) :
  assoc "code" (parse_qs w (urlparse_query w url)) = Some (code :: rest) ->
  network w (ReqExchange code) = (d, r) ->
  call_result r = Raise e ->
  login w url s =
    login_handled
      (Raise e,
       mkState (store s) (clock s + d)
         (EvRequest (ReqExchange code) r :: EvEcho false MsgExchanging
          :: prompt_events ++ log s)).
Proof.
  intros Hcode Hnet Hcall.
  unfold login. cbv zeta. rewrite Hcode.
  unfold try_except_HTTPError, exchange_code_for_token.
  do 5 (rewrite bind_run; unfold click_echo at 1, emit at 1; cbv beta iota).
  rewrite bind_run. unfold mret at 1, M_ret at 1. cbv beta iota.
  rewrite bind_run. unfold click_echo at 1, emit at 1. cbv beta iota.
  rewrite bind_run. rewrite call_run, Hnet. cbn [fst snd]. rewrite Hcall.
  cbv beta iota. cbn [store clock log].
  destruct e; reflexivity.
Qed.

(** X10: when the token endpoint answers the exchange of the grant code
    with an error status (4xx or 5xx), [login] prints the failure and the
    body of the response on stderr and ends by [sys.exit(1)]; only the
    first [code] value of the URL was used, no other request was sent and
    the store is the one it started from. *)
Theorem login_exchange_rejected (w : World) (url : string) (s : state)
    (code : string) (rest : list string) (d st : Z) (b : option json) :
  assoc "code" (parse_qs w (urlparse_query w url)) = Some (code :: rest) ->
  network w (ReqExchange code) = (d, Response st b) ->
  400 <= st < 600 ->
  login w url s =
    (Raise (SystemExit 1),
     mkState (store s) (clock s + d)
       (EvEcho true (MsgResponse b)
        :: EvEcho true (MsgAuthFailed (HTTPError st b))
        :: EvRequest (ReqExchange code) (Response st b)
        :: EvEcho false MsgExchanging :: prompt_events ++ log s)) /\
  exit_status (fst (login w url s)) = 1.
Proof.
  intros Hcode Hnet Hst.
  rewrite (login_exchange_run w url s code rest d (Response st b)
             (HTTPError st b) Hcode Hnet (call_result_rejected st b Hst)).
  split; reflexivity.
Qed.

(** X11: [login] catches only [requests.HTTPError].  When the exchange
    gets no response at all, or a response without an error status whose
    body is not JSON, the exception escapes: the command dies of it with
    exit status 1; the [except] clause prints nothing, no other request
    is sent and nothing changes in the store. *)
Theorem login_exchange_uncaught (w : World) (url : string) (s : state)
    (code : string) (rest : list string) (d : Z) (r : reply) :
  assoc "code" (parse_qs w (urlparse_query w url)) = Some (code :: rest) ->
  network w (ReqExchange code) = (d, r) ->
  (r = ConnectionFailed \/
   exists st, r = Response st None /\ ~ 400 <= st < 600) ->
  login w url s =
    (Raise (match r with
            | ConnectionFailed => RequestException
            | Response _ _ => JSONDecodeError
            end),
     mkState (store s) (clock s + d)
       (EvRequest (ReqExchange code) r :: EvEcho false MsgExchanging
        :: prompt_events ++ log s)) /\
  exit_status (fst (login w url s)) = 1.
Proof.
  intros Hcode Hnet Hr.
  assert (Hcall : call_result r =
                  Raise (match r with
                         | ConnectionFailed => RequestException
                         | Response _ _ => JSONDecodeError
                         end)).
  { destruct Hr as [-> | (st & -> & Hst)]; [reflexivity|].
    unfold call_result.
    destruct ((400 <=? st) && (st <? 600)) eqn:Hrange; [|reflexivity].
    exfalso. apply Hst. apply andb_true_iff in Hrange as [Hlo Hhi].
    apply Z.leb_le in Hlo. apply Z.ltb_lt in Hhi. lia. }
  rewrite (login_exchange_run w url s code rest d r _ Hcode Hnet Hcall).
  destruct r; split; reflexivity.
Qed.

(** ** One command after another *)

Lemma login_stores_provider_record (w : World) (url : string) (s s' : state)
    (r : result unit) (code : string) (rest : list string)
    (ms_tokens a v : json) (d st n : Z) :
  assoc "code" (parse_qs w (urlparse_query w url)) = Some (code :: rest) ->
  network w (ReqExchange code) = (d, Response st (Some ms_tokens)) ->
  good_reply (Response st (Some ms_tokens)) = true ->
  getitem ms_tokens "access_token" = Ok a ->
  dict_get ms_tokens "refresh_token" JNull = Ok v ->
  lifetime 3600 ms_tokens n ->
  login w url s = (r, s') ->
  files_of s' !! MICROSOFT_TOKEN =
    Some (mkFile (JsonDoc (provider_record a v (clock s + d + n))) mode_0600).
Proof.
  intros Hcode Hnet Hgood Ha Hv Hlife Hrun.
  destruct (login_sends w url s) as (new & Hnew & _).
  rewrite Hrun in Hnew. cbn [snd] in Hnew.
  rewrite (login_reaches_chain w url s code rest ms_tokens a v d st n
             Hcode Hnet Hgood Ha Hv Hlife) in Hrun.
  apply (after_record_discipline w a
           (provider_record a v (clock s + d + n)) login_finish
           login_handled s
           (mkState (store s) (clock s + d)
              (exchange_events code ms_tokens st ++ log s))
           s' (exchange_events code ms_tokens st) new r login_finish_finishes
           login_handled_handles);
    [reflexivity | reflexivity | repeat constructor | exact Hrun | exact Hnew].
Qed.

Lemma store_of_files (s : state) (name : string) (f : file) :
  files_of s !! name = Some f -> store s = Some (files_of s).
Proof.
  unfold files_of. destruct (store s) as [files|]; [reflexivity|].
  cbn [from_option]. rewrite lookup_empty. discriminate.
Qed.

(** X12: a login whose token reply carries no usable refresh token (none,
    null or empty) stores the provider record without one, whether or not
    the chain then succeeds; a [refresh] run on what it leaves ends by
    [sys.exit(1)] asking for a new login, without sending a request or
    touching a file. *)
Theorem refresh_after_login_without_refresh_token (w w' : World) (url : string)
    (s s' : state) (r : result unit) (code : string) (rest : list string)
    (ms_tokens a v : json) (d st n : Z) :
  assoc "code" (parse_qs w (urlparse_query w url)) = Some (code :: rest) ->
  network w (ReqExchange code) = (d, Response st (Some ms_tokens)) ->
  good_reply (Response st (Some ms_tokens)) = true ->
  getitem ms_tokens "access_token" = Ok a ->
  dict_get ms_tokens "refresh_token" JNull = Ok v ->
  lifetime 3600 ms_tokens n ->
  truthy v = false ->
  login w url s = (r, s') ->
  refresh w' s' =
    (Raise (SystemExit 1),
     mkState (store s') (clock s') (EvEcho true MsgNoRefreshToken :: log s')).
Proof.
  intros Hcode Hnet Hgood Ha Hv Hlife Hfalsy Hrun.
  pose proof (login_stores_provider_record w url s s' r code rest ms_tokens a v
                d st n Hcode Hnet Hgood Ha Hv Hlife Hrun) as Hrecord.
  pose proof (store_of_files s' _ _ Hrecord) as Hstore.
  rewrite (refresh_no_token_run w' s').
  - unfold mkdir_events. rewrite Hstore. reflexivity.
  - unfold no_refresh_token_in. rewrite Hrecord. exact Hfalsy.
Qed.

Lemma status_run (w : World) (s : state)
    (fields : list (string * json)) (m e : Z) :
  files_of s !! MINECRAFT_TOKEN = Some (mkFile (JsonDoc (JObj fields)) m) ->
  fields <> [] ->
  int_value (default (JInt 0) (assoc "expires_at" fields)) = Some e ->
  status w s =
    (Ok tt,
     mkState (store s) (clock s)
       (EvEcho false MsgDataDir
        :: EvEcho false (MsgToken (token_validity e (clock s)))
        :: EvEcho false (MsgUuid (default (JStr "Unknown") (assoc "uuid" fields)))
        :: EvEcho false
             (MsgUsername (default (JStr "Unknown") (assoc "username" fields)))
        :: log s)).
Proof.
  intros Hfile Hfields Hexp.
  assert (Htruthy : truthy (JObj fields) = true).
  { destruct fields; [contradiction | reflexivity]. }
  pose proof (store_of_files s _ _ Hfile) as Hstore.
  unfold status. rewrite bind_run, load_tokens_run, Hfile.
  unfold read_back. cbn [body_of]. rewrite Htruthy. cbn [negb].
  unfold mkdir_events. rewrite Hstore. cbn [app].
  unfold dict_get, get_data_dir. unfold_M.
  destruct (assoc "expires_at" fields) as [x|]; cbn [from_option id] in Hexp;
    cbn -[assoc truthy token_validity int_value]; rewrite Hexp;
    cbn -[assoc truthy token_validity];
    destruct (assoc "username" fields), (assoc "uuid" fields); reflexivity.
Qed.

Lemma signed_in (w : World) (c : command) (s s' : state) :
  signs_in c = true ->
  cli w c s = (Ok tt, s') ->
  exists new name uuid skins n t xsts_token user_hash st mc_response,
    log s' = new ++ log s /\
    In (EvRequest (ReqMinecraft xsts_token user_hash)
                  (Response st (Some mc_response))) new /\
    good_reply (Response st (Some mc_response)) = true /\
    getitem mc_response "access_token" = Ok (JStr t) /\
    lifetime 86400 mc_response n /\
    files_of s' !! MINECRAFT_TOKEN =
      Some (mkFile (JsonDoc (JObj [ ("access_token", JStr t);
                                    ("expires_at", JInt (clock s' + n));
                                    ("username", name);
                                    ("uuid", uuid);
                                    ("skins", skins) ])) mode_0600) /\
    files_of s' !! ACCESS_TOKEN = Some (mkFile (Raw t) mode_0600).
Proof.
  intros Hc Hrun.
  assert (Hflow : exists tok s1 cred s2 t,
             extends (log s) (log s1) /\
             full_auth_flow w tok s1 = (Ok cred, s2) /\
             getitem cred "access_token" = Ok (JStr t) /\
             store s' = store (written w ACCESS_TOKEN (Raw t)
                                 (written w MINECRAFT_TOKEN (JsonDoc cred) s2)) /\
             clock s' = clock s2 /\
             extends (log s2) (log s')).
  { destruct c as [url| | | |]; try discriminate Hc; cbn [cli] in Hrun.
    - apply login_Ok in Hrun
        as (tok & s1 & cred & s2 & t & Hpre & Hflow & Htok & Hstore & Hclock
            & Hpost).
      exists tok, s1, cred, s2, t.
      split; [exact Hpre|]. split; [exact Hflow|]. split; [exact Htok|].
      split; [exact Hstore|]. split; [exact Hclock | exact Hpost].
    - apply refresh_Ok in Hrun
        as (f & ms_tokens & old_rt & st & response & a & v & n & cred & s2 & t
            & _ & _ & _ & _ & _ & _ & _ & Hflow & Htok & Hstore & Hclock
            & Hpost).
      eexists _, _, cred, s2, t.
      split; [|split; [exact Hflow|]].
      { unfold written. cbn [log]. extends_tac. }
      split; [exact Htok|].
      split; [exact Hstore|]. split; [exact Hclock | exact Hpost]. }
  destruct Hflow
    as (tok & s1 & cred & s2 & t & [pre Hpre] & Hflow & Htok & Hstore & Hclock
        & [post Hpost]).
  apply full_auth_flow_Ok in Hflow
    as (xbl & uhs & xsts & mc & name & uuid & skins & n & r1 & r2 & r4 & st
        & resp & _ & Hmc & Hlife & -> & _ & Hlog & _ & _ & Hg3 & _).
  apply committed_files in Hstore as (Hcred & Hbearer & _).
  cbn in Htok. injection Htok as ->.
  exists (post ++ flow_events tok xbl uhs xsts (JStr t) r1 r2
                    (Response st (Some resp)) r4 ++ pre),
         name, uuid, skins, n, t, xsts, uhs, st, resp.
  split.
  { rewrite Hpost, Hlog, Hpre. rewrite <- !app_assoc. reflexivity. }
  split.
  { apply in_or_app. right. apply in_or_app. left. simpl. tauto. }
  split; [exact Hg3|]. split; [exact Hmc|]. split; [exact Hlife|].
  rewrite Hclock. split; assumption.
Qed.

(** X13: after a [login] or a [refresh] that returned, the credential
    record in the store has the expiry written in that run: the clock at
    the end of the sign-in plus the lifetime [n] declared in the reply the
    Minecraft service gave in that run (86400 when it declared none).
    [status] run on that store, in any world and at any clock, prints the
    [username] and the [uuid] of that stored record and judges the token
    against that expiry. *)
Theorem status_after_sign_in (w : World) (c : command) (s s' : state) :
  signs_in c = true ->
  cli w c s = (Ok tt, s') ->
  exists new xsts_token user_hash st mc_response n cred username uuid,
    log s' = new ++ log s /\
    In (EvRequest (ReqMinecraft xsts_token user_hash)
                  (Response st (Some mc_response))) new /\
    lifetime 86400 mc_response n /\
    files_of s' !! MINECRAFT_TOKEN = Some (mkFile (JsonDoc cred) mode_0600) /\
    getitem cred "username" = Ok username /\
    getitem cred "uuid" = Ok uuid /\
    getitem cred "expires_at" = Ok (JInt (clock s' + n)) /\
    forall (w' : World) (t : state),
      store t = store s' ->
      status w' t =
        (Ok tt,
         mkState (store t) (clock t)
           (EvEcho false MsgDataDir
            :: EvEcho false (MsgToken (token_validity (clock s' + n) (clock t)))
            :: EvEcho false (MsgUuid uuid)
            :: EvEcho false (MsgUsername username)
            :: log t)).
Proof.
  intros Hc Hrun.
  destruct (signed_in w c s s' Hc Hrun)
    as (new & name & uuid & skins & n & tok & xsts & uhs & st & resp & Hnew
        & Hin & _ & _ & Hlife & Hcred & _).
  exists new, xsts, uhs, st, resp, n.
  eexists _, name, uuid.
  split; [exact Hnew|]. split; [exact Hin|]. split; [exact Hlife|].
  split; [exact Hcred|].
  split; [reflexivity|]. split; [reflexivity|]. split; [reflexivity|].
  intros w' t Hstore.
  assert (Hfile : files_of t !! MINECRAFT_TOKEN = files_of s' !! MINECRAFT_TOKEN).
  { unfold files_of. rewrite Hstore. reflexivity. }
  rewrite Hcred in Hfile.
  rewrite (status_run w' t _ mode_0600 (clock s' + n) Hfile
             ltac:(discriminate) eq_refl).
  reflexivity.
Qed.

(** X14: after a [login] or a [refresh] that returned, the skin tool's
    [load_access_token] reads the bearer file and returns, stripped, the
    access token of the good reply the Minecraft service gave in that
    run; it changes nothing. *)
Theorem load_access_token_after_sign_in (w : World) (tl : TextLib)
    (c : command) (s s' : state) :
  signs_in c = true ->
  cli w c s = (Ok tt, s') ->
  exists new token xsts_token user_hash st mc_response,
    log s' = new ++ log s /\
    In (EvRequest (ReqMinecraft xsts_token user_hash)
                  (Response st (Some mc_response))) new /\
    good_reply (Response st (Some mc_response)) = true /\
    getitem mc_response "access_token" = Ok (JStr token) /\
    load_access_token tl s' = (Ok (Some (str_strip tl token)), s').
Proof.
  intros Hc Hrun.
  destruct (signed_in w c s s' Hc Hrun)
    as (new & name & uuid & skins & n & tok & xsts & uhs & st & resp & Hnew
        & Hin & Hgood & Hmc & _ & _ & Hbearer).
  exists new, tok, xsts, uhs, st, resp.
  split; [exact Hnew|]. split; [exact Hin|]. split; [exact Hgood|].
  split; [exact Hmc|].
  pose proof (store_of_files s' _ _ Hbearer) as Hstore.
  unfold load_access_token, stat. rewrite bind_run, Hstore, Hbearer.
  reflexivity.
Qed.

Lemma status_no_record_run (w : World) (s : state) :
  no_credential_in w s ->
  status w s =
    (Ok tt,
     mkState (Some (files_of s)) (clock s)
       (EvEcho false MsgNotLoggedIn :: mkdir_events s ++ log s)).
Proof.
  intros H. unfold status. rewrite bind_run, load_tokens_run.
  unfold no_credential_in in H.
  destruct (files_of s !! MINECRAFT_TOKEN) as [f|]; [|reflexivity].
  destruct (read_back w f) as [j|]; [|contradiction].
  rewrite H. reflexivity.
Qed.

(** X19: with no credential record on disk, or an empty one, [status]
    prints that nobody is logged in and returns: it prints nothing else,
    sends no request and changes no file, at most creating the data
    directory. *)
Theorem status_not_logged_in (w : World) (s : state) :
  no_credential_in w s ->
  status w s =
    (Ok tt,
     mkState (Some (files_of s)) (clock s)
       (EvEcho false MsgNotLoggedIn :: mkdir_events s ++ log s)) /\
  exit_status (fst (status w s)) = 0 /\
  files_of (snd (status w s)) = files_of s.
Proof.
  intros H. rewrite (status_no_record_run w s H). repeat split.
Qed.

(** X15: once [logout] has run, the tool is signed out for every reader:
    [status] prints that nobody is logged in, [refresh] finds no refresh
    token and ends by [sys.exit(1)] without a request, and the skin tool's
    [load_access_token] returns [None].  None of them changes the
    store. *)
Theorem signed_out_after_logout (w : World) (tl : TextLib) (s : state) :
  let s1 := snd (logout s) in
  status w s1 =
    (Ok tt, mkState (store s1) (clock s1)
              (EvEcho false MsgNotLoggedIn :: log s1)) /\
  refresh w s1 =
    (Raise (SystemExit 1),
     mkState (store s1) (clock s1) (EvEcho true MsgNoRefreshToken :: log s1)) /\
  load_access_token tl s1 = (Ok None, s1).
Proof.
  cbv zeta. rewrite logout_run. cbn [snd].
  set (s1 := mkState _ _ _).
  assert (Hfiles : files_of s1 = without_auth_files (files_of s)) by reflexivity.
  assert (Hnone : forall name, In name auth_files -> files_of s1 !! name = None).
  { intros name Hin. rewrite Hfiles. apply without_auth_files_in. exact Hin. }
  split; [|split].
  - rewrite (status_no_record_run w s1); [reflexivity|].
    unfold no_credential_in. rewrite Hnone by (simpl; tauto). exact I.
  - rewrite (refresh_no_token_run w s1); [reflexivity|].
    unfold no_refresh_token_in. rewrite Hnone by (simpl; tauto). exact I.
  - unfold load_access_token, stat. rewrite bind_run. cbn [store s1].
    change (delete ACCESS_TOKEN _) with (files_of s1).
    rewrite Hnone by (simpl; tauto). reflexivity.
Qed.

(** ** Commands that only look *)

Lemma passive_bind (P : event -> bool) {A B : Type} (m : M A) (f : A -> M B) :
  passive P m -> (forall a, passive P (f a)) -> passive P (m ≫= f).
Proof.
  intros Hm Hf s. rewrite bind_run.
  destruct (Hm s) as (Hfiles & evs & Hlog & Hevs).
  destruct (m s) as [[a|e] s1]; cbn [snd] in *.
  2:{ split; [exact Hfiles|]. exists evs. tauto. }
  destruct (Hf a s1) as (Hfiles2 & evs2 & Hlog2 & Hevs2).
  split; [congruence|].
  exists (evs2 ++ evs). split; [rewrite Hlog2, Hlog; apply app_assoc|].
  apply Forall_app. split; assumption.
Qed.

Lemma passive_still (P : event -> bool) {A : Type} (m : M A) :
  (forall s, snd (m s) = s) -> passive P m.
Proof.
  intros Hm s. rewrite Hm. split; [reflexivity|].
  exists []. split; [reflexivity | constructor].
Qed.

Lemma passive_echo (m : message) : passive looks_only (click_echo m).
Proof.
  intros s. split; [reflexivity|].
  exists [EvEcho false m]. split; [reflexivity | repeat constructor].
Qed.

Lemma passive_get_data_dir : passive looks_only get_data_dir.
Proof.
  intros [[files|] c l]; (split; [reflexivity|]).
  - exists []. split; [reflexivity | constructor].
  - exists [EvMkdir]. split; [reflexivity | repeat constructor].
Qed.

Lemma passive_load_tokens (w : World) (name : string) :
  passive looks_only (load_tokens w name).
Proof.
  intros s. rewrite load_tokens_run. cbn [snd].
  split; [reflexivity|].
  exists (mkdir_events s). split; [reflexivity|].
  unfold mkdir_events. destruct (store s); repeat constructor.
Qed.

Lemma status_passive (w : World) : passive looks_only (status w).
Proof.
  unfold status.
  apply passive_bind; [apply passive_load_tokens|]. intros mc_tokens.
  destruct (negb (truthy mc_tokens)); [apply passive_echo|].
  do 4 (apply passive_bind; [apply passive_still; reflexivity|]; intros ?).
  apply passive_bind.
  { destruct (int_value _); apply passive_still; reflexivity. }
  intros v.
  do 3 (apply passive_bind; [apply passive_echo|]; intros _).
  apply passive_bind; [apply passive_get_data_dir|]. intros _.
  apply passive_echo.
Qed.

Lemma token_path_passive : passive looks_only token_path.
Proof.
  unfold token_path.
  apply passive_bind; [apply passive_get_data_dir|]. intros _.
  apply passive_echo.
Qed.

(** X16: [status] and [token-path] only look: whatever they find and
    however they end, they send no request and write and delete no file;
    all they do is print, and create the data directory when it is
    missing. *)
Theorem status_and_token_path_only_look (w : World) (s : state) :
  let after_status := snd (status w s) in
  let after_path := snd (token_path s) in
  (files_of after_status = files_of s /\
   exists evs, log after_status = evs ++ log s /\
               Forall (fun ev => looks_only ev = true) evs) /\
  (files_of after_path = files_of s /\
   exists evs, log after_path = evs ++ log s /\
               Forall (fun ev => looks_only ev = true) evs).
Proof.
  split; [apply status_passive | apply token_path_passive].
Qed.

(** ** The files a command can touch *)

Lemma confined_bind {A B : Type} (m : M A) (f : A -> M B) :
  confined m -> (forall a, confined (f a)) -> confined (m ≫= f).
Proof.
  intros Hm Hf s name Hname. rewrite bind_run.
  specialize (Hm s name Hname).
  destruct (m s) as [[a|e] s1]; cbn [snd] in *; [|exact Hm].
  rewrite (Hf a s1 name Hname). exact Hm.
Qed.

Lemma confined_keeps_files {A : Type} (m : M A) : keeps_files m -> confined m.
Proof. intros Hm s name _. rewrite (Hm s). reflexivity. Qed.

Lemma confined_still {A : Type} (m : M A) :
  (forall s, store (snd (m s)) = store s) -> confined m.
Proof.
  intros Hm. apply confined_keeps_files. intros s.
  unfold files_of. rewrite Hm. reflexivity.
Qed.

Lemma confined_save_tokens (w : World) (data : json) (name : string) :
  In name auth_files -> confined (save_tokens w data name).
Proof.
  intros Hin s other Hother. rewrite save_tokens_run. cbn [snd].
  rewrite files_of_written. apply lookup_insert_ne. intros <-. exact (Hother Hin).
Qed.

Lemma confined_write_access_token (w : World) (mc_data : json) :
  confined (write_access_token w mc_data).
Proof.
  assert (Hbearer : In ACCESS_TOKEN auth_files) by (simpl; tauto).
  unfold write_access_token.
  apply confined_bind; [apply confined_keeps_files, keeps_files_get_data_dir|].
  intros _.
  assert (Hput : forall f, confined (put_file ACCESS_TOKEN f)).
  { intros f [[files|] c l] other Hother; [|reflexivity].
    unfold put_file, files_of. cbn [store snd from_option id].
    apply lookup_insert_ne. intros <-. exact (Hother Hbearer). }
  assert (Hstat : confined (stat ACCESS_TOKEN)).
  { apply confined_still. intros [[files|] c l]; reflexivity. }
  apply confined_bind.
  { unfold open_w. apply confined_bind; [exact Hstat|].
    intros [f|]; apply Hput. }
  intros _. apply confined_bind; [apply confined_still; reflexivity|].
  intros token. apply confined_bind.
  { unfold f_write, write_content.
    destruct token; try (apply confined_still; reflexivity).
    apply confined_bind; [exact Hstat|].
    intros [f|]; [apply Hput | apply confined_still; reflexivity]. }
  intros _. unfold os_chmod. apply confined_bind; [exact Hstat|].
  intros [f|]; [apply Hput | apply confined_still; reflexivity].
Qed.

Lemma confined_full_auth_flow (w : World) (tok : json) :
  confined (full_auth_flow w tok).
Proof.
  apply confined_still. intros s.
  destruct (full_auth_flow_quiet w tok s) as [Hstore _]. exact Hstore.
Qed.

Lemma confined_try_except {A : Type} (body : M A)
    (handler : Z -> option json -> M A) :
  confined body -> (forall st b, confined (handler st b)) ->
  confined (try_except_HTTPError body handler).
Proof.
  intros Hbody Hhandler s name Hname. unfold try_except_HTTPError.
  specialize (Hbody s name Hname).
  destruct (body s) as [[a|e] s1]; cbn [snd] in *; [exact Hbody|].
  destruct e; try exact Hbody.
  rewrite (Hhandler _ _ s1 name Hname). exact Hbody.
Qed.

Ltac confined_echo := apply confined_still; reflexivity.

Lemma confined_exit (m1 m2 : message) :
  confined (click_echo_err m1;; click_echo_err m2;; sys_exit 1 : M unit).
Proof. apply confined_still. reflexivity. Qed.

Lemma login_confined (w : World) (url : string) : confined (login w url).
Proof.
  assert (H1 : In MICROSOFT_TOKEN auth_files) by (simpl; tauto).
  assert (H2 : In MINECRAFT_TOKEN auth_files) by (simpl; tauto).
  unfold login. cbv zeta.
  do 5 (apply confined_bind; [confined_echo|]; intros _).
  destruct (assoc "code" (parse_qs w (urlparse_query w url))) as [values|];
    [|apply confined_exit].
  apply confined_bind; [destruct values; confined_echo|]. intros code.
  apply confined_try_except; [|intros st b; apply confined_exit].
  apply confined_bind; [confined_echo|]. intros _.
  apply confined_bind.
  { apply confined_still. intros s. unfold exchange_code_for_token.
    rewrite call_run. reflexivity. }
  intros ms_tokens.
  do 5 (apply confined_bind; [confined_echo|]; intros ?).
  apply confined_bind; [apply confined_save_tokens, H1|]. intros _.
  apply confined_bind; [confined_echo|]. intros tok.
  apply confined_bind; [apply confined_full_auth_flow|]. intros mc_data.
  apply confined_bind; [apply confined_save_tokens, H2|]. intros _.
  apply confined_bind; [apply confined_write_access_token|]. intros _.
  do 3 (apply confined_bind; [confined_echo|]; intros ?).
  apply confined_bind; [apply confined_keeps_files, keeps_files_get_data_dir|].
  intros _.
  do 2 (apply confined_bind; [confined_echo|]; intros ?).
  confined_echo.
Qed.

Lemma refresh_confined (w : World) : confined (refresh w).
Proof.
  assert (H1 : In MICROSOFT_TOKEN auth_files) by (simpl; tauto).
  assert (H2 : In MINECRAFT_TOKEN auth_files) by (simpl; tauto).
  assert (Hno : confined no_refresh_token) by (apply confined_still; reflexivity).
  unfold refresh.
  apply confined_bind; [apply confined_keeps_files, keeps_files_load_tokens|].
  intros ms_tokens. destruct (negb (truthy ms_tokens)); [exact Hno|].
  apply confined_bind; [confined_echo|]. intros stored.
  destruct (negb (truthy stored)); [exact Hno|].
  apply confined_try_except; [|intros st b; apply confined_exit].
  do 2 (apply confined_bind; [confined_echo|]; intros ?).
  apply confined_bind.
  { apply confined_still. intros s. unfold refresh_microsoft_token.
    rewrite call_run. reflexivity. }
  intros new_ms_tokens.
  do 6 (apply confined_bind; [confined_echo|]; intros ?).
  apply confined_bind; [apply confined_save_tokens, H1|]. intros _.
  apply confined_bind; [confined_echo|]. intros tok.
  apply confined_bind; [apply confined_full_auth_flow|]. intros mc_data.
  apply confined_bind; [apply confined_save_tokens, H2|]. intros _.
  apply confined_bind; [apply confined_write_access_token|]. intros _.
  apply confined_bind; [confined_echo|]. intros username.
  confined_echo.
Qed.

Lemma logout_confined : confined logout.
Proof.
  intros s name Hname. rewrite logout_run. cbn [snd].
  unfold files_of at 1. cbn [store from_option id].
  apply (without_auth_files_out (files_of s) name Hname).
Qed.

(** X17: no command touches a file of the data directory other than the
    provider record, the credential record and the bearer file: whatever
    the command, the world and the outcome, every other name holds at the
    end what it held at the start. *)
Theorem other_files_untouched (w : World) (c : command) (s : state)
    (name : string) :
  ~ In name auth_files ->
  files_of (snd (cli w c s)) !! name = files_of s !! name.
Proof.
  revert s name. change (confined (cli w c)).
  destruct c as [url| | | |]; cbn [cli].
  - apply login_confined.
  - apply refresh_confined.
  - apply confined_keeps_files, status_keeps_files.
  - apply logout_confined.
  - apply confined_keeps_files, token_path_keeps_files.
Qed.

(** ** How a command can end *)

Lemma raises_only_bind (P : exn -> bool) {A B : Type} (m : M A) (f : A -> M B) :
  raises_only P m -> (forall a, raises_only P (f a)) -> raises_only P (m ≫= f).
Proof.
  intros Hm Hf s e s' H. rewrite bind_run in H.
  destruct (m s) as [[a|e1] s1] eqn:Hms.
  - exact (Hf a s1 e s' H).
  - injection H as <- <-. exact (Hm s e1 s1 Hms).
Qed.

Lemma raises_only_returns (P : exn -> bool) {A : Type} (m : M A) :
  (forall s e, fst (m s) <> Raise e) -> raises_only P m.
Proof.
  intros Hm s e s' H. exfalso. apply (Hm s e). rewrite H. reflexivity.
Qed.

Lemma raises_only_lift (P : exn -> bool) {A : Type} (r : result A) :
  (forall e, r = Raise e -> P e = true) -> raises_only P (lift r).
Proof. intros Hr s e s' [= -> _]. apply Hr. reflexivity. Qed.

Lemma raises_only_raise (P : exn -> bool) {A : Type} (e : exn) :
  P e = true -> raises_only P (raise e : M A).
Proof. intros He s e' s' [= <- _]. exact He. Qed.

Lemma getitem_error (v : json) (k : string) (e : exn) :
  getitem v k = Raise e -> lookup_error e = true.
Proof.
  destruct v as [| | | | |fields]; simpl; try (intros [= <-]; reflexivity).
  destruct (assoc k fields); [discriminate | intros [= <-]; reflexivity].
Qed.

Lemma dict_get_error (v : json) (k : string) (default : json) (e : exn) :
  dict_get v k default = Raise e -> lookup_error e = true.
Proof.
  destruct v as [| | | | |fields]; simpl; try (intros [= <-]; reflexivity).
  destruct (assoc k fields); discriminate.
Qed.

Lemma getitem0_error (v : json) (e : exn) :
  getitem0 v = Raise e -> lookup_error e = true.
Proof.
  destruct v as [| | |[|c t]|[|x items]|fields]; simpl;
    try discriminate; intros [= <-]; reflexivity.
Qed.

Lemma int_add_error (n : Z) (v : json) (e : exn) :
  int_add n v = Raise e -> lookup_error e = true.
Proof.
  unfold int_add. destruct (int_value v); [discriminate|].
  intros [= <-]. reflexivity.
Qed.

Lemma call_result_error (r : reply) (e : exn) :
  call_result r = Raise e -> not_exit e = true.
Proof.
  destruct r as [|st [j|]]; simpl; [intros [= <-]; reflexivity | |];
    destruct ((400 <=? st) && (st <? 600)); try discriminate;
    intros [= <-]; reflexivity.
Qed.

(** One step of a computation whose exceptions are all in [P]. *)
Ltac raises_step HP :=
  apply raises_only_bind;
  [ first
      [ apply raises_only_returns; intros ? ?; discriminate
      | apply raises_only_lift; intros ? Herr; apply HP;
        first [ exact (getitem_error _ _ _ Herr)
              | exact (dict_get_error _ _ _ _ Herr)
              | exact (getitem0_error _ _ Herr)
              | exact (int_add_error _ _ _ Herr) ] ]
  | intros ? ].

Lemma raises_only_call (P : exn -> bool) (w : World) (q : request) :
  (forall e, not_exit e = true -> P e = true) -> raises_only P (call w q).
Proof.
  intros HP s e s' H. rewrite call_run in H. injection H as H _.
  apply HP. exact (call_result_error _ _ H).
Qed.

Lemma raises_only_get_data_dir (P : exn -> bool) : raises_only P get_data_dir.
Proof.
  apply raises_only_returns. intros [[files|] c l] e; discriminate.
Qed.

Lemma raises_only_save_tokens (P : exn -> bool) (w : World) (data : json)
    (name : string) :
  raises_only P (save_tokens w data name).
Proof.
  apply raises_only_returns. intros s e. rewrite save_tokens_run. discriminate.
Qed.

Lemma raises_only_load_tokens (P : exn -> bool) (w : World) (name : string) :
  P JSONDecodeError = true -> raises_only P (load_tokens w name).
Proof.
  intros HP s e s' H. rewrite load_tokens_run in H. injection H as H _.
  destruct (files_of s !! name) as [f|]; [|discriminate H].
  destruct (read_back w f); [discriminate H|]. injection H as <-. exact HP.
Qed.

Lemma raises_only_write_access_token (P : exn -> bool) (w : World)
    (mc_data : json) :
  (forall e, lookup_error e = true -> P e = true) ->
  raises_only P (write_access_token w mc_data).
Proof.
  intros HP s e s' H. apply HP.
  destruct (getitem mc_data "access_token") as [v|e1] eqn:Hv.
  - destruct (is_string v) eqn:Hstr.
    + destruct v as [| | |t| |]; try discriminate Hstr.
      rewrite (write_access_token_run w mc_data t s Hv) in H. discriminate H.
    + rewrite (write_access_token_not_str w mc_data v s Hv Hstr) in H.
      injection H as <- _. reflexivity.
  - apply getitem_error in Hv as He1.
    assert (Hrun : fst (write_access_token w mc_data s) = Raise e1).
    { destruct s as [[files|] c l];
        unfold write_access_token, get_data_dir, open_w, stat, put_file;
        unfold_M; simpl.
      - destruct (files !! ACCESS_TOKEN); simpl; rewrite Hv; reflexivity.
      - rewrite lookup_empty. simpl. rewrite Hv. reflexivity. }
    rewrite H in Hrun. injection Hrun as ->. exact He1.
Qed.

Lemma raises_only_full_auth_flow (P : exn -> bool) (w : World) (tok : json) :
  (forall e, not_exit e = true -> P e = true) ->
  raises_only P (full_auth_flow w tok).
Proof.
  intros HP.
  assert (HL : forall e, lookup_error e = true -> P e = true).
  { intros e He. apply HP. destruct e; try discriminate He; reflexivity. }
  unfold full_auth_flow, xbox_live_auth, xsts_auth, minecraft_auth,
    get_minecraft_profile.
  raises_step HL.
  apply raises_only_bind; [apply raises_only_call, HP|]; intros xbl_response.
  do 6 raises_step HL.
  apply raises_only_bind; [apply raises_only_call, HP|]; intros xsts_response.
  do 2 raises_step HL.
  apply raises_only_bind; [apply raises_only_call, HP|]; intros mc_response.
  do 3 raises_step HL.
  apply raises_only_bind; [apply raises_only_call, HP|]; intros profile.
  do 5 raises_step HL.
  apply raises_only_returns; intros ? ?; discriminate.
Qed.

Lemma raises_only_try_except {A : Type} (body : M A)
    (handler : Z -> option json -> M A) :
  raises_only not_exit body ->
  (forall st b, raises_only command_failure (handler st b)) ->
  raises_only command_failure (try_except_HTTPError body handler).
Proof.
  intros Hbody Hhandler s e s' H. unfold try_except_HTTPError in H.
  destruct (body s) as [[a|e1] s1] eqn:Hrun; [discriminate H|].
  pose proof (Hbody s e1 s1 Hrun) as He1.
  destruct e1; try (injection H as <- _; reflexivity).
  - exact (Hhandler _ _ s1 e s' H).
  - discriminate He1.
Qed.

Lemma exits_with_one (m1 m2 : message) :
  raises_only command_failure
    (click_echo_err m1;; click_echo_err m2;; sys_exit 1 : M unit).
Proof. intros s e s' [= <- _]. reflexivity. Qed.

Lemma lookup_error_not_exit (e : exn) : lookup_error e = true -> not_exit e = true.
Proof. destruct e; try discriminate; reflexivity. Qed.

Lemma lookup_error_failure (e : exn) :
  lookup_error e = true -> command_failure e = true.
Proof. destruct e; try discriminate; reflexivity. Qed.

Lemma login_failures (w : World) (url : string) :
  raises_only command_failure (login w url).
Proof.
  unfold login. cbv zeta. do 5 raises_step lookup_error_failure.
  destruct (assoc "code" (parse_qs w (urlparse_query w url))) as [values|];
    [|apply exits_with_one].
  apply raises_only_bind.
  { destruct values; [apply raises_only_raise; reflexivity|].
    apply raises_only_returns; intros ? ?; discriminate. }
  intros code.
  apply raises_only_try_except; [|intros st b; apply exits_with_one].
  raises_step lookup_error_not_exit.
  apply raises_only_bind; [apply raises_only_call; auto|]. intros ms_tokens.
  do 5 raises_step lookup_error_not_exit.
  apply raises_only_bind; [apply raises_only_save_tokens|]. intros _.
  raises_step lookup_error_not_exit.
  apply raises_only_bind; [apply raises_only_full_auth_flow; auto|].
  intros mc_data.
  apply raises_only_bind; [apply raises_only_save_tokens|]. intros _.
  apply raises_only_bind;
    [apply raises_only_write_access_token, lookup_error_not_exit|]. intros _.
  do 3 raises_step lookup_error_not_exit.
  apply raises_only_bind; [apply raises_only_get_data_dir|]. intros _.
  do 2 raises_step lookup_error_not_exit.
  apply raises_only_returns; intros ? ?; discriminate.
Qed.

Lemma no_refresh_token_failure : raises_only command_failure no_refresh_token.
Proof. intros s e s' [= <- _]. reflexivity. Qed.

Lemma refresh_failures (w : World) : raises_only command_failure (refresh w).
Proof.
  unfold refresh.
  apply raises_only_bind; [apply raises_only_load_tokens; reflexivity|].
  intros ms_tokens.
  destruct (negb (truthy ms_tokens)); [apply no_refresh_token_failure|].
  raises_step lookup_error_failure.
  destruct (negb (truthy _)); [apply no_refresh_token_failure|].
  apply raises_only_try_except; [|intros st b; apply exits_with_one].
  do 2 raises_step lookup_error_not_exit.
  apply raises_only_bind; [apply raises_only_call; auto|]. intros new_ms_tokens.
  do 6 raises_step lookup_error_not_exit.
  apply raises_only_bind; [apply raises_only_save_tokens|]. intros _.
  raises_step lookup_error_not_exit.
  apply raises_only_bind; [apply raises_only_full_auth_flow; auto|].
  intros mc_data.
  apply raises_only_bind; [apply raises_only_save_tokens|]. intros _.
  apply raises_only_bind;
    [apply raises_only_write_access_token, lookup_error_not_exit|]. intros _.
  raises_step lookup_error_not_exit.
  apply raises_only_returns; intros ? ?; discriminate.
Qed.

Lemma status_failures (w : World) : raises_only command_failure (status w).
Proof.
  unfold status.
  apply raises_only_bind; [apply raises_only_load_tokens; reflexivity|].
  intros mc_tokens.
  destruct (negb (truthy mc_tokens));
    [apply raises_only_returns; intros ? ?; discriminate|].
  do 4 raises_step lookup_error_failure.
  apply raises_only_bind.
  { destruct (int_value _); [apply raises_only_returns; intros ? ?; discriminate|].
    apply raises_only_raise. reflexivity. }
  intros v. do 3 raises_step lookup_error_failure.
  apply raises_only_bind; [apply raises_only_get_data_dir|]. intros _.
  apply raises_only_returns; intros ? ?; discriminate.
Qed.

(** X18: every command ends in one of two ways: it returns, with exit
    status 0, or it fails with exit status 1, by [sys.exit(1)] or by an
    exception no [except] clause catches.  No other exit code occurs, and
    an HTTP error status never surfaces as an exception: it is always
    caught and turned into [sys.exit(1)]. *)
Theorem commands_exit_zero_or_one (w : World) (c : command) (s : state) :
  let r := fst (cli w c s) in
  (r = Ok tt /\ exit_status r = 0) \/
  (exit_status r = 1 /\
   exists e, r = Raise e /\ (forall st b, e <> HTTPError st b) /\
             (forall code, e = SystemExit code -> code = 1)).
Proof.
  assert (Hfail : raises_only command_failure (cli w c)).
  { destruct c as [url| | | |]; cbn [cli].
    - apply login_failures.
    - apply refresh_failures.
    - apply status_failures.
    - apply raises_only_returns. intros s0 e. rewrite logout_run. discriminate.
    - unfold token_path.
      apply raises_only_bind; [apply raises_only_get_data_dir|]. intros _.
      apply raises_only_returns; intros ? ?; discriminate. }
  cbv zeta. destruct (cli w c s) as [[[]|e] s'] eqn:Hrun; cbn [fst].
  - left. split; reflexivity.
  - right. pose proof (Hfail s e s' Hrun) as He.
    split; [|exists e; split; [reflexivity|]; split].
    + destruct e; try reflexivity.
      simpl in He |- *. apply Z.eqb_eq in He. exact He.
    + intros st b ->. discriminate He.
    + intros code ->. simpl in He. apply Z.eqb_eq in He. exact He.
Qed.

(** ** Records the tool did not write *)

Lemma state_of_files (s : state) (name : string) (f : file) :
  files_of s !! name = Some f ->
  mkState (Some (files_of s)) (clock s) (mkdir_events s ++ log s) = s.
Proof.
  intros Hf. destruct s as [[files|] c l]; [reflexivity|].
  unfold files_of in Hf. cbn [store from_option] in Hf.
  rewrite lookup_empty in Hf. discriminate Hf.
Qed.

(** X20: a record that is on disk but is not JSON stops the command that
    loads it: [refresh] on such a provider record, [status] on such a
    credential record, die of the [JSONDecodeError] of [json.load], which
    nothing catches, with exit status 1 and without printing, sending a
    request or changing anything. *)
Theorem unreadable_record_uncaught (w : World) (c : command) (s : state)
    (name : string) (f : file) :
  record_of c = Some name ->
  files_of s !! name = Some f ->
  read_back w f = None ->
  cli w c s = (Raise JSONDecodeError, s) /\
  exit_status (fst (cli w c s)) = 1.
Proof.
  intros Hc Hf Hread.
  assert (Hload : load_tokens w name s = (Raise JSONDecodeError, s)).
  { rewrite load_tokens_run, Hf, Hread, (state_of_files s name f Hf).
    reflexivity. }
  assert (Hrun : cli w c s = (Raise JSONDecodeError, s)).
  { destruct c; try discriminate Hc; injection Hc as <-; cbn [cli].
    - unfold refresh. rewrite bind_run, Hload. reflexivity.
    - unfold status. rewrite bind_run, Hload. reflexivity. }
  rewrite Hrun. split; reflexivity.
Qed.

(** X21: [status] fills in what a credential record lacks: a missing
    [username] or [uuid] is printed as "Unknown", and a record without
    [expires_at] counts as expiring at time 0, so its token is reported
    expired at any clock that is not negative. *)
Theorem status_of_partial_record (w : World) (s : state)
    (fields : list (string * json)) (m : Z) :
  files_of s !! MINECRAFT_TOKEN = Some (mkFile (JsonDoc (JObj fields)) m) ->
  fields <> [] ->
  assoc "expires_at" fields = None ->
  0 <= clock s ->
  status w s =
    (Ok tt,
     mkState (store s) (clock s)
       (EvEcho false MsgDataDir
        :: EvEcho false (MsgToken Expired)
        :: EvEcho false (MsgUuid (default (JStr "Unknown") (assoc "uuid" fields)))
        :: EvEcho false
             (MsgUsername (default (JStr "Unknown") (assoc "username" fields)))
        :: log s)).
Proof.
  intros Hfile Hfields Hexp Hclock.
  rewrite (status_run w s fields m 0 Hfile Hfields);
    [|rewrite Hexp; reflexivity].
  assert (Hv : token_validity 0 (clock s) = Expired).
  { apply token_validity_expired. lia. }
  rewrite Hv. reflexivity.
Qed.

(** ** The further statements at work *)

Lemma save_tokens_frame_witness :
  let s1 := snd (save_tokens Scenario.world Scenario.credential MINECRAFT_TOKEN
                   Scenario.stored) in
  files_of s1 !! MICROSOFT_TOKEN = files_of Scenario.stored !! MICROSOFT_TOKEN /\
  fst (load_tokens Scenario.world MICROSOFT_TOKEN s1)
    = fst (load_tokens Scenario.world MICROSOFT_TOKEN Scenario.stored).
Proof.
  apply (save_tokens_frame Scenario.world Scenario.credential MINECRAFT_TOKEN
           MICROSOFT_TOKEN Scenario.stored).
  discriminate.
Defined.

Lemma full_auth_flow_threads_witness :
  exists xbl_response xbl_token user_hash xsts_response xsts_token
         mc_response mc_access_token profile,
    call_result (snd (network Scenario.world (ReqXboxLive (JStr "MA"))))
      = Ok xbl_response /\
    getitem xbl_response "Token" = Ok xbl_token /\
    user_hash_of xbl_response = Ok user_hash /\
    call_result (snd (network Scenario.world (ReqXsts xbl_token)))
      = Ok xsts_response /\
    getitem xsts_response "Token" = Ok xsts_token /\
    call_result (snd (network Scenario.world (ReqMinecraft xsts_token user_hash)))
      = Ok mc_response /\
    getitem mc_response "access_token" = Ok mc_access_token /\
    call_result (snd (network Scenario.world (ReqProfile mc_access_token)))
      = Ok profile /\
    getitem Cases.credential "access_token" = Ok mc_access_token /\
    getitem Cases.credential "username" = getitem profile "name" /\
    getitem Cases.credential "uuid" = getitem profile "id" /\
    getitem Cases.credential "skins" = dict_get profile "skins" (JList []).
Proof.
  apply (full_auth_flow_threads Scenario.world (JStr "MA") Cases.credential
           Scenario.fresh
           (snd (full_auth_flow Scenario.world (JStr "MA") Scenario.fresh))).
  vm_compute. reflexivity.
Defined.

Lemma refresh_without_refresh_token_witness :
  refresh Scenario.world Scenario.fresh =
    (Raise (SystemExit 1),
     mkState (Some (files_of Scenario.fresh)) (clock Scenario.fresh)
       (EvEcho true MsgNoRefreshToken
        :: mkdir_events Scenario.fresh ++ log Scenario.fresh)) /\
  exit_status (fst (refresh Scenario.world Scenario.fresh)) = 1 /\
  files_of (snd (refresh Scenario.world Scenario.fresh)) = files_of Scenario.fresh.
Proof.
  apply (refresh_without_refresh_token Scenario.world Scenario.fresh).
  vm_compute. exact I.
Defined.

Lemma login_exchange_rejected_witness :
  login Scenario.world Cases.redirect_stale Scenario.fresh =
    (Raise (SystemExit 1),
     mkState (store Scenario.fresh) (clock Scenario.fresh + 1)
       (EvEcho true (MsgResponse None)
        :: EvEcho true (MsgAuthFailed (HTTPError 400 None))
        :: EvRequest (ReqExchange "STALE") (Response 400 None)
        :: EvEcho false MsgExchanging :: prompt_events ++ log Scenario.fresh)) /\
  exit_status (fst (login Scenario.world Cases.redirect_stale Scenario.fresh)) = 1.
Proof.
  apply (login_exchange_rejected Scenario.world Cases.redirect_stale
           Scenario.fresh "STALE" [] 1 400 None).
  - vm_compute. reflexivity.
  - reflexivity.
  - lia.
Defined.

Lemma login_exchange_uncaught_witness :
  login Cases.world_offline Scenario.redirect Scenario.fresh =
    (Raise RequestException,
     mkState (store Scenario.fresh) (clock Scenario.fresh + 1)
       (EvRequest (ReqExchange "ABC123") ConnectionFailed
        :: EvEcho false MsgExchanging :: prompt_events ++ log Scenario.fresh)) /\
  exit_status (fst (login Cases.world_offline Scenario.redirect Scenario.fresh))
    = 1.
Proof.
  apply (login_exchange_uncaught Cases.world_offline Scenario.redirect
           Scenario.fresh "ABC123" [] 1 ConnectionFailed).
  - vm_compute. reflexivity.
  - reflexivity.
  - left. reflexivity.
Defined.

Lemma refresh_after_login_without_refresh_token_witness :
  let s' := snd (login Scenario.world Scenario.redirect Scenario.fresh) in
  refresh Scenario.world s' =
    (Raise (SystemExit 1),
     mkState (store s') (clock s') (EvEcho true MsgNoRefreshToken :: log s')).
Proof.
  apply (refresh_after_login_without_refresh_token Scenario.world
           Scenario.world Scenario.redirect Scenario.fresh
           (snd (login Scenario.world Scenario.redirect Scenario.fresh))
           (fst (login Scenario.world Scenario.redirect Scenario.fresh))
           "ABC123" [] Scenario.token_reply (JStr "MA") JNull 1 200 3600).
  - vm_compute. reflexivity.
  - reflexivity.
  - reflexivity.
  - reflexivity.
  - reflexivity.
  - reflexivity.
  - reflexivity.
  - apply surjective_pairing.
Defined.

Lemma status_after_sign_in_witness :
  let s' := snd (login Scenario.world Scenario.redirect Scenario.fresh) in
  exists new xsts_token user_hash st mc_response n cred username uuid,
    log s' = new ++ log Scenario.fresh /\
    In (EvRequest (ReqMinecraft xsts_token user_hash)
                  (Response st (Some mc_response))) new /\
    lifetime 86400 mc_response n /\
    files_of s' !! MINECRAFT_TOKEN = Some (mkFile (JsonDoc cred) mode_0600) /\
    getitem cred "username" = Ok username /\
    getitem cred "uuid" = Ok uuid /\
    getitem cred "expires_at" = Ok (JInt (clock s' + n)) /\
    forall (w' : World) (t : state),
      store t = store s' ->
      status w' t =
        (Ok tt,
         mkState (store t) (clock t)
           (EvEcho false MsgDataDir
            :: EvEcho false (MsgToken (token_validity (clock s' + n) (clock t)))
            :: EvEcho false (MsgUuid uuid)
            :: EvEcho false (MsgUsername username)
            :: log t)).
Proof.
  apply (status_after_sign_in Scenario.world (Login Scenario.redirect)
           Scenario.fresh
           (snd (login Scenario.world Scenario.redirect Scenario.fresh))).
  - reflexivity.
  - vm_compute. reflexivity.
Defined.

Lemma load_access_token_after_sign_in_witness :
  let s' := snd (login Scenario.world Scenario.redirect Scenario.fresh) in
  exists new token xsts_token user_hash st mc_response,
    log s' = new ++ log Scenario.fresh /\
    In (EvRequest (ReqMinecraft xsts_token user_hash)
                  (Response st (Some mc_response))) new /\
    good_reply (Response st (Some mc_response)) = true /\
    getitem mc_response "access_token" = Ok (JStr token) /\
    load_access_token Cases.text s'
      = (Ok (Some (str_strip Cases.text token)), s').
Proof.
  apply (load_access_token_after_sign_in Scenario.world Cases.text
           (Login Scenario.redirect) Scenario.fresh
           (snd (login Scenario.world Scenario.redirect Scenario.fresh))).
  - reflexivity.
  - vm_compute. reflexivity.
Defined.

Lemma other_files_untouched_witness :
  files_of (snd (cli Scenario.world Logout Scenario.stored)) !! Cases.notes
    = files_of Scenario.stored !! Cases.notes.
Proof.
  apply (other_files_untouched Scenario.world Logout Scenario.stored Cases.notes).
  vm_compute. intros [H | [H | [H | []]]]; discriminate H.
Defined.

Lemma status_not_logged_in_witness :
  status Scenario.world Scenario.fresh =
    (Ok tt,
     mkState (Some (files_of Scenario.fresh)) (clock Scenario.fresh)
       (EvEcho false MsgNotLoggedIn
        :: mkdir_events Scenario.fresh ++ log Scenario.fresh)) /\
  exit_status (fst (status Scenario.world Scenario.fresh)) = 0 /\
  files_of (snd (status Scenario.world Scenario.fresh)) = files_of Scenario.fresh.
Proof.
  apply (status_not_logged_in Scenario.world Scenario.fresh).
  vm_compute. exact I.
Defined.

Lemma unreadable_record_uncaught_witness :
  cli Scenario.world Refresh Cases.damaged
    = (Raise JSONDecodeError, Cases.damaged) /\
  exit_status (fst (cli Scenario.world Refresh Cases.damaged)) = 1.
Proof.
  apply (unreadable_record_uncaught Scenario.world Refresh Cases.damaged
           MICROSOFT_TOKEN (mkFile (Raw "{") 384)).
  - reflexivity.
  - vm_compute. reflexivity.
  - reflexivity.
Defined.

Lemma status_of_partial_record_witness :
  status Scenario.world Cases.partial =
    (Ok tt,
     mkState (store Cases.partial) (clock Cases.partial)
       (EvEcho false MsgDataDir
        :: EvEcho false (MsgToken Expired)
        :: EvEcho false
             (MsgUuid (default (JStr "Unknown")
                         (assoc "uuid" Cases.partial_record)))
        :: EvEcho false
             (MsgUsername (default (JStr "Unknown")
                             (assoc "username" Cases.partial_record)))
        :: log Cases.partial)).
Proof.
  apply (status_of_partial_record Scenario.world Cases.partial
           Cases.partial_record 384).
  - vm_compute. reflexivity.
  - discriminate.
  - reflexivity.
  - simpl. lia.
Defined.
